(** * Governance kernel of the sovereign monorepo: a shallow embedding

    The development follows [src/infra/core/daemon]:
    - [invariants.py]        : [InvariantResult], [Invariant], [InvariantRegistry],
                               validators of [create_default_registry];
    - [governance_daemon.py] : [EvidenceLedger], [HUGProtocol],
                               [LoudFailureHandler], [GovernanceDaemon];
    - [halt_matrix.py]       : [HaltMatrix], [evaluate_operation];
    - [hug_protocol.py]      : [run_invariant_tests], [run_hug_audit].

    Python values that reach [json.dumps] are modelled by the type [json];
    [hashlib.sha256] is implemented from FIPS 180-4 and checked on the
    standard test vectors; files, the clock and I/O failures live in an
    explicit [world] threaded through a state-and-exception monad; where
    two ledger files are in play, a [machine] keeps the files by path. *)

From Stdlib Require Import ZArith List String Ascii Bool Lia DecimalString.
From stdpp Require Import gmap strings list.

Import ListNotations.

Set Warnings "-register-all".

(* ===================================================================== *)
(** ** Python strings *)
(* ===================================================================== *)

(** A Python [str] is modelled by a Rocq [string] whose characters are the
    code points below 256. *)
Module PyStr.
Local Open Scope string_scope.

Definition code (c : ascii) : N := N_of_ascii c.

(** [str.lower()] on code points below 256: A-Z, and the Latin-1 capitals
    U+00C0..U+00DE except the multiplication sign U+00D7. *)
Definition lower_char (c : ascii) : ascii :=
  let n := code c in
  if ((65 <=? n) && (n <=? 90))%N then ascii_of_N (n + 32)
  else if ((192 <=? n) && (n <=? 222) && negb (n =? 215))%N then ascii_of_N (n + 32)
  else c.

Fixpoint lower (s : string) : string :=
  match s with
  | EmptyString => EmptyString
  | String c r => String (lower_char c) (lower r)
  end.

Fixpoint starts_with (p s : string) : bool :=
  match p, s with
  | EmptyString, _ => true
  | String a p', String b s' => if Ascii.eqb a b then starts_with p' s' else false
  | String _ _, EmptyString => false
  end.

(** [needle in hay] *)
Fixpoint contains (needle hay : string) : bool :=
  if starts_with needle hay then true
  else match hay with
       | EmptyString => false
       | String _ r => contains needle r
       end.

(** [s[:n]] *)
Fixpoint take (n : nat) (s : string) : string :=
  match n, s with
  | O, _ => EmptyString
  | S _, EmptyString => EmptyString
  | S n', String c r => String c (take n' r)
  end.

(** [sep.join(l)] *)
Fixpoint join (sep : string) (l : list string) : string :=
  match l with
  | [] => EmptyString
  | [x] => x
  | x :: r => x ++ sep ++ join sep r
  end.

(** [str(n)] for an [int] *)
Definition of_Z (n : Z) : string := NilZero.string_of_int (Z.to_int n).

(** The number of positions at which two strings of the same length
    differ; [None] when the lengths differ. *)
Fixpoint hamming (a b : string) : option nat :=
  match a, b with
  | EmptyString, EmptyString => Some O
  | String x a', String y b' =>
      match hamming a' b' with
      | Some n => Some (if Ascii.eqb x y then n else S n)
      | None => None
      end
  | _, _ => None
  end.
End PyStr.

(* ===================================================================== *)
(** ** hashlib.sha256 (FIPS 180-4) *)
(* ===================================================================== *)

Module Sha256.
Local Open Scope Z_scope.

Definition mask32 (x : Z) : Z := Z.land x 0xFFFFFFFF.
Definition add32 (x y : Z) : Z := mask32 (x + y).
Definition rotr (n x : Z) : Z :=
  Z.lor (Z.shiftr x n) (mask32 (Z.shiftl x (32 - n))).
Definition shr (n x : Z) : Z := Z.shiftr x n.
Definition not32 (x : Z) : Z := Z.lxor x 0xFFFFFFFF.

Definition Ch (x y z : Z) : Z := Z.lxor (Z.land x y) (Z.land (not32 x) z).
Definition Maj (x y z : Z) : Z :=
  Z.lxor (Z.lxor (Z.land x y) (Z.land x z)) (Z.land y z).
Definition Sigma0 (x : Z) : Z := Z.lxor (Z.lxor (rotr 2 x) (rotr 13 x)) (rotr 22 x).
Definition Sigma1 (x : Z) : Z := Z.lxor (Z.lxor (rotr 6 x) (rotr 11 x)) (rotr 25 x).
Definition sigma0 (x : Z) : Z := Z.lxor (Z.lxor (rotr 7 x) (rotr 18 x)) (shr 3 x).
Definition sigma1 (x : Z) : Z := Z.lxor (Z.lxor (rotr 17 x) (rotr 19 x)) (shr 10 x).

(** The first 64 primes. *)
Definition primes : list Z :=
  [ 2; 3; 5; 7; 11; 13; 17; 19; 23; 29; 31; 37; 41; 43; 47; 53; 59; 61; 67; 71;
    73; 79; 83; 89; 97; 101; 103; 107; 109; 113; 127; 131; 137; 139; 149; 151;
    157; 163; 167; 173; 179; 181; 191; 193; 197; 199; 211; 223; 227; 229; 233;
    239; 241; 251; 257; 263; 269; 271; 277; 281; 283; 293; 307; 311 ].

(** The integer cube root of [n] below [2 ^ bits], one bit at a time. *)
Fixpoint icbrt (bits : nat) (n r : Z) : Z :=
  match bits with
  | O => r
  | S b =>
      let r' := r + Z.shiftl 1 (Z.of_nat b) in
      icbrt b n (if r' * r' * r' <=? n then r' else r)
  end.

(** The round constants: the first 32 bits of the fractional parts of the
    cube roots of the first 64 primes. *)
Definition K : list Z :=
  Eval vm_compute in map (fun p => mask32 (icbrt 40 (Z.shiftl p 96) 0)) primes.

(** [str.encode()]: UTF-8 of the code points below 256. *)
Definition utf8_char (c : ascii) : list Z :=
  let n := Z.of_N (N_of_ascii c) in
  if n <? 128 then [n]
  else [Z.lor 0xC0 (Z.shiftr n 6); Z.lor 0x80 (Z.land n 0x3F)].

Fixpoint encode (s : string) : list Z :=
  match s with
  | EmptyString => []
  | String c r => utf8_char c ++ encode r
  end.

(** The [n] low bytes of [x], most significant first. *)
Fixpoint be_bytes (n : nat) (x : Z) : list Z :=
  match n with
  | O => []
  | S n' => Z.land (Z.shiftr x (8 * Z.of_nat n')) 0xFF :: be_bytes n' x
  end.

Definition pad (msg : list Z) : list Z :=
  let n := Z.of_nat (length msg) in
  msg ++ [0x80] ++ repeat 0 (Z.to_nat ((55 - n) mod 64)) ++ be_bytes 8 (8 * n).

Fixpoint words (bs : list Z) : list Z :=
  match bs with
  | a :: b :: c :: d :: r =>
      Z.lor (Z.lor (Z.shiftl a 24) (Z.shiftl b 16)) (Z.lor (Z.shiftl c 8) d)
      :: words r
  | _ => []
  end.

(** Message schedule: [w] holds W_0..W_(t-1); [n] more words are added. *)
Fixpoint schedule (n : nat) (w : list Z) : list Z :=
  match n with
  | O => w
  | S n' =>
      let t := length w in
      let g i := nth (t - i) w 0 in
      schedule n'
        (w ++ [add32 (add32 (sigma1 (g 2%nat)) (g 7%nat))
                     (add32 (sigma0 (g 15%nat)) (g 16%nat))])
  end.

Definition regs : Type := Z * Z * Z * Z * Z * Z * Z * Z.

(** The initial hash value: the first 32 bits of the fractional parts of
    the square roots of the first 8 primes. *)
Definition sqrt_frac (p : Z) : Z := mask32 (Z.sqrt (Z.shiftl p 64)).

Definition H0 : regs :=
  Eval vm_compute in
    (sqrt_frac 2, sqrt_frac 3, sqrt_frac 5, sqrt_frac 7,
     sqrt_frac 11, sqrt_frac 13, sqrt_frac 17, sqrt_frac 19).

Definition round (s : regs) (kw : Z * Z) : regs :=
  let '(a, b, c, d, e, f, g, h) := s in
  let '(k, w) := kw in
  let t1 := add32 (add32 (add32 h (Sigma1 e)) (add32 (Ch e f g) k)) w in
  let t2 := add32 (Sigma0 a) (Maj a b c) in
  (add32 t1 t2, a, b, c, add32 d t1, e, f, g).

Definition compress (s : regs) (block : list Z) : regs :=
  let w := schedule 48 block in
  let '(a, b, c, d, e, f, g, h) := fold_left round (combine K w) s in
  let '(a0, b0, c0, d0, e0, f0, g0, h0) := s in
  (add32 a0 a, add32 b0 b, add32 c0 c, add32 d0 d,
   add32 e0 e, add32 f0 f, add32 g0 g, add32 h0 h).

(** The blocks of 16 words, one after the other; [fuel] bounds their number. *)
Fixpoint blocks (fuel : nat) (s : regs) (ws : list Z) : regs :=
  match fuel with
  | O => s
  | S fuel' =>
      match ws with
      | [] => s
      | _ => blocks fuel' (compress s (firstn 16 ws)) (skipn 16 ws)
      end
  end.

Definition digest (msg : list Z) : list Z :=
  let ws := words (pad msg) in
  let '(a, b, c, d, e, f, g, h) :=
    blocks (length ws) H0 ws in
  [a; b; c; d; e; f; g; h].

Definition hex_digit (n : Z) : ascii :=
  if n <? 10 then ascii_of_N (Z.to_N (48 + n)) else ascii_of_N (Z.to_N (87 + n)).

Fixpoint hex (digits : nat) (x : Z) : string :=
  match digits with
  | O => EmptyString
  | S d => String (hex_digit (Z.land (Z.shiftr x (4 * Z.of_nat d)) 0xF)) (hex d x)
  end.

(** [hashlib.sha256(s.encode()).hexdigest()] *)
Definition hexdigest (s : string) : string :=
  fold_right (fun w acc => String.append (hex 8 w) acc) EmptyString
             (digest (encode s)).
End Sha256.

Local Open Scope string_scope.
Local Open Scope list_scope.

(* ===================================================================== *)
(** ** Python values that reach [json.dumps] *)
(* ===================================================================== *)

Module Json.

(** [None], [bool], [int], [str], [list] and [dict] with string keys.  A
    [dict] keeps its items in insertion order, as Python does; floats are
    not modelled. *)
Inductive json : Type :=
| JNull
| JBool (b : bool)
| JInt (n : Z)
| JStr (s : string)
| JList (l : list json)
| JDict (d : list (string * json)).

(** [d.get(k)] on the items of a dict; [None] when the key is absent. *)
Fixpoint lookup (k : string) (d : list (string * json)) : option json :=
  match d with
  | [] => None
  | (k', v) :: r => if String.eqb k k' then Some v else lookup k r
  end.

(** [d[k] = v]: the value is replaced where the key is, a new key goes last. *)
Fixpoint set (k : string) (v : json) (d : list (string * json))
  : list (string * json) :=
  match d with
  | [] => [(k, v)]
  | (k', v') :: r => if String.eqb k k' then (k, v) :: r else (k', v') :: set k v r
  end.

(** Python [==].  [bool] is a subclass of [int] ([True == 1]); dicts are
    equal when they have the same keys with equal values, in any order. *)
Fixpoint py_eqb (a b : json) {struct a} : bool :=
  match a, b with
  | JNull, JNull => true
  | JBool x, JBool y => Bool.eqb x y
  | JBool x, JInt n => Z.eqb (if x then 1 else 0) n
  | JInt n, JBool x => Z.eqb n (if x then 1 else 0)
  | JInt n, JInt m => Z.eqb n m
  | JStr s, JStr t => String.eqb s t
  | JList l, JList m =>
      (fix all2 (l : list json) (m : list json) {struct l} : bool :=
         match l, m with
         | [], [] => true
         | x :: l', y :: m' => py_eqb x y && all2 l' m'
         | _, _ => false
         end) l m
  | JDict d, JDict e =>
      Nat.eqb (length d) (length e)
      && (fix sub (d : list (string * json)) {struct d} : bool :=
            match d with
            | [] => true
            | (k, v) :: d' =>
                match lookup k e with
                | Some v' => py_eqb v v' && sub d'
                | None => false
                end
            end) d
  | _, _ => false
  end.

(** *** [json.dumps] *)

Definition hex4 (n : N) : string := Sha256.hex 4 (Z.of_N n).

(** The encoder's [ensure_ascii] escapes: the two-character escapes, and
    a backslash, [u] and four hexadecimal digits for every other character
    outside the range from the space to the tilde. *)
Definition backslash : string := String (ascii_of_N 92) EmptyString.

Definition escape_char (c : ascii) : string :=
  let n := N_of_ascii c in
  if (n =? 34)%N then backslash +:+ String c EmptyString
  else if (n =? 92)%N then backslash +:+ backslash
  else if (n =? 10)%N then backslash +:+ "n"
  else if (n =? 13)%N then backslash +:+ "r"
  else if (n =? 9)%N then backslash +:+ "t"
  else if (n =? 8)%N then backslash +:+ "b"
  else if (n =? 12)%N then backslash +:+ "f"
  else if ((n <? 32) || (126 <? n))%N then backslash +:+ "u" +:+ hex4 n
  else String c EmptyString.

Fixpoint escape (s : string) : string :=
  match s with
  | EmptyString => EmptyString
  | String c r => escape_char c +:+ escape r
  end.

Definition quote (s : string) : string :=
  String (ascii_of_N 34) (escape s) +:+ String (ascii_of_N 34) EmptyString.

(** [json.dumps(j, separators=(",", ":"))] *)
Fixpoint dumps (j : json) : string :=
  match j with
  | JNull => "null"
  | JBool true => "true"
  | JBool false => "false"
  | JInt n => PyStr.of_Z n
  | JStr s => quote s
  | JList l => "[" +:+ PyStr.join "," (map dumps l) +:+ "]"
  | JDict d =>
      "{" +:+ PyStr.join ","
               (map (fun kv => quote (fst kv) +:+ ":" +:+ dumps (snd kv)) d)
          +:+ "}"
  end.

(** [sorted(d.items())]: a stable insertion sort on the keys. *)
Fixpoint insert_item (kv : string * json) (d : list (string * json))
  : list (string * json) :=
  match d with
  | [] => [kv]
  | kv' :: r =>
      if String.ltb (fst kv) (fst kv') then kv :: kv' :: r
      else kv' :: insert_item kv r
  end.

Definition sort_items (d : list (string * json)) : list (string * json) :=
  fold_left (fun acc kv => insert_item kv acc) d [].

(** What [sort_keys=True] does to a value: every dict, at every depth,
    is written with its keys in increasing order. *)
Fixpoint sort_keys (j : json) : json :=
  match j with
  | JList l => JList (map sort_keys l)
  | JDict d => JDict (sort_items (map (fun kv => (fst kv, sort_keys (snd kv))) d))
  | _ => j
  end.

(** [json.dumps(j, sort_keys=True, separators=(",", ":"))] *)
Definition dumps_canonical (j : json) : string := dumps (sort_keys j).

(** A line of a JSON-lines file, as [json.loads] sees it: the value it
    returns, or [Malformed] when it raises [JSONDecodeError].  A line
    written by [json.dumps(v)] reads back as [Parsed v]. *)
Inductive line : Type :=
| Malformed
| Parsed (j : json).

End Json.
Export Json.

(* ===================================================================== *)
(** ** Exceptions, the file, the clock and the log *)
(* ===================================================================== *)

Module Py.

(** The exception classes the handlers of the kernel tell apart.
    [OSError] stands for [OSError] and its subclasses, which is what
    [except IOError] catches; [OtherError] is any other subclass of
    [Exception]. *)
Inductive exc_kind : Type := OSError | JSONDecodeError | AttributeError | OtherError.

(** An exception deriving from [Exception]: its class, [type(e).__name__]
    and [str(e)]. *)
Record exn : Type := Exn { exc_kind_of : exc_kind; exc_type : string; exc_msg : string }.

Inductive outcome (A : Type) : Type :=
| Returned (a : A)
| Raised (e : exn).
Arguments Returned {A} a.
Arguments Raised {A} e.

(** The part of the machine the kernel touches: the ledger file ([None]
    when it does not exist), the failures the file system has in store
    (one entry per file operation to come, [Some msg] making it raise an
    [OSError]), the clock and the log records emitted so far. *)
Record world : Type := World {
  file : option (list line);
  io : list (option string);
  clock : nat -> string;
  ticks : nat;
  log : list (string * string)
}.

Definition M (A : Type) : Type := world -> outcome A * world.

Definition ret {A} (a : A) : M A := fun w => (Returned a, w).
Definition raise {A} (e : exn) : M A := fun w => (Raised e, w).
Definition bind {A B} (c : M A) (k : A -> M B) : M B :=
  fun w => match c w with
           | (Returned a, w') => k a w'
           | (Raised e, w') => (Raised e, w')
           end.

(** [try: c  except <classes>: h] *)
Definition try_except {A} (c : M A) (catches : exc_kind -> bool) (h : exn -> M A) : M A :=
  fun w => match c w with
           | (Raised e, w') => if catches (exc_kind_of e) then h e w' else (Raised e, w')
           | r => r
           end.

(** [datetime.now(timezone.utc).isoformat()] *)
Definition now : M string :=
  fun w => (Returned (clock w (ticks w)),
            World (file w) (io w) (clock w) (S (ticks w)) (log w)).

(** One operation on the file system: it raises when the file system has
    a failure in store for it. *)
Definition fs_op : M unit :=
  fun w => match io w with
           | Some msg :: rest =>
               (Raised (Exn OSError "OSError" msg),
                World (file w) rest (clock w) (ticks w) (log w))
           | None :: rest =>
               (Returned tt, World (file w) rest (clock w) (ticks w) (log w))
           | [] => (Returned tt, w)
           end.

Definition get_file : M (option (list line)) := fun w => (Returned (file w), w).
Definition put_file (f : option (list line)) : M unit :=
  fun w => (Returned tt, World f (io w) (clock w) (ticks w) (log w)).

(** [logging.<level>(msg)] *)
Definition logging (level msg : string) : M unit :=
  fun w => (Returned tt,
            World (file w) (io w) (clock w) (ticks w) (log w ++ [(level, msg)])).

(** [open(path, 'a')]: the file is created when it does not exist. *)
Definition open_append : M unit :=
  bind fs_op (fun _ =>
  bind get_file (fun f =>
  put_file (Some (match f with Some l => l | None => [] end)))).

(** [f.write(...)] of the line [json.dumps(v)] on a file opened for
    appending. *)
Definition write_line (v : json) : M unit :=
  bind fs_op (fun _ =>
  bind get_file (fun f =>
  put_file (Some (match f with Some l => l | None => [] end ++ [Parsed v])))).

(** [open(path, 'r')] followed by reading every line. *)
Definition read_lines : M (list line) :=
  bind fs_op (fun _ =>
  bind get_file (fun f =>
  match f with
  | Some l => ret l
  | None => raise (Exn OSError "FileNotFoundError" "No such file or directory")
  end)).

(** [json.loads(line)] *)
Definition loads (l : line) : M json :=
  match l with
  | Parsed j => ret j
  | Malformed => raise (Exn JSONDecodeError "JSONDecodeError" "Expecting value")
  end.

(** [entry.get(k)]: a dict answers, anything else has no [get]. *)
Definition get (entry : json) (k : string) : M json :=
  match entry with
  | JDict d => ret (match Json.lookup k d with Some v => v | None => JNull end)
  | _ => raise (Exn AttributeError "AttributeError" "object has no attribute 'get'")
  end.

End Py.
Export Py.

Declare Scope py_scope.
Delimit Scope py_scope with py.
Notation "'let*' x ':=' c 'in' k" := (Py.bind c (fun x => k))
  (at level 10, x name, c at level 100, k at level 200) : py_scope.
Notation "c ';;' k" := (Py.bind c (fun _ => k))
  (at level 100, k at level 200, right associativity) : py_scope.

(* ===================================================================== *)
(** ** invariants.py *)
(* ===================================================================== *)

Module Invariants.
Local Open Scope py_scope.

Inductive Severity : Type := INFO | LOW | MEDIUM | HIGH | CRITICAL.

Definition Severity_value (s : Severity) : string :=
  match s with
  | INFO => "INFO" | LOW => "LOW" | MEDIUM => "MEDIUM"
  | HIGH => "HIGH" | CRITICAL => "CRITICAL"
  end.

Definition Severity_eqb (a b : Severity) : bool :=
  String.eqb (Severity_value a) (Severity_value b).

Inductive InvariantStatus : Type := PASS | FAIL | SKIP | ERROR.

Definition InvariantStatus_value (s : InvariantStatus) : string :=
  match s with
  | PASS => "PASS" | FAIL => "FAIL" | SKIP => "SKIP" | ERROR => "ERROR"
  end.

Definition InvariantStatus_eqb (a b : InvariantStatus) : bool :=
  match a, b with
  | PASS, PASS | FAIL, FAIL | SKIP, SKIP | ERROR, ERROR => true
  | _, _ => false
  end.

(** *** InvariantResult *)

Record InvariantResult : Type := {
  invariant_id : string;
  name : string;
  status : InvariantStatus;
  severity : Severity;
  reason : string;
  timestamp : string;
  evidence : list (string * json);
  hash : string
}.

Definition _compute_hash (self : InvariantResult) : string :=
  let data := JDict [
    ("invariant_id", JStr (invariant_id self));
    ("name", JStr (name self));
    ("status", JStr (InvariantStatus_value (status self)));
    ("severity", JStr (Severity_value (severity self)));
    ("reason", JStr (reason self));
    ("timestamp", JStr (timestamp self));
    ("evidence", JDict (evidence self)) ] in
  let canonical := dumps_canonical data in
  PyStr.take 16 (Sha256.hexdigest canonical).

(** [not self.hash]: the empty string is the only false one. *)
Definition is_empty (s : string) : bool :=
  match s with EmptyString => true | String _ _ => false end.

Definition __post_init__ (self : InvariantResult) : InvariantResult :=
  if is_empty (hash self) then
    {| invariant_id := invariant_id self; name := name self;
       status := status self; severity := severity self;
       reason := reason self; timestamp := timestamp self;
       evidence := evidence self; hash := _compute_hash self |}
  else self.

(** The constructor generated by [@dataclass]: the fields are stored,
    then [__post_init__] runs.  The defaults of [timestamp], [evidence]
    and [hash] are supplied by the callers below. *)
Definition InvariantResult_init
    (invariant_id name : string) (status : InvariantStatus)
    (severity : Severity) (reason timestamp : string)
    (evidence : list (string * json)) (hash : string) : InvariantResult :=
  __post_init__
    {| invariant_id := invariant_id; name := name; status := status;
       severity := severity; reason := reason; timestamp := timestamp;
       evidence := evidence; hash := hash |}.

Definition to_dict (self : InvariantResult) : json :=
  JDict [
    ("invariant_id", JStr (invariant_id self));
    ("name", JStr (name self));
    ("status", JStr (InvariantStatus_value (status self)));
    ("severity", JStr (Severity_value (severity self)));
    ("reason", JStr (reason self));
    ("timestamp", JStr (timestamp self));
    ("evidence", JDict (evidence self));
    ("hash", JStr (hash self)) ].

Definition is_failure (self : InvariantResult) : bool :=
  match status self with
  | FAIL | ERROR => true
  | _ => false
  end.

(** *** Invariant *)

Definition context : Type := list (string * json).

(** A validator is a function of the context, as its type
    [Callable[[Dict[str, Any]], InvariantResult]] says: on a context it
    returns a result or raises. *)
Record Invariant : Type := {
  inv_id : string;
  inv_name : string;
  inv_description : string;
  inv_severity : Severity;
  inv_validator : context -> outcome InvariantResult;
  inv_enabled : bool;
  inv_agi_safety : bool
}.

Definition call_validator (self : Invariant) (ctx : context) : M InvariantResult :=
  fun w => (inv_validator self ctx, w).

Definition validate (self : Invariant) (ctx : context) : M InvariantResult :=
  if negb (inv_enabled self) then
    let* ts := now in
    ret (InvariantResult_init (inv_id self) (inv_name self) SKIP
           (inv_severity self) "Invariant disabled" ts
           [("enabled", JBool false)] EmptyString)
  else
    try_except (call_validator self ctx) (fun _ => true)
      (fun e =>
         let* ts := now in
         ret (InvariantResult_init (inv_id self) (inv_name self) ERROR
                CRITICAL ("Validator error: " +:+ exc_msg e) ts
                [("exception", JStr (exc_msg e));
                 ("exception_type", JStr (exc_type e))] EmptyString)).

(** *** InvariantRegistry *)

(** [_invariants] is a dict: its items are kept in insertion order. *)
Record InvariantRegistry : Type := {
  _invariants : list (string * Invariant);
  _results_history : list InvariantResult
}.

Definition InvariantRegistry_init : InvariantRegistry :=
  {| _invariants := []; _results_history := [] |}.

(** [d[k] = v] on a dict: an existing key keeps its position. *)
Fixpoint dict_set (k : string) (v : Invariant) (d : list (string * Invariant))
  : list (string * Invariant) :=
  match d with
  | [] => [(k, v)]
  | (k', v') :: r =>
      if String.eqb k k' then (k, v) :: r else (k', v') :: dict_set k v r
  end.

Fixpoint dict_get (k : string) (d : list (string * Invariant)) : option Invariant :=
  match d with
  | [] => None
  | (k', v) :: r => if String.eqb k k' then Some v else dict_get k r
  end.

Definition values (d : list (string * Invariant)) : list Invariant := map snd d.

Definition register (self : InvariantRegistry) (invariant : Invariant)
  : outcome InvariantRegistry :=
  Returned {| _invariants := dict_set (inv_id invariant) invariant (_invariants self);
              _results_history := _results_history self |}.

Definition get (self : InvariantRegistry) (invariant_id : string) : option Invariant :=
  dict_get invariant_id (_invariants self).

Definition list_all (self : InvariantRegistry) : list Invariant :=
  values (_invariants self).

(** The loop of [validate_all]: [results] and [history] are the two lists
    the body appends to. *)
Fixpoint validate_loop (invs : list Invariant) (ctx : context)
    (results history : list InvariantResult)
  : M (list InvariantResult * list InvariantResult) :=
  match invs with
  | [] => ret (results, history)
  | invariant :: rest =>
      let* result := validate invariant ctx in
      validate_loop rest ctx (results ++ [result]) (history ++ [result])
  end.

Definition validate_all (self : InvariantRegistry) (ctx : context)
  : M (list InvariantResult * InvariantRegistry) :=
  let* rh := validate_loop (values (_invariants self)) ctx [] (_results_history self) in
  ret (fst rh, {| _invariants := _invariants self; _results_history := snd rh |}).

Definition get_failures (results : list InvariantResult) : list InvariantResult :=
  List.filter (fun r => is_failure r) results.

Definition has_critical_failure (results : list InvariantResult) : bool :=
  existsb (fun r => is_failure r && Severity_eqb (severity r) CRITICAL) results.

End Invariants.

(* ===================================================================== *)
(** ** governance_daemon.py: EvidenceLedger *)
(* ===================================================================== *)

Module Ledger.
Import Invariants.
Local Open Scope py_scope.

(** [_last_hash] is [None] ([JNull]) or what [get("entry_hash")] gave. *)
Record EvidenceLedger : Type := {
  path : string;
  _last_hash : json
}.

(** [Path(self.path).parent.mkdir(parents=True, exist_ok=True)] *)
Definition _ensure_directory : M unit := fs_op.

Definition _load_last_hash (self : EvidenceLedger) : M EvidenceLedger :=
  let* f := get_file in
  match f with
  | None => ret self
  | Some _ =>
      try_except
        (let* lines := read_lines in
         match last lines with
         | None => ret self
         | Some l =>
             let* last_entry := loads l in
             let* h := Py.get last_entry "entry_hash" in
             ret {| path := path self; _last_hash := h |}
         end)
        (fun k => match k with JSONDecodeError | OSError => true | _ => false end)
        (fun _ => ret self)
  end.

Definition EvidenceLedger_init (path : string) : M EvidenceLedger :=
  _ensure_directory ;;
  _load_last_hash {| path := path; _last_hash := JNull |}.

Definition _compute_entry_hash (self : EvidenceLedger) (entry : list (string * json))
  : string :=
  let entry_with_prev := Json.set "previous_hash" (_last_hash self) entry in
  let canonical := dumps_canonical (JDict entry_with_prev) in
  Sha256.hexdigest canonical.

(** The tail shared by [append] and [append_event]: hash the entry, store
    the hash in it, write the line, move [_last_hash]. *)
Definition write_entry (self : EvidenceLedger) (entry : list (string * json))
  : M (string * EvidenceLedger) :=
  let entry_hash := _compute_entry_hash self entry in
  let entry := Json.set "entry_hash" (JStr entry_hash) entry in
  open_append ;;
  write_line (JDict entry) ;;
  ret (entry_hash, {| path := path self; _last_hash := JStr entry_hash |}).

Definition append (self : EvidenceLedger) (result : InvariantResult)
  : M (string * EvidenceLedger) :=
  let* ts := now in
  write_entry self
    [ ("type", JStr "INVARIANT_RESULT");
      ("timestamp", JStr ts);
      ("previous_hash", _last_hash self);
      ("result", to_dict result) ].

Fixpoint append_batch (self : EvidenceLedger) (results : list InvariantResult)
  : M (list string * EvidenceLedger) :=
  match results with
  | [] => ret ([], self)
  | r :: rest =>
      let* hs := append self r in
      let* hss := append_batch (snd hs) rest in
      ret (fst hs :: fst hss, snd hss)
  end.

Definition append_event (self : EvidenceLedger) (event_type : string)
    (payload : json) : M (string * EvidenceLedger) :=
  let* ts := now in
  write_entry self
    [ ("type", JStr event_type);
      ("timestamp", JStr ts);
      ("previous_hash", _last_hash self);
      ("payload", payload) ].

Definition str_of_nat (n : nat) : string := PyStr.of_Z (Z.of_nat n).

(** The body of the loop of [verify_chain] on one line: [inl b] is
    [return b], [inr h] goes on with [prev_hash = h]. *)
Definition verify_line (line_num : nat) (l : line) (prev_hash : json)
  : M (bool + json) :=
  try_except
    (let* entry := loads l in
     let* p := Py.get entry "previous_hash" in
     if negb (py_eqb p prev_hash) then
       logging "ERROR" ("Chain broken at line " +:+ str_of_nat line_num) ;;
       ret (inl false)
     else
       let* h := Py.get entry "entry_hash" in
       ret (inr h))
    (fun k => match k with JSONDecodeError => true | _ => false end)
    (fun _ =>
       logging "ERROR" ("Invalid JSON at line " +:+ str_of_nat line_num) ;;
       ret (inl false)).

Fixpoint verify_loop (lines : list line) (line_num : nat) (prev_hash : json)
  : M bool :=
  match lines with
  | [] => ret true
  | l :: rest =>
      let* step := verify_line line_num l prev_hash in
      match step with
      | inl b => ret b
      | inr h => verify_loop rest (S line_num) h
      end
  end.

Definition verify_chain (self : EvidenceLedger) : M bool :=
  let* f := get_file in
  match f with
  | None => ret true
  | Some _ =>
      let* lines := read_lines in
      verify_loop lines 1 JNull
  end.

End Ledger.

(* ===================================================================== *)
(** ** governance_daemon.py: HUGProtocol *)
(* ===================================================================== *)

Module Hug.
Import Invariants Ledger.
Local Open Scope py_scope.

Record HUGResult : Type := {
  step : string;
  passed : bool;
  evidence : list (string * json);
  timestamp : string
}.

Record HUGProtocol : Type := { ledger : EvidenceLedger }.

(** The loop that logs the step results to the ledger. *)
Fixpoint log_results (l : EvidenceLedger) (results : list HUGResult)
  : M EvidenceLedger :=
  match results with
  | [] => ret l
  | hug :: rest =>
      let* hl :=
        append_event l ("HUG_STEP_" +:+ step hug)
          (JDict [ ("passed", JBool (passed hug));
                   ("evidence", JDict (evidence hug));
                   ("timestamp", JStr (timestamp hug)) ]) in
      log_results (snd hl) rest
  end.

Definition count_pass (invariant_results : list InvariantResult) : nat :=
  length (List.filter (fun r => InvariantStatus_eqb (status r) PASS) invariant_results).

Definition run_audit (self : HUGProtocol) (changed_files : list string)
    (commit_msg : string) (invariant_results : list InvariantResult)
  : M (list HUGResult * HUGProtocol) :=
  let* now_ := now in
  (* H: Human Review Gate *)
  let needs_human :=
    existsb (fun f => PyStr.contains "invariant" (PyStr.lower f)
                      || PyStr.contains "governance" (PyStr.lower f)
                      || PyStr.contains "constitution" (PyStr.lower f))
            changed_files in
  let human_approved :=
    PyStr.contains "approved" (PyStr.lower commit_msg)
    || PyStr.contains "[human-approved]" (PyStr.lower commit_msg)
    || negb needs_human in
  let results :=
    [ {| step := "H"; passed := human_approved;
         evidence := [ ("changed_files", JList (map JStr changed_files));
                       ("commit_msg", JStr commit_msg);
                       ("needs_human_review", JBool needs_human);
                       ("human_approved", JBool human_approved) ];
         timestamp := now_ |} ] in
  (* U: Unit/Invariant Check *)
  let all_passed :=
    forallb (fun r => InvariantStatus_eqb (status r) PASS) invariant_results in
  let failures := map to_dict (List.filter (fun r => is_failure r) invariant_results) in
  let results := results ++
    [ {| step := "U"; passed := all_passed;
         evidence := [ ("total_invariants", JInt (Z.of_nat (length invariant_results)));
                       ("passed", JInt (Z.of_nat (count_pass invariant_results)));
                       ("failed", JInt (Z.of_nat (length failures)));
                       ("failures", JList (firstn 5 failures)) ];
         timestamp := now_ |} ] in
  (* G: Governance Evidence Log *)
  let results := results ++
    [ {| step := "G"; passed := true;
         evidence := [ ("audit_complete", JBool true);
                       ("results_count", JInt (Z.of_nat (length results)));
                       ("ledger_path", JStr (path (ledger self))) ];
         timestamp := now_ |} ] in
  let* l := log_results (ledger self) results in
  ret (results, {| ledger := l |}).

Definition is_audit_passed (results : list HUGResult) : bool :=
  forallb passed results.

End Hug.

(* ===================================================================== *)
(** ** hug_protocol.py *)
(* ===================================================================== *)

Module HugProtocol.
Local Open Scope py_scope.

Record HUGResult : Type := {
  step : string;
  passed : bool;
  evidence : list (string * json);
  timestamp : string
}.

Definition to_dict (self : HUGResult) : json :=
  JDict [ ("step", JStr (step self));
          ("passed", JBool (passed self));
          ("evidence", JDict (evidence self));
          ("timestamp", JStr (timestamp self)) ].

Definition CRITICAL_PATTERNS : list string :=
  [ "invariant"; "governance"; "constitution"; "daemon"; "authority";
    "security"; "credential"; "secret"; ".env"; "kill_switch"; "halt" ].

Definition matches_critical (file_path : string) : bool :=
  existsb (fun pattern => PyStr.contains pattern (PyStr.lower file_path))
          CRITICAL_PATTERNS.

Definition needs_human_review (changed_files : list string) : bool :=
  existsb matches_critical changed_files.

Definition is_human_approved (commit_msg : string) : bool :=
  let msg_lower := PyStr.lower commit_msg in
  PyStr.contains "[human-approved]" msg_lower
  || PyStr.contains "[approved]" msg_lower
  || PyStr.contains "approved-by:" msg_lower
  || PyStr.contains "acked-by:" msg_lower.

(** The body of the [with open(ledger_path, 'a')] block. *)
Fixpoint write_results (results : list HUGResult) : M unit :=
  match results with
  | [] => ret tt
  | r :: rest =>
      write_line (JDict [ ("type", JStr ("HUG_STEP_" +:+ step r));
                          ("timestamp", JStr (timestamp r));
                          ("result", to_dict r) ]) ;;
      write_results rest
  end.

(** What [run_invariant_tests] returns once the validation cycle of the
    daemon has given [results]. *)
Definition invariant_tests_verdict (results : list Invariants.InvariantResult)
  : bool * list (string * json) :=
  let failures := Invariants.get_failures results in
  (Nat.eqb (length failures) 0,
   [ ("total", JInt (Z.of_nat (length results)));
     ("passed", JInt (Z.of_nat (length results) - Z.of_nat (length failures)));
     ("failed", JInt (Z.of_nat (length failures)));
     ("failures", JList (map Invariants.to_dict (firstn 5 failures))) ]).

(** The verdict of [main]: the exit status is 0 exactly when this holds. *)
Definition audit_passed (results : list HUGResult) : bool :=
  forallb passed results.

End HugProtocol.

(* ===================================================================== *)
(** ** halt_matrix.py *)
(* ===================================================================== *)

Module HaltMatrix.
Local Open Scope py_scope.

Inductive Severity : Type := INFO | WARN | FAULT | CRITICAL.

Definition Severity_value (s : Severity) : string :=
  match s with
  | INFO => "info" | WARN => "warn" | FAULT => "fault" | CRITICAL => "critical"
  end.

Definition all_Severity : list Severity := [INFO; WARN; FAULT; CRITICAL].

Inductive OpClass : Type :=
| AUTHORITY_GRANT | AUTHORITY_REVOKE | AUTHORITY_EXTEND
| CONFIG_MODIFY | CONFIG_DEPLOY | CONFIG_ROLLBACK
| DATA_EXPORT | DATA_DELETE | DATA_MIGRATE
| SYSTEM_RESTART | SYSTEM_UPGRADE | SYSTEM_SHUTDOWN
| SECURITY_OVERRIDE | SECURITY_DOWNGRADE | KEY_ROTATION
| QUORUM_OVERRIDE | CHALLENGE_DISMISS | INVARIANT_SUSPEND.

Definition OpClass_value (o : OpClass) : string :=
  match o with
  | AUTHORITY_GRANT => "authority_grant"
  | AUTHORITY_REVOKE => "authority_revoke"
  | AUTHORITY_EXTEND => "authority_extend"
  | CONFIG_MODIFY => "config_modify"
  | CONFIG_DEPLOY => "config_deploy"
  | CONFIG_ROLLBACK => "config_rollback"
  | DATA_EXPORT => "data_export"
  | DATA_DELETE => "data_delete"
  | DATA_MIGRATE => "data_migrate"
  | SYSTEM_RESTART => "system_restart"
  | SYSTEM_UPGRADE => "system_upgrade"
  | SYSTEM_SHUTDOWN => "system_shutdown"
  | SECURITY_OVERRIDE => "security_override"
  | SECURITY_DOWNGRADE => "security_downgrade"
  | KEY_ROTATION => "key_rotation"
  | QUORUM_OVERRIDE => "quorum_override"
  | CHALLENGE_DISMISS => "challenge_dismiss"
  | INVARIANT_SUSPEND => "invariant_suspend"
  end.

(** [for op in OpClass]: the members in definition order. *)
Definition all_OpClass : list OpClass :=
  [ AUTHORITY_GRANT; AUTHORITY_REVOKE; AUTHORITY_EXTEND;
    CONFIG_MODIFY; CONFIG_DEPLOY; CONFIG_ROLLBACK;
    DATA_EXPORT; DATA_DELETE; DATA_MIGRATE;
    SYSTEM_RESTART; SYSTEM_UPGRADE; SYSTEM_SHUTDOWN;
    SECURITY_OVERRIDE; SECURITY_DOWNGRADE; KEY_ROTATION;
    QUORUM_OVERRIDE; CHALLENGE_DISMISS; INVARIANT_SUSPEND ].

Inductive HaltBehavior : Type := ALLOW | WARN_ALLOW | QUEUE | HALT | DENY.

Definition HaltBehavior_value (b : HaltBehavior) : string :=
  match b with
  | ALLOW => "allow" | WARN_ALLOW => "warn_allow" | QUEUE => "queue"
  | HALT => "halt" | DENY => "deny"
  end.

(** The enums as keys of a finite map. *)
#[global] Instance Severity_eq_dec : EqDecision Severity.
Proof. solve_decision. Defined.

#[global] Instance OpClass_eq_dec : EqDecision OpClass.
Proof. solve_decision. Defined.

Definition Severity_index (s : Severity) : nat :=
  match s with INFO => 0 | WARN => 1 | FAULT => 2 | CRITICAL => 3 end.

Definition OpClass_index (o : OpClass) : nat :=
  match o with
  | AUTHORITY_GRANT => 0 | AUTHORITY_REVOKE => 1 | AUTHORITY_EXTEND => 2
  | CONFIG_MODIFY => 3 | CONFIG_DEPLOY => 4 | CONFIG_ROLLBACK => 5
  | DATA_EXPORT => 6 | DATA_DELETE => 7 | DATA_MIGRATE => 8
  | SYSTEM_RESTART => 9 | SYSTEM_UPGRADE => 10 | SYSTEM_SHUTDOWN => 11
  | SECURITY_OVERRIDE => 12 | SECURITY_DOWNGRADE => 13 | KEY_ROTATION => 14
  | QUORUM_OVERRIDE => 15 | CHALLENGE_DISMISS => 16 | INVARIANT_SUSPEND => 17
  end.

#[global] Program Instance Severity_countable : Countable Severity :=
  inj_countable' Severity_index (fun n => nth n all_Severity INFO) _.
Next Obligation. by intros []. Qed.

#[global] Program Instance OpClass_countable : Countable OpClass :=
  inj_countable' OpClass_index (fun n => nth n all_OpClass AUTHORITY_GRANT) _.
Next Obligation. by intros []. Qed.

Definition OpClass_eqb (a b : OpClass) : bool := bool_decide (a = b).

(** [op in (a, b, ...)] *)
Definition op_in (op : OpClass) (l : list OpClass) : bool :=
  existsb (OpClass_eqb op) l.

Record HaltMatrixEntry : Type := {
  severity : Severity;
  op_class : OpClass;
  behavior : HaltBehavior;
  requires_quorum : bool;
  requires_challenge_clear : bool;
  audit_level : string
}.

Definition entry_to_dict (self : HaltMatrixEntry) : json :=
  JDict [ ("severity", JStr (Severity_value (severity self)));
          ("op_class", JStr (OpClass_value (op_class self)));
          ("behavior", JStr (HaltBehavior_value (behavior self)));
          ("requires_quorum", JBool (requires_quorum self));
          ("requires_challenge_clear", JBool (requires_challenge_clear self));
          ("audit_level", JStr (audit_level self)) ].

Record HaltMatrix : Type := {
  _matrix : gmap (Severity * OpClass) HaltMatrixEntry;
  _sealed : bool;
  _seal_hash : option string
}.

(** [_add], with the defaults [requires_quorum=False],
    [requires_challenge_clear=False], [audit_level="standard"] written
    out by the callers. *)
Definition _add (self : HaltMatrix) (severity : Severity) (op_class : OpClass)
    (behavior : HaltBehavior) (requires_quorum requires_challenge_clear : bool)
    (audit_level : string) : outcome HaltMatrix :=
  if _sealed self then
    Raised (Exn OtherError "RuntimeError" "Cannot modify sealed matrix")
  else
    let key := (severity, op_class) in
    Returned
      {| _matrix :=
           <[ key := {| severity := severity; op_class := op_class;
                        behavior := behavior;
                        requires_quorum := requires_quorum;
                        requires_challenge_clear := requires_challenge_clear;
                        audit_level := audit_level |} ]> (_matrix self);
         _sealed := _sealed self;
         _seal_hash := _seal_hash self |}.

(** One [for op in OpClass] loop of [_build_matrix], with body [body]. *)
Fixpoint for_ops (ops : list OpClass) (body : HaltMatrix -> OpClass -> outcome HaltMatrix)
    (self : HaltMatrix) : outcome HaltMatrix :=
  match ops with
  | [] => Returned self
  | op :: rest =>
      match body self op with
      | Returned self' => for_ops rest body self'
      | Raised e => Raised e
      end
  end.

Definition add_INFO (self : HaltMatrix) (op : OpClass) : outcome HaltMatrix :=
  if op_in op [INVARIANT_SUSPEND; SECURITY_DOWNGRADE] then
    _add self INFO op HALT true true "standard"
  else if op_in op [QUORUM_OVERRIDE; CHALLENGE_DISMISS] then
    _add self INFO op WARN_ALLOW true false "standard"
  else
    _add self INFO op ALLOW false false "standard".

Definition add_WARN (self : HaltMatrix) (op : OpClass) : outcome HaltMatrix :=
  if op_in op [INVARIANT_SUSPEND; SECURITY_DOWNGRADE; SECURITY_OVERRIDE] then
    _add self WARN op HALT true true "standard"
  else if op_in op [SYSTEM_UPGRADE; CONFIG_DEPLOY; DATA_MIGRATE] then
    _add self WARN op QUEUE false false "standard"
  else
    _add self WARN op WARN_ALLOW false false "elevated".

Definition add_FAULT (self : HaltMatrix) (op : OpClass) : outcome HaltMatrix :=
  if op_in op [INVARIANT_SUSPEND; SECURITY_DOWNGRADE; SECURITY_OVERRIDE;
               QUORUM_OVERRIDE] then
    _add self FAULT op DENY false false "standard"
  else if op_in op [AUTHORITY_GRANT; AUTHORITY_EXTEND; CONFIG_MODIFY;
                    CONFIG_DEPLOY; SYSTEM_UPGRADE; DATA_DELETE; DATA_MIGRATE] then
    _add self FAULT op HALT false true "standard"
  else
    _add self FAULT op QUEUE false false "elevated".

Definition add_CRITICAL (self : HaltMatrix) (op : OpClass) : outcome HaltMatrix :=
  if op_in op [AUTHORITY_REVOKE; CONFIG_ROLLBACK; SYSTEM_SHUTDOWN] then
    _add self CRITICAL op WARN_ALLOW true false "maximum"
  else if OpClass_eqb op CHALLENGE_DISMISS then
    _add self CRITICAL op DENY false false "standard"
  else
    _add self CRITICAL op HALT true true "maximum".

Definition and_then (c : outcome HaltMatrix) (k : HaltMatrix -> outcome HaltMatrix)
  : outcome HaltMatrix :=
  match c with
  | Returned m => k m
  | Raised e => Raised e
  end.

Definition _build_matrix (self : HaltMatrix) : outcome HaltMatrix :=
  and_then (for_ops all_OpClass add_INFO self) (fun self =>
  and_then (for_ops all_OpClass add_WARN self) (fun self =>
  and_then (for_ops all_OpClass add_FAULT self) (fun self =>
  for_ops all_OpClass add_CRITICAL self))).

(** The key [(x["severity"], x["op_class"])] of the sort in [_seal]. *)
Definition seal_key_ltb (a b : HaltMatrixEntry) : bool :=
  let sa := Severity_value (severity a) in
  let sb := Severity_value (severity b) in
  String.ltb sa sb
  || (String.eqb sa sb
      && String.ltb (OpClass_value (op_class a)) (OpClass_value (op_class b))).

Fixpoint insert_entry (e : HaltMatrixEntry) (l : list HaltMatrixEntry)
  : list HaltMatrixEntry :=
  match l with
  | [] => [e]
  | e' :: r => if seal_key_ltb e e' then e :: e' :: r else e' :: insert_entry e r
  end.

Definition sorted_entries (m : gmap (Severity * OpClass) HaltMatrixEntry)
  : list HaltMatrixEntry :=
  fold_left (fun acc kv => insert_entry (snd kv) acc) (map_to_list m) [].

(** [json.dumps(entries, sort_keys=True)] with the default separators. *)
Fixpoint dumps_default (j : json) : string :=
  match j with
  | JNull => "null"
  | JBool true => "true"
  | JBool false => "false"
  | JInt n => PyStr.of_Z n
  | JStr s => Json.quote s
  | JList l => "[" +:+ PyStr.join ", " (map dumps_default l) +:+ "]"
  | JDict d =>
      "{" +:+ PyStr.join ", "
               (map (fun kv => Json.quote (fst kv) +:+ ": " +:+ dumps_default (snd kv)) d)
          +:+ "}"
  end.

Definition _seal (self : HaltMatrix) : HaltMatrix :=
  let entries := map entry_to_dict (sorted_entries (_matrix self)) in
  let content := dumps_default (Json.sort_keys (JList entries)) in
  {| _matrix := _matrix self;
     _sealed := true;
     _seal_hash := Some (Sha256.hexdigest content) |}.

Definition HaltMatrix_init : outcome HaltMatrix :=
  match _build_matrix {| _matrix := ∅; _sealed := false; _seal_hash := None |} with
  | Returned self => Returned (_seal self)
  | Raised e => Raised e
  end.

Definition decide (self : HaltMatrix) (severity : Severity) (op_class : OpClass)
  : HaltMatrixEntry :=
  let key := (severity, op_class) in
  match _matrix self !! key with
  | None =>
      {| severity := severity; op_class := op_class; behavior := DENY;
         requires_quorum := true; requires_challenge_clear := true;
         audit_level := "maximum" |}
  | Some entry => entry
  end.

Definition can_proceed (self : HaltMatrix) (severity : Severity) (op_class : OpClass)
    (quorum_satisfied challenges_clear : bool) : bool * string :=
  let entry := decide self severity op_class in
  match behavior entry with
  | DENY =>
      (false, "Operation " +:+ OpClass_value op_class
              +:+ " denied at severity " +:+ Severity_value severity)
  | HALT =>
      if requires_quorum entry && negb quorum_satisfied then
        (false, "Operation " +:+ OpClass_value op_class +:+ " halted: quorum required")
      else if requires_challenge_clear entry && negb challenges_clear then
        (false, "Operation " +:+ OpClass_value op_class
                +:+ " halted: challenges must be cleared")
      else
        (true, "Operation " +:+ OpClass_value op_class
               +:+ " allowed after requirements satisfied")
  | QUEUE =>
      (false, "Operation " +:+ OpClass_value op_class +:+ " queued pending remediation")
  | ALLOW | WARN_ALLOW =>
      (true, "Operation " +:+ OpClass_value op_class
             +:+ " allowed at severity " +:+ Severity_value severity)
  end.

(** The module-level singleton: the matrix built and sealed at import. *)
Definition HALT_MATRIX : HaltMatrix :=
  match HaltMatrix_init with
  | Returned m => m
  | Raised _ => {| _matrix := ∅; _sealed := false; _seal_hash := None |}
  end.

Definition seal_hash (self : HaltMatrix) : json :=
  match _seal_hash self with Some h => JStr h | None => JNull end.

Definition evaluate_operation (op_class : OpClass) (current_severity : Severity)
    (quorum_satisfied challenges_clear : bool) : M json :=
  let entry := decide HALT_MATRIX current_severity op_class in
  let '(can_proceed_, reason) :=
    can_proceed HALT_MATRIX current_severity op_class quorum_satisfied challenges_clear in
  let* ts := now in
  ret (JDict [
    ("timestamp", JStr ts);
    ("op_class", JStr (OpClass_value op_class));
    ("severity", JStr (Severity_value current_severity));
    ("behavior", JStr (HaltBehavior_value (behavior entry)));
    ("decision", JStr (if can_proceed_ then "PROCEED" else "BLOCKED"));
    ("reason", JStr reason);
    ("requirements", JDict [
       ("quorum_required", JBool (requires_quorum entry));
       ("quorum_satisfied", JBool quorum_satisfied);
       ("challenges_clear_required", JBool (requires_challenge_clear entry));
       ("challenges_clear", JBool challenges_clear) ]);
    ("audit_level", JStr (audit_level entry));
    ("matrix_hash", seal_hash HALT_MATRIX) ]).

End HaltMatrix.

(* ===================================================================== *)
(** ** invariants.py: the rest of InvariantRegistry *)
(* ===================================================================== *)

Module Registry.
Import Invariants.
Local Open Scope py_scope.

(** [del d[k]] on a dict whose keys are distinct. *)
Fixpoint dict_del (k : string) (d : list (string * Invariant))
  : list (string * Invariant) :=
  match d with
  | [] => []
  | (k', v) :: r => if String.eqb k k' then r else (k', v) :: dict_del k r
  end.

(** [unregister] returns its answer and leaves the registry changed or not. *)
Definition unregister (self : InvariantRegistry) (invariant_id : string)
  : bool * InvariantRegistry :=
  match dict_get invariant_id (_invariants self) with
  | Some _ =>
      (true, {| _invariants := dict_del invariant_id (_invariants self);
                _results_history := _results_history self |})
  | None => (false, self)
  end.

Definition list_agi_safety (self : InvariantRegistry) : list Invariant :=
  List.filter inv_agi_safety (values (_invariants self)).

(** The loop of [validate_subset]. *)
Fixpoint subset_loop (d : list (string * Invariant)) (invariant_ids : list string)
    (ctx : context) (results history : list InvariantResult)
  : M (list InvariantResult * list InvariantResult) :=
  match invariant_ids with
  | [] => ret (results, history)
  | inv_id :: rest =>
      match dict_get inv_id d with
      | Some invariant =>
          let* result := validate invariant ctx in
          subset_loop d rest ctx (results ++ [result]) (history ++ [result])
      | None => subset_loop d rest ctx results history
      end
  end.

Definition validate_subset (self : InvariantRegistry) (invariant_ids : list string)
    (ctx : context) : M (list InvariantResult * InvariantRegistry) :=
  let* rh := subset_loop (_invariants self) invariant_ids ctx [] (_results_history self) in
  ret (fst rh, {| _invariants := _invariants self; _results_history := snd rh |}).

(** [l[start:]] for an [int] start: a negative start counts from the end,
    and a start outside the list is clamped. *)
Definition slice_from {A : Type} (start : Z) (l : list A) : list A :=
  let n := Z.of_nat (length l) in
  let s := if (start <? 0)%Z then Z.max 0 (start + n) else Z.min start n in
  skipn (Z.to_nat s) l.

(** [get_history(limit)] is [self._results_history[-limit:]]. *)
Definition get_history (self : InvariantRegistry) (limit : Z) : list InvariantResult :=
  slice_from (- limit) (_results_history self).

Definition clear_history (self : InvariantRegistry) : InvariantRegistry :=
  {| _invariants := _invariants self; _results_history := [] |}.

End Registry.

(* ===================================================================== *)
(** ** invariants.py: validators of [create_default_registry] *)
(* ===================================================================== *)

Module Validators.
Import Invariants.

(** The truth value of a Python object: None, False, 0 and the empty
    string, list and dict are false. *)
Definition truthy (j : json) : bool :=
  match j with
  | JNull => false
  | JBool b => b
  | JInt n => negb (n =? 0)%Z
  | JStr s => negb (is_empty s)
  | JList l => match l with [] => false | _ :: _ => true end
  | JDict d => match d with [] => false | _ :: _ => true end
  end.

(** [ctx.get(k, default)]; [ctx.get(k)] is [ctx_get ctx k JNull]. *)
Definition ctx_get (ctx : context) (k : string) (default : json) : json :=
  match Json.lookup k ctx with
  | Some v => v
  | None => default
  end.

(** [len(x)]: strings, lists and dicts have a length, the other values
    raise TypeError. *)
Definition py_len (j : json) : outcome Z :=
  match j with
  | JStr s => Returned (Z.of_nat (String.length s))
  | JList l => Returned (Z.of_nat (length l))
  | JDict d => Returned (Z.of_nat (length d))
  | _ => Raised (Exn OtherError "TypeError" "object has no len()")
  end.

(** The validators build their result without a timestamp or a hash: the
    timestamp is the clock read by the default factory, here the argument
    [ts], and the hash is computed by [__post_init__]. *)
Definition result (ts : string) (invariant_id name : string) (status : InvariantStatus)
    (severity : Severity) (reason : string) (evidence : list (string * json))
  : InvariantResult :=
  InvariantResult_init invariant_id name status severity reason ts evidence EmptyString.

Definition validate_human_oversight (ts : string) (ctx : context)
  : outcome InvariantResult :=
  let oversight_enabled := ctx_get ctx "human_oversight_enabled" (JBool false) in
  let kill_switch_active := ctx_get ctx "kill_switch_active" (JBool false) in
  if negb (truthy oversight_enabled) then
    Returned (result ts "INV-002" "Human Oversight" FAIL CRITICAL
                "Human oversight is disabled"
                [ ("oversight_enabled", JBool false);
                  ("kill_switch_active", kill_switch_active) ])
  else
    Returned (result ts "INV-002" "Human Oversight" PASS CRITICAL
                "Human oversight is enabled"
                [ ("oversight_enabled", JBool true);
                  ("kill_switch_active", kill_switch_active) ]).

Definition validate_constitutional_supremacy (ts : string) (ctx : context)
  : outcome InvariantResult :=
  let constitution_hash := ctx_get ctx "constitution_hash" JNull in
  let expected_hash := ctx_get ctx "expected_constitution_hash" JNull in
  if negb (truthy constitution_hash) || negb (truthy expected_hash) then
    Returned (result ts "INV-003" "Constitutional Supremacy" FAIL CRITICAL
                "Constitution hash not available for verification"
                [ ("constitution_hash", constitution_hash);
                  ("expected_hash", expected_hash) ])
  else if negb (py_eqb constitution_hash expected_hash) then
    Returned (result ts "INV-003" "Constitutional Supremacy" FAIL CRITICAL
                "Constitution has been modified without authorization"
                [ ("constitution_hash", constitution_hash);
                  ("expected_hash", expected_hash) ])
  else
    Returned (result ts "INV-003" "Constitutional Supremacy" PASS CRITICAL
                "Constitution integrity verified"
                [ ("constitution_hash", constitution_hash);
                  ("verified", JBool true) ]).

Definition validate_deterministic_behavior (ts : string) (ctx : context)
  : outcome InvariantResult :=
  let phase := ctx_get ctx "current_phase" (JInt 0) in
  let deterministic_mode := ctx_get ctx "deterministic_mode" (JBool true) in
  if py_eqb phase (JInt 0) && negb (truthy deterministic_mode) then
    Returned (result ts "INV-004" "Deterministic Behavior" FAIL HIGH
                "Phase 0 requires deterministic mode"
                [ ("phase", phase); ("deterministic_mode", deterministic_mode) ])
  else
    Returned (result ts "INV-004" "Deterministic Behavior" PASS HIGH
                "Deterministic behavior requirement satisfied"
                [ ("phase", phase); ("deterministic_mode", deterministic_mode) ]).

Definition validate_graceful_degradation (ts : string) (ctx : context)
  : outcome InvariantResult :=
  let silent_failures := ctx_get ctx "silent_failures_detected" (JList []) in
  let logging_enabled := ctx_get ctx "logging_enabled" (JBool true) in
  let alerting_enabled := ctx_get ctx "alerting_enabled" (JBool true) in
  if truthy silent_failures then
    match py_len silent_failures with
    | Raised e => Raised e
    | Returned n =>
        Returned (result ts "INV-005" "Graceful Degradation (FAILURE_IS_LOUD)" FAIL CRITICAL
                    ("Silent failures detected: " +:+ PyStr.of_Z n)
                    [ ("silent_failures", silent_failures); ("count", JInt n) ])
    end
  else if negb (truthy logging_enabled) || negb (truthy alerting_enabled) then
    Returned (result ts "INV-005" "Graceful Degradation (FAILURE_IS_LOUD)" FAIL HIGH
                "Logging or alerting is disabled"
                [ ("logging_enabled", logging_enabled);
                  ("alerting_enabled", alerting_enabled) ])
  else
    Returned (result ts "INV-005" "Graceful Degradation (FAILURE_IS_LOUD)" PASS CRITICAL
                "No silent failures, logging and alerting active"
                [ ("logging_enabled", logging_enabled);
                  ("alerting_enabled", alerting_enabled) ]).

Definition validate_refusal_capability (ts : string) (ctx : context)
  : outcome InvariantResult :=
  let refusal_enabled := ctx_get ctx "refusal_enabled" (JBool true) in
  let refusal_overridden := ctx_get ctx "refusal_overridden" (JBool false) in
  if negb (truthy refusal_enabled) || truthy refusal_overridden then
    Returned (result ts "INV-008" "Refusal Capability" FAIL CRITICAL
                "Refusal capability is disabled or overridden"
                [ ("refusal_enabled", refusal_enabled);
                  ("refusal_overridden", refusal_overridden) ])
  else
    Returned (result ts "INV-008" "Refusal Capability" PASS CRITICAL
                "Refusal capability is active"
                [ ("refusal_enabled", JBool true) ]).

Definition validate_data_minimization (ts : string) (ctx : context)
  : outcome InvariantResult :=
  let data_retention_policy := ctx_get ctx "data_retention_policy" JNull in
  let excessive_retention := ctx_get ctx "excessive_retention_detected" (JBool false) in
  if negb (truthy data_retention_policy) then
    Returned (result ts "INV-009" "Data Minimization" FAIL MEDIUM
                "No data retention policy configured"
                [ ("policy_configured", JBool false) ])
  else if truthy excessive_retention then
    Returned (result ts "INV-009" "Data Minimization" FAIL HIGH
                "Excessive data retention detected"
                [ ("excessive_retention", JBool true) ])
  else
    Returned (result ts "INV-009" "Data Minimization" PASS MEDIUM
                "Data minimization policy enforced"
                [ ("policy", data_retention_policy) ]).

Definition validate_override_preserved (ts : string) (ctx : context)
  : outcome InvariantResult :=
  let kill_switch_accessible := ctx_get ctx "kill_switch_accessible" (JBool true) in
  let kill_switch_disabled := ctx_get ctx "kill_switch_disabled" (JBool false) in
  let override_delayed := ctx_get ctx "override_delayed" (JBool false) in
  if truthy kill_switch_disabled then
    Returned (result ts "INV-014" "Override Preserved" FAIL CRITICAL
                "Kill switch has been disabled"
                [ ("kill_switch_disabled", JBool true) ])
  else if negb (truthy kill_switch_accessible) then
    Returned (result ts "INV-014" "Override Preserved" FAIL CRITICAL
                "Kill switch is not accessible"
                [ ("kill_switch_accessible", JBool false) ])
  else if truthy override_delayed then
    Returned (result ts "INV-014" "Override Preserved" FAIL HIGH
                "Override mechanism is being delayed"
                [ ("override_delayed", JBool true) ])
  else
    Returned (result ts "INV-014" "Override Preserved" PASS CRITICAL
                "Human override mechanisms are preserved"
                [ ("kill_switch_accessible", JBool true);
                  ("kill_switch_enabled", JBool true) ]).

(** The validators of [create_default_registry] that are not modelled
    here: they read the clock and the file system, and format Python values.
    Each is a function of the context, as its type says. *)
Record other_validators : Type := {
  validate_audit_trail : context -> outcome InvariantResult;
  validate_authority_expiry : context -> outcome InvariantResult;
  validate_evidence_grounding : context -> outcome InvariantResult;
  validate_scope_boundaries : context -> outcome InvariantResult;
  validate_no_self_modification : context -> outcome InvariantResult;
  validate_bounded_recursion : context -> outcome InvariantResult;
  validate_ephemeral_goals : context -> outcome InvariantResult;
  validate_verifiable_truthfulness : context -> outcome InvariantResult
}.

(** [Invariant(id, name, description, severity, validator, agi_safety)]:
    an invariant is enabled unless told otherwise. *)
Definition Invariant_init (id name description : string) (severity : Severity)
    (validator : context -> outcome InvariantResult) (agi_safety : bool) : Invariant :=
  {| inv_id := id; inv_name := name; inv_description := description;
     inv_severity := severity; inv_validator := validator; inv_enabled := true;
     inv_agi_safety := agi_safety |}.

(** [registry.register(invariant)], which does not raise. *)
Definition registered (registry : InvariantRegistry) (invariant : Invariant)
  : InvariantRegistry :=
  match register registry invariant with
  | Returned registry' => registry'
  | Raised _ => registry
  end.

(** [create_default_registry()]: the fifteen registrations, in order.
    [ts] is the timestamp of the results of the validators modelled above,
    [others] are the validators that are not. *)
Definition create_default_registry (ts : string) (others : other_validators)
  : InvariantRegistry :=
  fold_left registered
    [ Invariant_init "INV-001" "Immutable Audit Trail"
        "All actions must be logged to the ledger with hash chain integrity"
        CRITICAL (validate_audit_trail others) false;
      Invariant_init "INV-002" "Human Oversight"
        "High-risk decisions require human approval"
        CRITICAL (validate_human_oversight ts) false;
      Invariant_init "INV-003" "Constitutional Supremacy"
        "No agent or process may override the constitution"
        CRITICAL (validate_constitutional_supremacy ts) false;
      Invariant_init "INV-004" "Deterministic Behavior"
        "Same inputs must produce same outputs in Phase 0"
        HIGH (validate_deterministic_behavior ts) false;
      Invariant_init "INV-005" "Graceful Degradation (FAILURE_IS_LOUD)"
        "System must fail safely, never silently"
        CRITICAL (validate_graceful_degradation ts) false;
      Invariant_init "INV-006" "Authority Expiry"
        "All authority grants must have finite expiry"
        CRITICAL (validate_authority_expiry others) false;
      Invariant_init "INV-007" "Evidence Grounding"
        "All factual claims must be backed by evidence"
        HIGH (validate_evidence_grounding others) false;
      Invariant_init "INV-008" "Refusal Capability"
        "System must be able to refuse unsafe requests"
        CRITICAL (validate_refusal_capability ts) false;
      Invariant_init "INV-009" "Data Minimization"
        "Collect and retain only necessary data"
        MEDIUM (validate_data_minimization ts) false;
      Invariant_init "INV-010" "Scope Boundaries"
        "Operations must stay within authorized scope"
        HIGH (validate_scope_boundaries others) false;
      Invariant_init "INV-011" "No Self-Modification"
        "System cannot alter its own constraints without multi-party authorization"
        CRITICAL (validate_no_self_modification others) true;
      Invariant_init "INV-012" "Bounded Recursion"
        "Reasoning chains must be depth-limited"
        HIGH (validate_bounded_recursion others) true;
      Invariant_init "INV-013" "Ephemeral Goals"
        "Goals reset per session; no persistent goal accumulation"
        HIGH (validate_ephemeral_goals others) true;
      Invariant_init "INV-014" "Override Preserved"
        "Human override mechanisms cannot be disabled, delayed, or obscured"
        CRITICAL (validate_override_preserved ts) true;
      Invariant_init "INV-015" "Verifiable Truthfulness"
        "System cannot misrepresent its internal state, capabilities, or limitations"
        CRITICAL (validate_verifiable_truthfulness others) true ]
    InvariantRegistry_init.

End Validators.

(* ===================================================================== *)
(** ** governance_daemon.py: LoudFailureHandler and GovernanceDaemon *)
(* ===================================================================== *)

Module Daemon.
Import Invariants Ledger.

(** The fields of [GovernanceDaemonConfig] the validation cycle reads. *)
Record GovernanceDaemonConfig : Type := {
  ledger_path : string;
  constitution_path : string;
  max_failures_before_halt : Z;
  halt_on_critical : bool;
  alerting_enabled : bool;
  alert_webhook_url : option string;
  mode : string
}.

(** The counters of [LoudFailureHandler]; its [config] and [ledger] are
    the daemon's own objects and are read from the daemon below. *)
Record LoudFailureHandler : Type := {
  failure_count : Z;
  critical_failure_count : Z
}.

(** The daemon and the objects it owns.  [ledger] is the one
    [EvidenceLedger] the daemon, its failure handler and its HUG protocol
    share; [last_validation] holds the timestamp in ISO format. *)
Record GovernanceDaemon : Type := {
  config : GovernanceDaemonConfig;
  running : bool;
  registry : InvariantRegistry;
  ledger : EvidenceLedger;
  failure_handler : LoudFailureHandler;
  validation_count : Z;
  last_validation : option string;
  consecutive_failures : Z
}.

(** Methods of the daemon: the daemon object is mutated in place, so what
    a method did to it stays when the method raises. *)
Definition D (A : Type) : Type :=
  GovernanceDaemon -> world -> outcome A * GovernanceDaemon * world.

Definition dret {A} (a : A) : D A := fun d w => (Returned a, d, w).

Definition dbind {A B} (c : D A) (k : A -> D B) : D B :=
  fun d w =>
    match c d w with
    | (Returned a, d', w') => k a d' w'
    | (Raised e, d', w') => (Raised e, d', w')
    end.

Definition lift {A} (c : M A) : D A :=
  fun d w => match c w with (o, w') => (o, d, w') end.

Definition get_self : D GovernanceDaemon := fun d w => (Returned d, d, w).

Definition modify (f : GovernanceDaemon -> GovernanceDaemon) : D unit :=
  fun d w => (Returned tt, f d, w).

(** [sys.exit(code)]: SystemExit, which nothing in the daemon catches. *)
Definition sys_exit {A} (code : Z) : D A :=
  fun d w => (Raised (Exn OtherError "SystemExit" (PyStr.of_Z code)), d, w).

End Daemon.

Declare Scope daemon_scope.
Delimit Scope daemon_scope with daemon.
Notation "'let*' x ':=' c 'in' k" := (Daemon.dbind c (fun x => k))
  (at level 10, x name, c at level 100, k at level 200) : daemon_scope.
Notation "c ';;' k" := (Daemon.dbind c (fun _ => k))
  (at level 100, k at level 200, right associativity) : daemon_scope.

Module DaemonCode.
Import Invariants Ledger.
Export Daemon.
Local Open Scope daemon_scope.

Definition set_running (b : bool) (d : GovernanceDaemon) : GovernanceDaemon :=
  {| config := config d; running := b; registry := registry d; ledger := ledger d;
     failure_handler := failure_handler d; validation_count := validation_count d;
     last_validation := last_validation d;
     consecutive_failures := consecutive_failures d |}.

Definition set_registry (r : InvariantRegistry) (d : GovernanceDaemon) : GovernanceDaemon :=
  {| config := config d; running := running d; registry := r; ledger := ledger d;
     failure_handler := failure_handler d; validation_count := validation_count d;
     last_validation := last_validation d;
     consecutive_failures := consecutive_failures d |}.

Definition set_ledger (l : EvidenceLedger) (d : GovernanceDaemon) : GovernanceDaemon :=
  {| config := config d; running := running d; registry := registry d; ledger := l;
     failure_handler := failure_handler d; validation_count := validation_count d;
     last_validation := last_validation d;
     consecutive_failures := consecutive_failures d |}.

Definition set_failure_handler (h : LoudFailureHandler) (d : GovernanceDaemon)
  : GovernanceDaemon :=
  {| config := config d; running := running d; registry := registry d; ledger := ledger d;
     failure_handler := h; validation_count := validation_count d;
     last_validation := last_validation d;
     consecutive_failures := consecutive_failures d |}.

Definition set_validation_count (n : Z) (d : GovernanceDaemon) : GovernanceDaemon :=
  {| config := config d; running := running d; registry := registry d; ledger := ledger d;
     failure_handler := failure_handler d; validation_count := n;
     last_validation := last_validation d;
     consecutive_failures := consecutive_failures d |}.

Definition set_last_validation (t : option string) (d : GovernanceDaemon)
  : GovernanceDaemon :=
  {| config := config d; running := running d; registry := registry d; ledger := ledger d;
     failure_handler := failure_handler d; validation_count := validation_count d;
     last_validation := t;
     consecutive_failures := consecutive_failures d |}.

Definition set_consecutive_failures (n : Z) (d : GovernanceDaemon) : GovernanceDaemon :=
  {| config := config d; running := running d; registry := registry d; ledger := ledger d;
     failure_handler := failure_handler d; validation_count := validation_count d;
     last_validation := last_validation d;
     consecutive_failures := n |}.

(** [self.ledger.append(result)] on the shared ledger: [_last_hash] moves
    when the write succeeded. *)
Definition ledger_append (result : InvariantResult) : D string :=
  fun d w =>
    match append (ledger d) result w with
    | (Returned (h, l'), w') => (Returned h, set_ledger l' d, w')
    | (Raised e, w') => (Raised e, d, w')
    end.

(** [self.ledger.append_event(event_type, payload)] *)
Definition ledger_append_event (event_type : string) (payload : json) : D string :=
  fun d w =>
    match append_event (ledger d) event_type payload w with
    | (Returned (h, l'), w') => (Returned h, set_ledger l' d, w')
    | (Raised e, w') => (Raised e, d, w')
    end.

(** [self.ledger.append_batch(results)]: [[self.append(r) for r in results]]
    on the shared ledger. *)
Fixpoint ledger_append_batch (results : list InvariantResult) : D (list string) :=
  match results with
  | [] => dret []
  | r :: rest =>
      let* h := ledger_append r in
      let* hs := ledger_append_batch rest in
      dret (h :: hs)
  end.

(** [self.ledger.verify_chain()] *)
Definition ledger_verify_chain : D bool :=
  let* d := get_self in lift (verify_chain (ledger d)).

(** [self.registry.validate_all(context)] *)
Definition registry_validate_all (ctx : context) : D (list InvariantResult) :=
  fun d w =>
    match validate_all (registry d) ctx w with
    | (Returned (results, r'), w') => (Returned results, set_registry r' d, w')
    | (Raised e, w') => (Raised e, d, w')
    end.

(** *** LoudFailureHandler *)

(** [not self.config.alert_webhook_url]: None and the empty string. *)
Definition no_webhook (u : option string) : bool :=
  match u with
  | None => true
  | Some s => is_empty s
  end.

Definition _send_alert (result : InvariantResult) : D unit :=
  let* d := get_self in
  if no_webhook (alert_webhook_url (config d)) then dret tt
  else
    lift (logging "INFO" ("ALERT: " +:+ invariant_id result +:+ " failed - "
                          +:+ reason result)).

Definition handle_failure (result : InvariantResult) : D unit :=
  modify (fun d =>
    set_failure_handler
      {| failure_count := failure_count (failure_handler d) + 1;
         critical_failure_count := critical_failure_count (failure_handler d) |} d) ;;
  (if Severity_eqb (severity result) CRITICAL then
     modify (fun d =>
       set_failure_handler
         {| failure_count := failure_count (failure_handler d);
            critical_failure_count := critical_failure_count (failure_handler d) + 1 |} d)
   else dret tt) ;;
  let log_msg :=
    "INVARIANT FAILURE [" +:+ Severity_value (severity result) +:+ "] "
    +:+ invariant_id result +:+ ": " +:+ name result +:+ " - " +:+ reason result in
  (if Severity_eqb (severity result) CRITICAL then lift (logging "CRITICAL" log_msg)
   else if Severity_eqb (severity result) HIGH then lift (logging "ERROR" log_msg)
   else lift (logging "WARNING" log_msg)) ;;
  ledger_append result ;;
  let* d := get_self in
  (if alerting_enabled (config d) then _send_alert result else dret tt) ;;
  lift (logging "INFO" ("Evidence recorded: " +:+ hash result)).

Definition get_stats (self : LoudFailureHandler) : json :=
  JDict [ ("total_failures", JInt (failure_count self));
          ("critical_failures", JInt (critical_failure_count self)) ].

(** *** GovernanceDaemon *)

(** [s * n] on a string. *)
Fixpoint str_mul (s : string) (n : nat) : string :=
  match n with
  | O => EmptyString
  | S n' => s +:+ str_mul s n'
  end.

(** [os.remove(self.config.pid_path)] under [except FileNotFoundError:
    pass]: a missing PID file is the silent case, any other failure the
    file system has in store is raised. *)
Definition remove_pid_file : D unit := lift fs_op.

Definition stop : D unit :=
  let* d := get_self in
  if negb (running d) then dret tt
  else
    lift (logging "INFO" "Stopping governance daemon...") ;;
    modify (set_running false) ;;
    let* d := get_self in
    ledger_append_event "DAEMON_STOP"
      (JDict [ ("validation_count", JInt (validation_count d));
               ("failure_stats", get_stats (failure_handler d)) ]) ;;
    remove_pid_file ;;
    lift (logging "INFO" "Governance daemon stopped").

(** A [for] loop over a list, for its effects. *)
Fixpoint for_each {A} (l : list A) (body : A -> D unit) : D unit :=
  match l with
  | [] => dret tt
  | a :: rest => body a ;; for_each rest body
  end.

Definition _emergency_halt (failures : list InvariantResult) : D unit :=
  lift (logging "CRITICAL" (str_mul "═" 60)) ;;
  lift (logging "CRITICAL" "  EMERGENCY HALT INITIATED") ;;
  lift (logging "CRITICAL" (str_mul "═" 60)) ;;
  for_each failures (fun failure =>
    lift (logging "CRITICAL" ("  - " +:+ invariant_id failure +:+ ": "
                              +:+ reason failure))) ;;
  let* d := get_self in
  ledger_append_event "EMERGENCY_HALT"
    (JDict [ ("reason", JStr "Critical invariant failure");
             ("failures", JList (map to_dict failures));
             ("validation_count", JInt (validation_count d)) ]) ;;
  stop ;;
  sys_exit 1.

(** The body of [validate_once]; [build_context] is its call of
    [self._build_validation_context()].  The notification of the systemd
    watchdog at the end has no effect on the state kept here. *)
Definition validate_once_with (build_context : D context)
  : D (list InvariantResult) :=
  modify (fun d => set_validation_count (validation_count d + 1) d) ;;
  let* ts := lift now in
  modify (set_last_validation (Some ts)) ;;
  let* d := get_self in
  lift (logging "INFO" ("Starting validation cycle #" +:+ PyStr.of_Z (validation_count d))) ;;
  let* context := build_context in
  let* results := registry_validate_all context in
  let failures := get_failures results in
  (match failures with
   | _ :: _ =>
       modify (fun d => set_consecutive_failures (consecutive_failures d + 1) d) ;;
       for_each failures handle_failure ;;
       (if has_critical_failure results then
          lift (logging "CRITICAL" "CRITICAL INVARIANT FAILURE DETECTED") ;;
          let* d := get_self in
          if halt_on_critical (config d) then
            lift (logging "CRITICAL" "Initiating emergency halt due to critical failure") ;;
            _emergency_halt failures
          else dret tt
        else dret tt) ;;
       let* d := get_self in
       if (max_failures_before_halt (config d) <=? consecutive_failures d)%Z then
         lift (logging "CRITICAL"
                 ("Consecutive failure threshold reached: "
                  +:+ PyStr.of_Z (consecutive_failures d) +:+ "/"
                  +:+ PyStr.of_Z (max_failures_before_halt (config d)))) ;;
         _emergency_halt failures
       else dret tt
   | [] =>
       modify (set_consecutive_failures 0) ;;
       let* d := get_self in
       lift (logging "INFO"
               ("Validation cycle #" +:+ PyStr.of_Z (validation_count d)
                +:+ " PASSED - All invariants satisfied"))
   end) ;;
  ledger_append_batch results ;;
  dret results.

(** [validate_once], on the context [_build_validation_context] returned:
    building the context reads the configuration files and touches neither
    the daemon nor the ledger. *)
Definition validate_once (context : context) : D (list InvariantResult) :=
  validate_once_with (dret context).

(** [_build_validation_context].  The four hashes are what the two calls
    of [_compute_constitution_hash] and the two calls of
    [_compute_constraint_hashes] return, in the order of the calls: None or
    the SHA-256 of the constitution file, and a dict from the paths of the
    constraint files to their SHA-256. *)
Definition _build_validation_context (self : GovernanceDaemon)
    (constitution_hash expected_constitution_hash : json)
    (constraint_files_hashes expected_constraint_hashes : json) : context :=
  [ ("ledger_path", JStr (ledger_path (config self)));
    ("constitution_path", JStr (constitution_path (config self)));
    ("human_oversight_enabled", JBool true);
    ("kill_switch_active", JBool true);
    ("kill_switch_accessible", JBool true);
    ("kill_switch_disabled", JBool false);
    ("constitution_hash", constitution_hash);
    ("expected_constitution_hash", expected_constitution_hash);
    ("current_phase", JInt 0);
    ("deterministic_mode", JBool true);
    ("silent_failures_detected", JList []);
    ("logging_enabled", JBool true);
    ("alerting_enabled", JBool (alerting_enabled (config self)));
    ("active_authorities", JList []);
    ("ungrounded_claims", JList []);
    ("refusal_enabled", JBool true);
    ("refusal_overridden", JBool false);
    ("data_retention_policy", JStr "30_days");
    ("excessive_retention_detected", JBool false);
    ("boundary_violations", JList []);
    ("constraint_files_hashes", constraint_files_hashes);
    ("expected_constraint_hashes", expected_constraint_hashes);
    ("max_recursion_depth", JInt 100);
    ("current_recursion_depth", JInt 0);
    ("unbounded_chains_detected", JList []);
    ("persistent_goals_detected", JList []);
    ("cross_session_memory_unauthorized", JBool false);
    ("override_delayed", JBool false);
    ("state_misrepresentations_detected", JList []);
    ("capability_misrepresentations", JList []) ].

(** [hashlib.sha256(data).hexdigest()] on the bytes read from a file
    opened in binary mode: a character of [data] is one byte. *)
Definition hexdigest_bytes (data : string) : string :=
  fold_right (fun w acc => String.append (Sha256.hex 8 w) acc) EmptyString
    (Sha256.digest (map (fun c => Z.of_N (N_of_ascii c)) (list_ascii_of_string data))).

(** [_compute_constitution_hash]; [constitution] is the content of the
    file at [constitution_path], [None] when there is no such file.
    [_get_expected_constitution_hash] is a second call of it. *)
Definition _compute_constitution_hash (constitution : option string) : D json :=
  match constitution with
  | None => dret JNull
  | Some content => lift fs_op ;; dret (JStr (hexdigest_bytes content))
  end.

(** The loop of [_compute_constraint_hashes] over the files
    [constraint_dir.glob("*.yaml")] yields, each with its content. *)
Fixpoint hash_files (found : list (string * string)) (hashes : list (string * json))
  : D (list (string * json)) :=
  match found with
  | [] => dret hashes
  | (f, content) :: rest =>
      lift fs_op ;;
      hash_files rest (Json.set f (JStr (hexdigest_bytes content)) hashes)
  end.

(** [_compute_constraint_hashes]; [constraint_files] is [None] when the
    directory of the constitution does not exist.
    [_get_expected_constraint_hashes] is a second call of it. *)
Definition _compute_constraint_hashes (constraint_files : option (list (string * string)))
  : D json :=
  match constraint_files with
  | None => dret (JDict [])
  | Some found => let* hashes := hash_files found [] in dret (JDict hashes)
  end.

(** The call [self._build_validation_context()]: the four readings are
    made in the order of the keys of the dict. *)
Definition read_validation_context (constitution : option string)
    (constraint_files : option (list (string * string))) : D context :=
  let* constitution_hash := _compute_constitution_hash constitution in
  let* expected_constitution_hash := _compute_constitution_hash constitution in
  let* constraint_files_hashes := _compute_constraint_hashes constraint_files in
  let* expected_constraint_hashes := _compute_constraint_hashes constraint_files in
  let* self := get_self in
  dret (_build_validation_context self constitution_hash expected_constitution_hash
          constraint_files_hashes expected_constraint_hashes).

(** [GovernanceDaemonConfig.for_testing()]: the fields it does not name
    keep their defaults. *)
Definition for_testing : GovernanceDaemonConfig :=
  {| ledger_path := "/tmp/sovereign/governance_ledger.jsonl";
     constitution_path := "/tmp/sovereign/constitution.yaml";
     max_failures_before_halt := 3;
     halt_on_critical := true;
     alerting_enabled := true;
     alert_webhook_url := None;
     mode := "test" |}.

(** [_setup_logging]: the directory of the log file is created and
    [logging.FileHandler] opens the log file. *)
Definition _setup_logging : M unit :=
  (fs_op ;; fs_op)%py.

(** [signal.signal] is refused outside the main thread. *)
Definition install_signal_handlers (main_thread : bool) : M unit :=
  if main_thread then ret tt
  else raise (Exn OtherError "ValueError"
                "signal only works in main thread of the main interpreter").

(** [GovernanceDaemon(config)].  [default_registry] is the value of the
    call [create_default_registry()]; the ledger of the daemon is the file
    at [config.ledger_path]. *)
Definition GovernanceDaemon_init (config : GovernanceDaemonConfig)
    (default_registry : InvariantRegistry) (main_thread : bool) : M GovernanceDaemon :=
  (_setup_logging ;;
   let* ledger := EvidenceLedger_init (ledger_path config) in
   install_signal_handlers main_thread ;;
   ret {| config := config; running := false; registry := default_registry;
          ledger := ledger;
          failure_handler := {| failure_count := 0; critical_failure_count := 0 |};
          validation_count := 0; last_validation := None;
          consecutive_failures := 0 |})%py.

(** A call [daemon.method(...)] from outside: the daemon object is a local
    of the caller. *)
Definition call {A} (daemon : GovernanceDaemon) (method : D A) : M A :=
  fun w => match method daemon w with (o, _, w') => (o, w') end.

Definition get_status : D json :=
  let* d := get_self in
  let* valid := ledger_verify_chain in
  dret (JDict [
    ("running", JBool (running d));
    ("mode", JStr (mode (config d)));
    ("validation_count", JInt (validation_count d));
    ("last_validation",
       match last_validation d with Some t => JStr t | None => JNull end);
    ("consecutive_failures", JInt (consecutive_failures d));
    ("failure_stats", get_stats (failure_handler d));
    ("invariants", JDict [
       ("total", JInt (Z.of_nat (length (list_all (registry d)))));
       ("agi_safety", JInt (Z.of_nat (length (Registry.list_agi_safety (registry d))))) ]);
    ("ledger_chain_valid", JBool valid) ]).

End DaemonCode.
(* ===================================================================== *)
(** ** hug_protocol.py: run_invariant_tests and run_hug_audit *)
(* ===================================================================== *)

Module Machine.

(** [run_hug_audit] works on two ledger files, the one of the daemon it
    builds for the U step and the one at [ledger_path]: the files are kept
    by path, next to what else a [world] holds.  Two paths name the same
    file when they are the same string. *)
Record machine : Type := Build_machine {
  files : string -> option (list line);
  m_io : list (option string);
  m_clock : nat -> string;
  m_ticks : nat;
  m_log : list (string * string)
}.

Definition P (A : Type) : Type := machine -> outcome A * machine.

Definition pret {A} (a : A) : P A := fun m => (Returned a, m).

Definition pbind {A B} (c : P A) (k : A -> P B) : P B :=
  fun m => match c m with
           | (Returned a, m') => k a m'
           | (Raised e, m') => (Raised e, m')
           end.

(** The world a computation on the file at [p] starts in, and the machine
    it leaves. *)
Definition view (p : string) (m : machine) : world :=
  World (files m p) (m_io m) (m_clock m) (m_ticks m) (m_log m).

Definition store (p : string) (w : world) (m : machine) : machine :=
  {| files := fun q => if String.eqb q p then file w else files m q;
     m_io := io w; m_clock := clock w; m_ticks := ticks w; m_log := log w |}.

Definition on_file {A} (p : string) (c : M A) : P A :=
  fun m => match c (view p m) with (o, w) => (o, store p w m) end.

(** [datetime.now(timezone.utc).isoformat()] *)
Definition read_clock : P string :=
  fun m => (Returned (m_clock m (m_ticks m)),
            {| files := files m; m_io := m_io m; m_clock := m_clock m;
               m_ticks := S (m_ticks m); m_log := m_log m |}).

End Machine.

Declare Scope machine_scope.
Delimit Scope machine_scope with machine.
Notation "'let*' x ':=' c 'in' k" := (Machine.pbind c (fun x => k))
  (at level 10, x name, c at level 100, k at level 200) : machine_scope.
Notation "c ';;' k" := (Machine.pbind c (fun _ => k))
  (at level 100, k at level 200, right associativity) : machine_scope.

Module HugAudit.
Import Invariants Ledger Validators DaemonCode.
Export Machine.
Local Open Scope machine_scope.

(** What [run_invariant_tests] finds around it.  [result_timestamp] and
    [others] are the arguments of [create_default_registry] above;
    [constitution] is the content of the constitution file of the test
    configuration, [None] when there is none, and [constraint_files] the
    [*.yaml] files of its directory with their contents, [None] when the
    directory does not exist; [main_thread] tells whether the caller runs
    in the main thread; [pytest] is how the subprocess
    [pytest -v --tb=short] ends: with a return code and its output, or with
    the exception [subprocess.run] raises. *)
Record environment : Type := {
  result_timestamp : string;
  others : other_validators;
  constitution : option string;
  constraint_files : option (list (string * string));
  main_thread : bool;
  pytest : outcome (Z * string)
}.

(** The body of the [try] block of [run_invariant_tests], on the ledger of
    the daemon it builds.  The import itself succeeds:
    [governance_daemon.py] and [invariants.py] are next to
    [hug_protocol.py]. *)
Definition daemon_check (env : environment) : M (bool * list (string * json)) :=
  (let config := for_testing in
   let* daemon :=
     GovernanceDaemon_init config
       (create_default_registry (result_timestamp env) (others env)) (main_thread env) in
   let* results :=
     call daemon
       (validate_once_with
          (read_validation_context (constitution env) (constraint_files env))) in
   ret (HugProtocol.invariant_tests_verdict results))%py.

(** [s[-n:]] *)
Fixpoint drop (n : nat) (s : string) : string :=
  match n, s with
  | O, _ => s
  | S n', String _ r => drop n' r
  | S _, EmptyString => EmptyString
  end.

Definition last_chars (n : nat) (s : string) : string :=
  drop (String.length s - n) s.

Definition has_type (e : exn) (classes : list string) : bool :=
  existsb (String.eqb (exc_type e)) classes.

(** The handler of [ImportError]: the tests run in a subprocess, and are
    taken to pass when pytest cannot be started or does not end in time. *)
Definition pytest_check (pytest : outcome (Z * string)) : P (bool * list (string * json)) :=
  match pytest with
  | Returned (returncode, stdout) =>
      pret ((returncode =? 0)%Z,
            [ ("method", JStr "pytest");
              ("returncode", JInt returncode);
              ("stdout", JStr (last_chars 1000 stdout)) ])
  | Raised e =>
      if has_type e ["TimeoutExpired"; "FileNotFoundError"] then
        pret (true, [ ("method", JStr "skipped");
                      ("reason", JStr "No test framework available") ])
      else fun m => (Raised e, m)
  end.

Definition run_invariant_tests (env : environment) : P (bool * list (string * json)) :=
  fun m =>
    match on_file (ledger_path for_testing) (daemon_check env) m with
    | (Raised e, m') =>
        if has_type e ["ImportError"; "ModuleNotFoundError"]
        then pytest_check (pytest env) m'
        else (Raised e, m')
    | r => r
    end.

(** The ["G"] block of [run_hug_audit] on the file at [ledger_path]. *)
Definition write_ledger (results : list HugProtocol.HUGResult) (p : string)
    (g_evidence : list (string * json)) : M (list (string * json)) :=
  try_except
    (fs_op ;;
     open_append ;;
     HugProtocol.write_results results ;;
     ret (Json.set "ledger_written" (JBool true)
            (Json.set "ledger_path" (JStr p) g_evidence)))%py
    (fun k => match k with OSError => true | _ => false end)
    (fun e => ret (Json.set "ledger_error" (JStr (exc_msg e)) g_evidence)).

(** [ledger_path] is [None] or a path. *)
Definition run_hug_audit (env : environment) (changed_files : list string)
    (commit_msg : string) (ledger_path : option string)
  : P (list HugProtocol.HUGResult) :=
  let* now_ := read_clock in
  (* H: Human Review Gate *)
  let requires_human := HugProtocol.needs_human_review changed_files in
  let human_approved := HugProtocol.is_human_approved commit_msg in
  let h_passed := negb requires_human || human_approved in
  let results :=
    [ {| HugProtocol.step := "H"; HugProtocol.passed := h_passed;
         HugProtocol.evidence :=
           [ ("changed_files", JList (map JStr changed_files));
             ("commit_msg", JStr (PyStr.take 200 commit_msg));
             ("requires_human_review", JBool requires_human);
             ("human_approved", JBool human_approved);
             ("critical_patterns_matched",
              JList (map JStr (List.filter HugProtocol.matches_critical changed_files))) ];
         HugProtocol.timestamp := now_ |} ] in
  (* U: Unit/Invariant Check *)
  let* u := run_invariant_tests env in
  let '(u_passed, u_evidence) := u in
  let results := results ++
    [ {| HugProtocol.step := "U"; HugProtocol.passed := u_passed;
         HugProtocol.evidence := u_evidence; HugProtocol.timestamp := now_ |} ] in
  (* G: Governance Evidence Log *)
  let g_evidence :=
    [ ("audit_complete", JBool true);
      ("results_count", JInt (Z.of_nat (length results)));
      ("all_passed", JBool (forallb HugProtocol.passed results)) ] in
  let* g_evidence :=
    match ledger_path with
    | Some p =>
        if is_empty p then pret g_evidence
        else on_file p (write_ledger results p g_evidence)
    | None => pret g_evidence
    end in
  pret (results ++
        [ {| HugProtocol.step := "G"; HugProtocol.passed := true;
             HugProtocol.evidence := g_evidence; HugProtocol.timestamp := now_ |} ]).

End HugAudit.


(* ===================================================================== *)
(** * Reference definitions used by the statements *)
(* ===================================================================== *)

Module HaltMatrixSpec.
Import HaltMatrix.

#[global] Instance HaltBehavior_eq_dec : EqDecision HaltBehavior.
Proof. solve_decision. Defined.

#[global] Instance HaltMatrixEntry_eq_dec : EqDecision HaltMatrixEntry.
Proof. solve_decision. Defined.

(** The entry [_build_matrix] stores for a pair, read off its four loops. *)
Definition built_entry (sev : Severity) (op : OpClass) : HaltMatrixEntry :=
  let mk b q c a :=
    {| severity := sev; op_class := op; behavior := b; requires_quorum := q;
       requires_challenge_clear := c; audit_level := a |} in
  match sev with
  | INFO =>
      match op with
      | INVARIANT_SUSPEND | SECURITY_DOWNGRADE => mk HALT true true "standard"
      | QUORUM_OVERRIDE | CHALLENGE_DISMISS => mk WARN_ALLOW true false "standard"
      | _ => mk ALLOW false false "standard"
      end
  | WARN =>
      match op with
      | INVARIANT_SUSPEND | SECURITY_DOWNGRADE | SECURITY_OVERRIDE =>
          mk HALT true true "standard"
      | SYSTEM_UPGRADE | CONFIG_DEPLOY | DATA_MIGRATE => mk QUEUE false false "standard"
      | _ => mk WARN_ALLOW false false "elevated"
      end
  | FAULT =>
      match op with
      | INVARIANT_SUSPEND | SECURITY_DOWNGRADE | SECURITY_OVERRIDE
      | QUORUM_OVERRIDE => mk DENY false false "standard"
      | AUTHORITY_GRANT | AUTHORITY_EXTEND | CONFIG_MODIFY | CONFIG_DEPLOY
      | SYSTEM_UPGRADE | DATA_DELETE | DATA_MIGRATE => mk HALT false true "standard"
      | _ => mk QUEUE false false "elevated"
      end
  | CRITICAL =>
      match op with
      | AUTHORITY_REVOKE | CONFIG_ROLLBACK | SYSTEM_SHUTDOWN =>
          mk WARN_ALLOW true false "maximum"
      | CHALLENGE_DISMISS => mk DENY false false "standard"
      | _ => mk HALT true true "maximum"
      end
  end.

Definition pair_ok (m : gmap (Severity * OpClass) HaltMatrixEntry)
    (sev : Severity) (op : OpClass) : bool :=
  bool_decide (m !! (sev, op) = Some (built_entry sev op)).

(** Construction never raises: [_add] only refuses a sealed matrix, and
    the matrix is sealed after the four loops. *)
Definition keeps_unsealed (body : HaltMatrix -> OpClass -> outcome HaltMatrix) : Prop :=
  forall self op, _sealed self = false ->
    exists self', body self op = Returned self' /\ _sealed self' = false.

(** The sealed matrix with the entry of a pair removed. *)
Definition without_entry (sev : Severity) (op : OpClass) : HaltMatrix :=
  {| _matrix := delete (sev, op) (_matrix HALT_MATRIX);
     _sealed := true; _seal_hash := _seal_hash HALT_MATRIX |}.

End HaltMatrixSpec.

Module InvariantsSpec.
Import Invariants.

(** The canonical JSON of the fields of a result, the hash left out,
    written key by key in increasing key order. *)
Definition member (k v : string) : string := Json.quote k +:+ ":" +:+ v.

Definition canonical_fields (invariant_id name : string) (status : InvariantStatus)
    (severity : Severity) (reason timestamp : string)
    (evidence : list (string * json)) : string :=
  "{" +:+ PyStr.join ","
            [ member "evidence" (dumps_canonical (JDict evidence));
              member "invariant_id" (Json.quote invariant_id);
              member "name" (Json.quote name);
              member "reason" (Json.quote reason);
              member "severity" (Json.quote (Severity_value severity));
              member "status" (Json.quote (InvariantStatus_value status));
              member "timestamp" (Json.quote timestamp) ]
      +:+ "}".

(** A validator that returns [r] on every context, and one that always
    raises. *)
Definition returning (r : InvariantResult) : context -> outcome InvariantResult :=
  fun _ => Returned r.

Definition raising (e : exn) : context -> outcome InvariantResult :=
  fun _ => Raised e.

Definition ok_result (id name : string) : InvariantResult :=
  InvariantResult_init id name PASS LOW "ok" "2026-01-01T00:00:00+00:00" []
    EmptyString.

Definition inv_first : Invariant :=
  {| inv_id := "INV-001"; inv_name := "first"; inv_description := "first registration";
     inv_severity := HIGH; inv_validator := returning (ok_result "INV-001" "first");
     inv_enabled := true; inv_agi_safety := false |}.

Definition inv_second : Invariant :=
  {| inv_id := "INV-001"; inv_name := "second"; inv_description := "same id again";
     inv_severity := LOW; inv_validator := returning (ok_result "INV-001" "second");
     inv_enabled := true; inv_agi_safety := false |}.

Definition registry_of (d : list (string * Invariant)) : InvariantRegistry :=
  {| _invariants := d; _results_history := [] |}.

(** The result [validate] builds when the validator raised [e]. *)
Definition caught (inv : Invariant) (e : exn) (r : InvariantResult) : Prop :=
  invariant_id r = inv_id inv /\ name r = inv_name inv
  /\ status r = ERROR /\ severity r = CRITICAL
  /\ reason r = "Validator error: " +:+ exc_msg e
  /\ evidence r = [("exception", JStr (exc_msg e));
                   ("exception_type", JStr (exc_type e))].

(** The result [validate] builds for a disabled invariant. *)
Definition skipped (inv : Invariant) (r : InvariantResult) : Prop :=
  invariant_id r = inv_id inv /\ name r = inv_name inv
  /\ status r = SKIP /\ severity r = inv_severity inv
  /\ reason r = "Invariant disabled"
  /\ evidence r = [("enabled", JBool false)].

(** [r] is the result of [inv] on [ctx], taken alone. *)
Definition validated (ctx : context) (inv : Invariant) (r : InvariantResult) : Prop :=
  if inv_enabled inv then
    match inv_validator inv ctx with
    | Returned r' => r = r'
    | Raised e => caught inv e r
    end
  else skipped inv r.

(** An invariant whose predicate does not raise on [ctx] and does not
    itself report ERROR: it is disabled, or its validator returns a result
    of another status. *)
Definition quiet (ctx : context) (inv : Invariant) : Prop :=
  inv_enabled inv = false
  \/ exists r, inv_validator inv ctx = Returned r /\ status r <> ERROR.

Definition count_status (s : InvariantStatus) (results : list InvariantResult) : nat :=
  length (List.filter (fun r => InvariantStatus_eqb (status r) s) results).

(** The three invariants of the scenario: A passes, B fails with severity
    HIGH, C raises. *)
Definition result_A : InvariantResult :=
  InvariantResult_init "A" "always passes" PASS LOW "fine"
    "2026-01-01T00:00:00+00:00" [] EmptyString.

Definition result_B : InvariantResult :=
  InvariantResult_init "B" "always fails" FAIL HIGH "broken"
    "2026-01-01T00:00:00+00:00" [] EmptyString.

Definition inv_A : Invariant :=
  {| inv_id := "A"; inv_name := "always passes"; inv_description := "A";
     inv_severity := LOW; inv_validator := returning result_A;
     inv_enabled := true; inv_agi_safety := false |}.

Definition inv_B : Invariant :=
  {| inv_id := "B"; inv_name := "always fails"; inv_description := "B";
     inv_severity := HIGH; inv_validator := returning result_B;
     inv_enabled := true; inv_agi_safety := false |}.

Definition boom : exn := Exn OtherError "KeyError" "'ledger_path'".

Definition inv_C : Invariant :=
  {| inv_id := "C"; inv_name := "always raises"; inv_description := "C";
     inv_severity := MEDIUM; inv_validator := raising boom;
     inv_enabled := true; inv_agi_safety := false |}.

Definition registry_ABC : InvariantRegistry :=
  registry_of [("A", inv_A); ("B", inv_B); ("C", inv_C)].

(** An invariant whose predicate does not raise and reports ERROR itself. *)
Definition result_E : InvariantResult :=
  InvariantResult_init "E" "reports its own error" ERROR MEDIUM "probe unavailable"
    "2026-01-01T00:00:00+00:00" [] EmptyString.

Definition inv_E : Invariant :=
  {| inv_id := "E"; inv_name := "reports its own error"; inv_description := "E";
     inv_severity := MEDIUM; inv_validator := returning result_E;
     inv_enabled := true; inv_agi_safety := false |}.

Definition registry_EC : InvariantRegistry :=
  registry_of [("E", inv_E); ("C", inv_C)].

(** A world with no ledger file, no failure in store and a clock that
    gives one second per reading. *)
Definition clock0 (n : nat) : string :=
  "2026-01-01T00:00:0" +:+ PyStr.of_Z (Z.of_nat n) +:+ "+00:00".

Definition world0 : world := World None [] clock0 0 [].

End InvariantsSpec.

Module LedgerSpec.
Import Invariants Ledger InvariantsSpec.
Local Open Scope py_scope.

(** [d.get(k)] *)
Definition get_or_null (k : string) (d : list (string * json)) : json :=
  match Json.lookup k d with Some v => v | None => JNull end.

(** The field [k] of a persisted line, when the line is a JSON object that
    has it. *)
Definition field (k : string) (l : line) : option json :=
  match l with
  | Parsed (JDict d) => Json.lookup k d
  | _ => None
  end.

Definition lines_of (w : world) : list line :=
  match file w with Some l => l | None => [] end.

Definition set_file (w : world) (lines : list line) : world :=
  World (Some lines) (io w) (clock w) (ticks w) (log w).

Definition add_log (w : world) (level msg : string) : world :=
  World (file w) (io w) (clock w) (ticks w) (log w ++ [(level, msg)]).

(** What one pass over the lines finds, checking nothing but that each line
    parses and that its [previous_hash] equals the [entry_hash] stored in the
    line before ([None] for the first line). *)
Inductive verdict : Type :=
| Valid
| InvalidJSON (line_num : nat)
| ChainBroken (line_num : nat)
| NotAnObject.

Fixpoint scan (lines : list line) (line_num : nat) (prev_hash : json) : verdict :=
  match lines with
  | [] => Valid
  | Malformed :: _ => InvalidJSON line_num
  | Parsed (JDict d) :: rest =>
      if py_eqb (get_or_null "previous_hash" d) prev_hash
      then scan rest (S line_num) (get_or_null "entry_hash" d)
      else ChainBroken line_num
  | Parsed _ :: _ => NotAnObject
  end.

(** The outcome and the world [verify_chain] leaves for a verdict. *)
Definition report (v : verdict) (w : world) : outcome bool * world :=
  match v with
  | Valid => (Returned true, w)
  | InvalidJSON n =>
      (Returned false, add_log w "ERROR" ("Invalid JSON at line " +:+ str_of_nat n))
  | ChainBroken n =>
      (Returned false, add_log w "ERROR" ("Chain broken at line " +:+ str_of_nat n))
  | NotAnObject =>
      (Raised (Exn AttributeError "AttributeError" "object has no attribute 'get'"), w)
  end.

(** Line [i] with the value under key [k] replaced by [v]; a line that is
    not a JSON object is left alone. *)
Fixpoint tamper (i : nat) (k : string) (v : json) (lines : list line) : list line :=
  match lines, i with
  | [], _ => []
  | Parsed (JDict d) :: rest, O => Parsed (JDict (Json.set k v d)) :: rest
  | l :: rest, O => l :: rest
  | l :: rest, S i' => l :: tamper i' k v rest
  end.

(** The hash of an entry recomputed from its stored fields, [entry_hash]
    left out. *)
Definition without_key (k : string) (d : list (string * json)) : list (string * json) :=
  List.filter (fun kv => negb (String.eqb (fst kv) k)) d.

Definition recomputed_hash (l : line) : option json :=
  match l with
  | Parsed (JDict d) =>
      Some (JStr (Sha256.hexdigest (dumps_canonical (JDict (without_key "entry_hash" d)))))
  | _ => None
  end.

(** A session on one ledger file: appends, and restarts of the process
    that build the ledger object anew. *)
Inductive op : Type :=
| Append (result : InvariantResult)
| AppendEvent (event_type : string) (payload : json)
| Restart.

Definition run_op (self : EvidenceLedger) (o : op) : M EvidenceLedger :=
  match o with
  | Append r => let* hl := append self r in ret (snd hl)
  | AppendEvent t p => let* hl := append_event self t p in ret (snd hl)
  | Restart => EvidenceLedger_init (path self)
  end.

Fixpoint run_ops (self : EvidenceLedger) (ops : list op) : M EvidenceLedger :=
  match ops with
  | [] => ret self
  | o :: rest => let* self' := run_op self o in run_ops self' rest
  end.

Definition session (path : string) (ops : list op) : M EvidenceLedger :=
  let* self := EvidenceLedger_init path in
  run_ops self ops.

Definition is_append (o : op) : bool :=
  match o with Restart => false | _ => true end.

(** The lines are chained from [prev]: each [previous_hash] is the
    [entry_hash] before it, [prev] for the first. *)
Fixpoint chained (prev : json) (lines : list line) : Prop :=
  match lines with
  | [] => True
  | l :: rest =>
      field "previous_hash" l = Some prev
      /\ exists h, field "entry_hash" l = Some (JStr h) /\ chained (JStr h) rest
  end.

(** The hash at the end of the chain. *)
Fixpoint tip (prev : json) (lines : list line) : json :=
  match lines with
  | [] => prev
  | l :: rest =>
      tip (match field "entry_hash" l with Some h => h | None => JNull end) rest
  end.

Definition tick (w : world) : world :=
  World (file w) (io w) (clock w) (S (ticks w)) (log w).

(** The ledger object and the file agree: the file is chained from [None]
    and [_last_hash] is the hash at its end. *)
Definition consistent (self : EvidenceLedger) (w : world) : Prop :=
  io w = [] /\ chained JNull (lines_of w) /\ _last_hash self = tip JNull (lines_of w).

(** A ledger of two entries, and the first one with one letter of the
    reason of its result changed. *)
Definition two_entries : list op :=
  [ Append result_A; AppendEvent "DAEMON_START" (JDict [("pid", JInt 4242)]) ].

Definition ledger_lines : list line :=
  lines_of (snd (session "/var/lib/sovereign/governance_ledger.jsonl" two_entries world0)).

Definition forged_result : json :=
  JDict [ ("invariant_id", JStr "A"); ("name", JStr "always passes");
          ("status", JStr "PASS"); ("severity", JStr "LOW");
          ("reason", JStr "find");
          ("timestamp", JStr "2026-01-01T00:00:00+00:00");
          ("evidence", JDict []);
          ("hash", JStr (Invariants.hash result_A)) ].

Definition forged_lines : list line := tamper 0 "result" forged_result ledger_lines.

Definition line_text (l : line) : string :=
  match l with Parsed j => dumps j | Malformed => EmptyString end.

End LedgerSpec.

Module HugSpec.
Import Invariants Ledger InvariantsSpec LedgerSpec Validators HugAudit.
Local Open Scope py_scope.

(** A computation whose only exceptions are [OSError]s. *)
Definition raises_only_OSError {A : Type} (c : M A) : Prop :=
  forall w e w', c w = (Raised e, w') -> exc_kind_of e = OSError.

(** The line [run_hug_audit] writes for a step result. *)
Definition hug_line (r : HugProtocol.HUGResult) : line :=
  Parsed (JDict [ ("type", JStr ("HUG_STEP_" +:+ HugProtocol.step r));
                  ("timestamp", JStr (HugProtocol.timestamp r));
                  ("result", HugProtocol.to_dict r) ]).

(** The result of a disabled invariant, as [validate] builds it. *)
Definition skip_result : InvariantResult :=
  InvariantResult_init "INV-007" "Evidence Grounding" SKIP HIGH "Invariant disabled"
    "2026-01-01T00:00:00+00:00" [("enabled", JBool false)] EmptyString.

Definition protocol0 : Hug.HUGProtocol :=
  {| Hug.ledger := {| path := "ledger"; _last_hash := JNull |} |}.

(** A world whose file system refuses the next operation. *)
Definition world_full : world :=
  World None [Some "[Errno 28] No space left on device"] clock0 0 [].

(** The lines of the file at [p]. *)
Definition lines_at (p : string) (m : machine) : list line :=
  match files m p with Some l => l | None => [] end.

(** The machine [run_hug_audit] leaves to the U step: the clock has been
    read once. *)
Definition clock_read (m : machine) : machine := snd (read_clock m).

(** The three results of [run_hug_audit], for the clock reading [now_],
    the pair [u] the U step returned and the evidence of G. *)
Definition h_result (changed_files : list string) (commit_msg : string) (now_ : string)
  : HugProtocol.HUGResult :=
  {| HugProtocol.step := "H";
     HugProtocol.passed :=
       negb (HugProtocol.needs_human_review changed_files)
       || HugProtocol.is_human_approved commit_msg;
     HugProtocol.evidence :=
       [ ("changed_files", JList (map JStr changed_files));
         ("commit_msg", JStr (PyStr.take 200 commit_msg));
         ("requires_human_review", JBool (HugProtocol.needs_human_review changed_files));
         ("human_approved", JBool (HugProtocol.is_human_approved commit_msg));
         ("critical_patterns_matched",
          JList (map JStr (List.filter HugProtocol.matches_critical changed_files))) ];
     HugProtocol.timestamp := now_ |}.

Definition u_result (u : bool * list (string * json)) (now_ : string)
  : HugProtocol.HUGResult :=
  {| HugProtocol.step := "U"; HugProtocol.passed := fst u;
     HugProtocol.evidence := snd u; HugProtocol.timestamp := now_ |}.

Definition g_result (g_evidence : list (string * json)) (now_ : string)
  : HugProtocol.HUGResult :=
  {| HugProtocol.step := "G"; HugProtocol.passed := true;
     HugProtocol.evidence := g_evidence; HugProtocol.timestamp := now_ |}.

Definition g_evidence0 (h u : HugProtocol.HUGResult) : list (string * json) :=
  [ ("audit_complete", JBool true);
    ("results_count", JInt 2);
    ("all_passed", JBool (forallb HugProtocol.passed [h; u])) ].

(** The ledger of the daemon of the U step. *)
Definition test_ledger : string := "/tmp/sovereign/governance_ledger.jsonl".

(** A machine whose only file is the ledger of the daemon of the U step,
    empty, with the given failures in store. *)
Definition machine_ready (script : list (option string)) : machine :=
  {| files := fun q => if String.eqb q test_ledger then Some [] else None;
     m_io := script; m_clock := clock0; m_ticks := 0; m_log := [] |}.

(** On it the daemon of the U step makes 38 file operations when the
    constitution file and one constraint file exist and every invariant
    passes; here the file system refuses the one after them. *)
Definition machine_full : machine :=
  machine_ready (repeat None 38 ++ [Some "[Errno 28] No space left on device"]).

(** Stand-ins for the validators that are not modelled: what they return
    on a context built by the daemon when its ledger file exists and the
    constraint files are the same at both readings. *)
Definition passing (ts : string) : other_validators :=
  {| validate_audit_trail := fun ctx =>
       Returned (result ts "INV-001" "Immutable Audit Trail" PASS CRITICAL
                   "Ledger exists and accessible"
                   [ ("ledger_path", ctx_get ctx "ledger_path" JNull);
                     ("exists", JBool true) ]);
     validate_authority_expiry := fun _ =>
       Returned (result ts "INV-006" "Authority Expiry" PASS CRITICAL
                   "All authorities have valid expiry" [ ("active_count", JInt 0) ]);
     validate_evidence_grounding := fun _ =>
       Returned (result ts "INV-007" "Evidence Grounding" PASS HIGH
                   "All claims are evidence-grounded" [ ("verified", JBool true) ]);
     validate_scope_boundaries := fun _ =>
       Returned (result ts "INV-010" "Scope Boundaries" PASS HIGH
                   "All operations within scope boundaries" [ ("verified", JBool true) ]);
     validate_no_self_modification := fun ctx =>
       match ctx_get ctx "constraint_files_hashes" (JDict []) with
       | JDict (f :: fs) =>
           Returned (result ts "INV-011" "No Self-Modification" PASS CRITICAL
                       "No unauthorized self-modification detected"
                       [ ("files_verified", JInt (Z.of_nat (length (f :: fs)))) ])
       | _ =>
           Returned (result ts "INV-011" "No Self-Modification" FAIL CRITICAL
                       "Constraint file hashes not available for verification"
                       [ ("hashes_available", JBool false) ])
       end;
     validate_bounded_recursion := fun _ =>
       Returned (result ts "INV-012" "Bounded Recursion" PASS HIGH
                   "Recursion within bounds"
                   [ ("current_depth", JInt 0); ("max_depth", JInt 100) ]);
     validate_ephemeral_goals := fun _ =>
       Returned (result ts "INV-013" "Ephemeral Goals" PASS HIGH
                   "Goals are session-scoped" [ ("session_scoped", JBool true) ]);
     validate_verifiable_truthfulness := fun _ =>
       Returned (result ts "INV-015" "Verifiable Truthfulness" PASS CRITICAL
                   "No misrepresentations detected" [ ("verified", JBool true) ]) |}.

(** The surroundings of an audit run from the main thread, with and
    without a constitution file in the directory of the test
    configuration. *)
Definition env_constitution : environment :=
  {| result_timestamp := "2026-01-01T00:00:00+00:00";
     others := passing "2026-01-01T00:00:00+00:00";
     constitution := Some "phase: 0";
     constraint_files := Some [ ("/tmp/sovereign/constitution.yaml", "phase: 0") ];
     main_thread := true;
     pytest := Returned (0%Z, EmptyString) |}.

Definition env_no_constitution : environment :=
  {| result_timestamp := "2026-01-01T00:00:00+00:00";
     others := passing "2026-01-01T00:00:00+00:00";
     constitution := None;
     constraint_files := Some [];
     main_thread := true;
     pytest := Returned (0%Z, EmptyString) |}.

End HugSpec.

Module RegistrySpec.
Import Invariants Registry.

(** The ids of a registry, in registration order. *)
Definition ids (self : InvariantRegistry) : list string := map fst (_invariants self).

(** The registered invariants an id list names, in the order of the list:
    an unknown id names nothing, a repeated id names its invariant again. *)
Fixpoint select (d : list (string * Invariant)) (invariant_ids : list string)
  : list Invariant :=
  match invariant_ids with
  | [] => []
  | k :: rest =>
      match dict_get k d with
      | Some invariant => invariant :: select d rest
      | None => select d rest
      end
  end.

Definition selected (self : InvariantRegistry) (invariant_ids : list string)
  : list Invariant :=
  select (_invariants self) invariant_ids.

(** An invariant switched off, and a registry of two of them: the first
    would fail and the second would raise if their validators were called. *)
Definition disabled (inv : Invariant) : Invariant :=
  {| inv_id := inv_id inv; inv_name := inv_name inv;
     inv_description := inv_description inv; inv_severity := inv_severity inv;
     inv_validator := inv_validator inv; inv_enabled := false;
     inv_agi_safety := inv_agi_safety inv |}.

Definition registry_off : InvariantRegistry :=
  InvariantsSpec.registry_of
    [ ("B", disabled InvariantsSpec.inv_B); ("C", disabled InvariantsSpec.inv_C) ].

(** A registry of A and B that has validated A once already. *)
Definition registry_AB_used : InvariantRegistry :=
  {| _invariants := [ ("A", InvariantsSpec.inv_A); ("B", InvariantsSpec.inv_B) ];
     _results_history := [ InvariantsSpec.result_A ] |}.

End RegistrySpec.

Module LedgerMoreSpec.
Import Invariants Ledger InvariantsSpec LedgerSpec.

(** The ledger object and the file agree, whatever the file system has in
    store: the file is chained from [None] and [_last_hash] is the hash at
    its end. *)
Definition linked (self : EvidenceLedger) (w : world) : Prop :=
  chained JNull (lines_of w) /\ _last_hash self = tip JNull (lines_of w).

(** [None] or a string: what [_last_hash] is on a ledger written by the
    code. *)
Definition hashlike (j : json) : Prop := j = JNull \/ exists h, j = JStr h.

(** The stored [entry_hash] of a line is the hash of its other fields. *)
Definition hash_intact (l : line) : Prop :=
  exists h, field "entry_hash" l = Some (JStr h) /\ recomputed_hash l = Some (JStr h).

(** The line holds the result [r]. *)
Definition holds_result (r : InvariantResult) (l : line) : Prop :=
  field "type" l = Some (JStr "INVARIANT_RESULT") /\ field "result" l = Some (to_dict r).

(** The line stores the hash [h]. *)
Definition stores_hash (h : string) (l : line) : Prop :=
  field "entry_hash" l = Some (JStr h).

(** A world with no ledger file and the given failures in store, and one
    whose ledger file holds the given lines. *)
Definition world_io (script : list (option string)) : world :=
  World None script clock0 0 [].

Definition world_with (lines : list line) (script : list (option string)) : world :=
  World (Some lines) script clock0 0 [].

Definition ledger0 : EvidenceLedger := {| path := "ledger"; _last_hash := JNull |}.

(** A first line of a ledger, as far as the chain is concerned. *)
Definition line_aa : line :=
  Parsed (JDict [("type", JStr "DAEMON_START"); ("previous_hash", JNull);
                 ("entry_hash", JStr "aa")]).

End LedgerMoreSpec.

Module DaemonSpec.
Import Invariants Ledger InvariantsSpec LedgerSpec LedgerMoreSpec DaemonCode.

(** The level and the text of the log record [handle_failure] writes
    first. *)
Definition failure_level (r : InvariantResult) : string :=
  match severity r with
  | CRITICAL => "CRITICAL"
  | HIGH => "ERROR"
  | _ => "WARNING"
  end.

Definition failure_message (r : InvariantResult) : string :=
  "INVARIANT FAILURE [" +:+ Severity_value (severity r) +:+ "] "
  +:+ invariant_id r +:+ ": " +:+ name r +:+ " - " +:+ reason r.

(** The counters after one more failure. *)
Definition counted (r : InvariantResult) (h : LoudFailureHandler) : LoudFailureHandler :=
  {| failure_count := failure_count h + 1;
     critical_failure_count :=
       match severity r with
       | CRITICAL => critical_failure_count h + 1
       | _ => critical_failure_count h
       end |}.

(** The log records [handle_failure] writes after the ledger entry. *)
Definition evidence_logs (c : GovernanceDaemonConfig) (r : InvariantResult)
  : list (string * string) :=
  (if alerting_enabled c && negb (no_webhook (alert_webhook_url c))
   then [("INFO", "ALERT: " +:+ invariant_id r +:+ " failed - " +:+ reason r)]
   else [])
  ++ [("INFO", "Evidence recorded: " +:+ hash r)].

Definition add_logs (w : world) (l : list (string * string)) : world :=
  World (file w) (io w) (clock w) (ticks w) (log w ++ l).

(** The daemon but for its ledger and the counters of its failure
    handler. *)
Definition same_settings (d d' : GovernanceDaemon) : Prop :=
  config d' = config d /\ running d' = running d /\ registry d' = registry d
  /\ validation_count d' = validation_count d
  /\ last_validation d' = last_validation d
  /\ consecutive_failures d' = consecutive_failures d.

(** From [(d, w)] to [(d', w')] the lines [es] were appended to the ledger
    and nothing failed: the settings of the daemon are the same, the log has
    grown, and a ledger object that agreed with the file still does. *)
Definition wrote (d : GovernanceDaemon) (w : world) (d' : GovernanceDaemon) (w' : world)
    (es : list line) : Prop :=
  same_settings d d'
  /\ lines_of w' = lines_of w ++ es
  /\ io w' = []
  /\ (exists lg, log w' = log w ++ lg)
  /\ (linked (ledger d) w -> linked (ledger d') w').

(** The counters after the given failures. *)
Definition counted_all (failures : list InvariantResult) (h : LoudFailureHandler)
  : LoudFailureHandler :=
  fold_left (fun h r => counted r h) failures h.

(** The line is an event of the given type. *)
Definition is_event (t : string) (l : line) : Prop :=
  field "type" l = Some (JStr t).

(** The condition under which a validation cycle with the given results
    ends in the emergency halt. *)
Definition halts (d : GovernanceDaemon) (results : list InvariantResult) : bool :=
  match get_failures results with
  | [] => false
  | _ :: _ =>
      (has_critical_failure results && halt_on_critical (config d))
      || (max_failures_before_halt (config d) <=? consecutive_failures d + 1)%Z
  end.

(** What a validation cycle leaves in any case: the count of cycles, the
    timestamp, the history of the registry, the counters of the failure
    handler, and a ledger object that still agrees with its file. *)
Definition cycle_common (d : GovernanceDaemon) (w : world)
    (results : list InvariantResult) (d' : GovernanceDaemon) (w' : world) : Prop :=
  config d' = config d
  /\ validation_count d' = (validation_count d + 1)%Z
  /\ last_validation d' = Some (clock w (ticks w))
  /\ registry d'
     = {| _invariants := _invariants (registry d);
          _results_history := _results_history (registry d) ++ results |}
  /\ failure_handler d' = counted_all (get_failures results) (failure_handler d)
  /\ io w' = []
  /\ (exists lg, log w' = log w ++ lg)
  /\ (linked (ledger d) w -> linked (ledger d') w').

(** The cycle ended in the emergency halt: the ledger received one line
    per failure, then the EMERGENCY_HALT event, then the DAEMON_STOP event
    when the daemon was running, and nothing else. *)
Definition cycle_halted (d : GovernanceDaemon) (w : world)
    (results : list InvariantResult) (d' : GovernanceDaemon) (w' : world) : Prop :=
  running d' = false
  /\ consecutive_failures d' = (consecutive_failures d + 1)%Z
  /\ In ("CRITICAL", "  EMERGENCY HALT INITIATED") (log w')
  /\ exists es ev tail,
       lines_of w' = lines_of w ++ es ++ ev :: tail
       /\ Forall2 holds_result (get_failures results) es
       /\ is_event "EMERGENCY_HALT" ev
       /\ field "payload" ev
          = Some (JDict [ ("reason", JStr "Critical invariant failure");
                          ("failures", JList (map to_dict (get_failures results)));
                          ("validation_count", JInt (validation_count d + 1)) ])
       /\ (if running d then exists e, tail = [e] /\ is_event "DAEMON_STOP" e
           else tail = []).

(** The cycle returned: the ledger received one line per failure, then one
    line per result. *)
Definition cycle_recorded (d : GovernanceDaemon) (w : world)
    (results : list InvariantResult) (d' : GovernanceDaemon) (w' : world) : Prop :=
  running d' = running d
  /\ consecutive_failures d'
     = match get_failures results with
       | [] => 0%Z
       | _ :: _ => (consecutive_failures d + 1)%Z
       end
  /\ exists es bs,
       lines_of w' = lines_of w ++ es ++ bs
       /\ Forall2 holds_result (get_failures results) es
       /\ Forall2 holds_result results bs.

(** On the context, the invariant yields a critical failure: it is
    enabled and its validator raises, or returns a FAIL or ERROR result of
    severity CRITICAL. *)
Definition critical_on (ctx : context) (inv : Invariant) : Prop :=
  inv_enabled inv = true
  /\ match inv_validator inv ctx with
     | Raised _ => True
     | Returned r => is_failure r = true /\ severity r = CRITICAL
     end.

(** It yields a failure: it is enabled and its validator raises or returns
    a FAIL or ERROR result. *)
Definition failing_on (ctx : context) (inv : Invariant) : Prop :=
  inv_enabled inv = true
  /\ match inv_validator inv ctx with
     | Raised _ => True
     | Returned r => is_failure r = true
     end.

(** It yields no failure: it is disabled, or its validator returns a
    result that is not FAIL or ERROR. *)
Definition passing_on (ctx : context) (inv : Invariant) : Prop :=
  inv_enabled inv = false
  \/ exists r, inv_validator inv ctx = Returned r /\ is_failure r = false.

Definition registry_AB : InvariantRegistry :=
  registry_of [("A", inv_A); ("B", inv_B)].

Definition registry_A : InvariantRegistry := registry_of [("A", inv_A)].

(** The exception [sys.exit(1)] raises. *)
Definition SystemExit_1 : exn := Exn OtherError "SystemExit" "1".

(** A daemon as its constructor leaves it, with the given registry and the
    configuration defaults, on a ledger not written yet. *)
Definition config0 : GovernanceDaemonConfig :=
  {| ledger_path := "/var/lib/sovereign/governance_ledger.jsonl";
     constitution_path := "/etc/sovereign/constitution.yaml";
     max_failures_before_halt := 3; halt_on_critical := true;
     alerting_enabled := true; alert_webhook_url := None; mode := "production" |}.

Definition daemon0 (r : InvariantRegistry) : GovernanceDaemon :=
  {| config := config0; running := false; registry := r; ledger := ledger0;
     failure_handler := {| failure_count := 0; critical_failure_count := 0 |};
     validation_count := 0; last_validation := None; consecutive_failures := 0 |}.

End DaemonSpec.

Module FormatSpec.

(** A lower-case hexadecimal digit: 0-9 or a-f. *)
Definition is_hex_char (c : ascii) : bool :=
  let n := N_of_ascii c in
  (((48 <=? n) && (n <=? 57)) || ((97 <=? n) && (n <=? 102)))%N.

Fixpoint all_hex (s : string) : bool :=
  match s with
  | EmptyString => true
  | String c r => is_hex_char c && all_hex r
  end.

End FormatSpec.

Module HGateSpec.

(** The test of the H step of [HUGProtocol.run_audit] for a change that
    needs human review. *)
Definition daemon_needs_human (changed_files : list string) : bool :=
  existsb (fun f => PyStr.contains "invariant" (PyStr.lower f)
                    || PyStr.contains "governance" (PyStr.lower f)
                    || PyStr.contains "constitution" (PyStr.lower f))
          changed_files.

End HGateSpec.

Module ValidatorsSpec.
Import Invariants Validators.

Definition status_of (o : outcome InvariantResult) : option InvariantStatus :=
  match o with Returned r => Some (status r) | Raised _ => None end.

Definition severity_of (o : outcome InvariantResult) : option Severity :=
  match o with Returned r => Some (severity r) | Raised _ => None end.

Definition reason_of (o : outcome InvariantResult) : option string :=
  match o with Returned r => Some (reason r) | Raised _ => None end.

(** What a validator decided: status, severity and reason. *)
Definition verdict_of (o : outcome InvariantResult)
  : option (InvariantStatus * Severity * string) :=
  match o with
  | Returned r => Some (status r, severity r, reason r)
  | Raised _ => None
  end.

(** The context has none of the keys. *)
Definition lacks (ctx : context) (keys : list string) : Prop :=
  Forall (fun k => Json.lookup k ctx = None) keys.

(** The validators modelled here, by the id of their invariant. *)
Definition modelled_validators : list (string * (string -> context -> outcome InvariantResult)) :=
  [ ("INV-002", validate_human_oversight);
    ("INV-003", validate_constitutional_supremacy);
    ("INV-004", validate_deterministic_behavior);
    ("INV-005", validate_graceful_degradation);
    ("INV-008", validate_refusal_capability);
    ("INV-009", validate_data_minimization);
    ("INV-014", validate_override_preserved) ].

End ValidatorsSpec.

(* ===================================================================== *)
(** * Properties *)
(* ===================================================================== *)

(** ** The SHA-256 implementation on the FIPS 180-4 test vectors *)

Example sha256_abc :
  Sha256.hexdigest "abc"
  = "ba7816bf8f01cfea414140de5dae2223b00361a396177a9cb410ff61f20015ad".
Proof. vm_compute. reflexivity. Qed.

Example sha256_empty :
  Sha256.hexdigest EmptyString
  = "e3b0c44298fc1c149afbf4c8996fb92427ae41e4649b934ca495991b7852b855".
Proof. vm_compute. reflexivity. Qed.

Example sha256_two_blocks :
  Sha256.hexdigest "abcdbcdecdefdefgefghfghighijhijkijkljklmklmnlmnomnopnopq"
  = "248d6a61d20638b8e5c026930c3e6039a33ce45964ff2167f6ecedd419db06c1".
Proof. vm_compute. reflexivity. Qed.

(** ** The halt matrix *)

Module HaltMatrixProofs.
Import HaltMatrix HaltMatrixSpec.

Lemma all_pairs_ok :
  (let m := _matrix HALT_MATRIX in
   forallb (fun sev => forallb (pair_ok m sev) all_OpClass) all_Severity) = true.
Proof. vm_compute. reflexivity. Qed.

Lemma all_Severity_complete (sev : Severity) : In sev all_Severity.
Proof. destruct sev; simpl; tauto. Qed.

Lemma all_OpClass_complete (op : OpClass) : In op all_OpClass.
Proof. destruct op; simpl; tauto. Qed.

(** The sealed singleton holds exactly the entries of the four loops. *)
Lemma HALT_MATRIX_lookup (sev : Severity) (op : OpClass) :
  _matrix HALT_MATRIX !! (sev, op) = Some (built_entry sev op).
Proof.
  pose proof all_pairs_ok as H. cbv zeta in H.
  rewrite forallb_forall in H.
  specialize (H sev (all_Severity_complete sev)).
  rewrite forallb_forall in H.
  specialize (H op (all_OpClass_complete op)).
  unfold pair_ok in H. by apply bool_decide_eq_true in H.
Qed.

Lemma HALT_MATRIX_decide (sev : Severity) (op : OpClass) :
  decide HALT_MATRIX sev op = built_entry sev op.
Proof. unfold decide. by rewrite HALT_MATRIX_lookup. Qed.

Lemma _add_unsealed self sev op b q c a :
  _sealed self = false ->
  exists self', _add self sev op b q c a = Returned self' /\ _sealed self' = false.
Proof. intros H. unfold _add. rewrite H. eexists. split; reflexivity. Qed.

Ltac add_case := repeat case_match; apply _add_unsealed; assumption.

Lemma add_INFO_unsealed : keeps_unsealed add_INFO.
Proof. intros self op H. unfold add_INFO. add_case. Qed.

Lemma add_WARN_unsealed : keeps_unsealed add_WARN.
Proof. intros self op H. unfold add_WARN. add_case. Qed.

Lemma add_FAULT_unsealed : keeps_unsealed add_FAULT.
Proof. intros self op H. unfold add_FAULT. add_case. Qed.

Lemma add_CRITICAL_unsealed : keeps_unsealed add_CRITICAL.
Proof. intros self op H. unfold add_CRITICAL. add_case. Qed.

Lemma for_ops_unsealed body ops :
  keeps_unsealed body ->
  forall self, _sealed self = false ->
    exists self', for_ops ops body self = Returned self' /\ _sealed self' = false.
Proof.
  intros Hb. induction ops as [|op ops IH]; intros self Hs; simpl.
  - eauto.
  - destruct (Hb self op Hs) as (self1 & -> & Hs1). apply IH, Hs1.
Qed.

Lemma _build_matrix_returns self :
  _sealed self = false -> exists self', _build_matrix self = Returned self'.
Proof.
  intros Hs. unfold _build_matrix.
  destruct (for_ops_unsealed _ all_OpClass add_INFO_unsealed _ Hs) as (m1 & -> & H1).
  cbn [and_then].
  destruct (for_ops_unsealed _ all_OpClass add_WARN_unsealed _ H1) as (m2 & -> & H2).
  cbn [and_then].
  destruct (for_ops_unsealed _ all_OpClass add_FAULT_unsealed _ H2) as (m3 & -> & H3).
  cbn [and_then].
  destruct (for_ops_unsealed _ all_OpClass add_CRITICAL_unsealed _ H3) as (m4 & -> & H4).
  eauto.
Qed.

Lemma HALT_MATRIX_built : HaltMatrix_init = Returned HALT_MATRIX.
Proof.
  unfold HALT_MATRIX, HaltMatrix_init.
  destruct (_build_matrix_returns
              {| _matrix := ∅; _sealed := false; _seal_hash := None |} eq_refl)
    as (m & ->).
  reflexivity.
Qed.

Lemma HALT_MATRIX_sealed : _sealed HALT_MATRIX = true.
Proof.
  unfold HALT_MATRIX, HaltMatrix_init.
  destruct (_build_matrix_returns
              {| _matrix := ∅; _sealed := false; _seal_hash := None |} eq_refl)
    as (m & ->).
  reflexivity.
Qed.

End HaltMatrixProofs.

Section HaltMatrixClaims.
Import HaltMatrix HaltMatrixSpec HaltMatrixProofs.

(** The entry [decide] makes up for a pair the matrix does not hold. *)
Lemma decide_not_found (m : HaltMatrix) (sev : Severity) (op : OpClass) :
  _matrix m !! (sev, op) = None ->
  decide m sev op
  = {| severity := sev; op_class := op; behavior := DENY; requires_quorum := true;
       requires_challenge_clear := true; audit_level := "maximum" |}.
Proof. intros H. unfold decide. by rewrite H. Qed.

(** [can_proceed] as a function of the entry [decide] returns. *)
Lemma can_proceed_by_behavior (m : HaltMatrix) (sev : Severity) (op : OpClass)
    (quorum_satisfied challenges_clear : bool) :
  fst (can_proceed m sev op quorum_satisfied challenges_clear)
  = match behavior (decide m sev op) with
    | DENY | QUEUE => false
    | HALT =>
        implb (requires_quorum (decide m sev op)) quorum_satisfied
        && implb (requires_challenge_clear (decide m sev op)) challenges_clear
    | ALLOW | WARN_ALLOW => true
    end.
Proof.
  unfold can_proceed.
  destruct (behavior (decide m sev op)); try reflexivity.
  destruct (requires_quorum (decide m sev op)), quorum_satisfied,
    (requires_challenge_clear (decide m sev op)), challenges_clear; reflexivity.
Qed.

(** C3.  The matrix is built and sealed without an exception; on the sealed
    matrix [decide] finds an entry for every pair of the two enums, and that
    entry is the one stored for the pair; on any matrix, a pair that is not
    found resolves to DENY with requires_quorum, requires_challenge_clear and
    audit level "maximum". *)
Theorem C3_decide_total_fail_secure (sev : Severity) (op : OpClass) :
  (HaltMatrix_init = Returned HALT_MATRIX /\ _sealed HALT_MATRIX = true)
  /\ (exists entry,
        _matrix HALT_MATRIX !! (sev, op) = Some entry
        /\ decide HALT_MATRIX sev op = entry
        /\ severity entry = sev /\ op_class entry = op)
  /\ (forall m : HaltMatrix,
        _matrix m !! (sev, op) = None ->
        decide m sev op
        = {| severity := sev; op_class := op; behavior := DENY;
             requires_quorum := true; requires_challenge_clear := true;
             audit_level := "maximum" |}).
Proof.
  split; [split; [apply HALT_MATRIX_built | apply HALT_MATRIX_sealed] |].
  split.
  - exists (built_entry sev op). split; [apply HALT_MATRIX_lookup |].
    split; [apply HALT_MATRIX_decide |].
    destruct sev, op; split; reflexivity.
  - intros m. apply decide_not_found.
Qed.

Lemma C3_witness :
  _matrix (without_entry CRITICAL CONFIG_DEPLOY) !! (CRITICAL, CONFIG_DEPLOY) = None
  /\ decide (without_entry CRITICAL CONFIG_DEPLOY) CRITICAL CONFIG_DEPLOY
     = {| severity := CRITICAL; op_class := CONFIG_DEPLOY; behavior := DENY;
          requires_quorum := true; requires_challenge_clear := true;
          audit_level := "maximum" |}.
Proof.
  assert (H : _matrix (without_entry CRITICAL CONFIG_DEPLOY)
              !! (CRITICAL, CONFIG_DEPLOY) = None)
    by (unfold without_entry; cbn [_matrix]; apply lookup_delete_eq).
  split; [exact H |].
  exact (proj2 (proj2 (C3_decide_total_fail_secure CRITICAL CONFIG_DEPLOY))
           (without_entry CRITICAL CONFIG_DEPLOY) H).
Defined.

(** C4.  [can_proceed] is false when the decided behavior is DENY or QUEUE,
    true for HALT exactly when the quorum (if required) and the cleared
    challenges (if required) are there, and true for ALLOW and WARN_ALLOW.
    [evaluate_operation] on CONFIG_DEPLOY at CRITICAL with challenges clear is
    BLOCKED without quorum, with a reason that mentions the quorum, and
    PROCEED with it. *)
Theorem C4_can_proceed (m : HaltMatrix) (sev : Severity) (op : OpClass)
    (quorum_satisfied challenges_clear : bool) (w : world) :
  fst (can_proceed m sev op quorum_satisfied challenges_clear)
  = match behavior (decide m sev op) with
    | DENY | QUEUE => false
    | HALT =>
        implb (requires_quorum (decide m sev op)) quorum_satisfied
        && implb (requires_challenge_clear (decide m sev op)) challenges_clear
    | ALLOW | WARN_ALLOW => true
    end
  /\ (exists record reason,
        fst (evaluate_operation CONFIG_DEPLOY CRITICAL false true w) = Returned (JDict record)
        /\ Json.lookup "decision" record = Some (JStr "BLOCKED")
        /\ Json.lookup "reason" record = Some (JStr reason)
        /\ PyStr.contains "quorum" reason = true)
  /\ (exists record,
        fst (evaluate_operation CONFIG_DEPLOY CRITICAL true true w) = Returned (JDict record)
        /\ Json.lookup "decision" record = Some (JStr "PROCEED")).
Proof.
  split; [apply can_proceed_by_behavior |].
  unfold evaluate_operation, can_proceed.
  rewrite !HALT_MATRIX_decide.
  generalize (seal_hash HALT_MATRIX). intros matrix_hash.
  cbn -[PyStr.contains].
  split.
  - eexists _, _. split; [reflexivity |]. split; [reflexivity |].
    split; reflexivity.
  - eexists. split; reflexivity.
Qed.

(** C7, at the input where the code departs from it.  At CRITICAL every
    operation outside the whitelist and CHALLENGE_DISMISS has behavior HALT,
    and CHALLENGE_DISMISS is refused whatever the quorum and the challenges;
    but the three whitelist operations, whose entries say requires_quorum,
    proceed without quorum. *)
Theorem C7_whitelist_proceeds_without_quorum :
  (forall op,
     op_in op [AUTHORITY_REVOKE; CONFIG_ROLLBACK; SYSTEM_SHUTDOWN; CHALLENGE_DISMISS] = false ->
     behavior (decide HALT_MATRIX CRITICAL op) = HALT)
  /\ (forall q c, fst (can_proceed HALT_MATRIX CRITICAL CHALLENGE_DISMISS q c) = false)
  /\ (forall op,
        op_in op [AUTHORITY_REVOKE; CONFIG_ROLLBACK; SYSTEM_SHUTDOWN] = true ->
        requires_quorum (decide HALT_MATRIX CRITICAL op) = true
        /\ forall c, fst (can_proceed HALT_MATRIX CRITICAL op false c) = true)
  /\ can_proceed HALT_MATRIX CRITICAL AUTHORITY_REVOKE false false
     = (true, "Operation authority_revoke allowed at severity critical").
Proof.
  split; [| split; [| split]].
  - intros op H. rewrite HALT_MATRIX_decide. destruct op; try reflexivity; discriminate H.
  - intros q c. rewrite can_proceed_by_behavior, HALT_MATRIX_decide. reflexivity.
  - intros op H. split.
    + rewrite HALT_MATRIX_decide. destruct op; try reflexivity; discriminate H.
    + intros c. rewrite can_proceed_by_behavior, HALT_MATRIX_decide.
      destruct op; try reflexivity; discriminate H.
  - unfold can_proceed. rewrite HALT_MATRIX_decide. reflexivity.
Qed.

Lemma C7_witness :
  op_in AUTHORITY_REVOKE [AUTHORITY_REVOKE; CONFIG_ROLLBACK; SYSTEM_SHUTDOWN] = true
  /\ requires_quorum (decide HALT_MATRIX CRITICAL AUTHORITY_REVOKE) = true
  /\ fst (can_proceed HALT_MATRIX CRITICAL AUTHORITY_REVOKE false false) = true.
Proof.
  assert (H : op_in AUTHORITY_REVOKE [AUTHORITY_REVOKE; CONFIG_ROLLBACK; SYSTEM_SHUTDOWN] = true)
    by reflexivity.
  destruct C7_whitelist_proceeds_without_quorum as (_ & _ & Hw & _).
  destruct (Hw AUTHORITY_REVOKE H) as [Hq Hc].
  split; [exact H |]. split; [exact Hq | exact (Hc false)].
Defined.

End HaltMatrixClaims.

(** ** Invariant results and the registry *)

Module InvariantsProofs.
Import Invariants InvariantsSpec.

Lemma _compute_hash_canonical (r : InvariantResult) :
  _compute_hash r
  = PyStr.take 16
      (Sha256.hexdigest
         (canonical_fields (invariant_id r) (name r) (status r) (severity r)
            (reason r) (timestamp r) (evidence r))).
Proof. reflexivity. Qed.

Lemma is_empty_spec (s : string) : is_empty s = true <-> s = EmptyString.
Proof. destruct s; simpl; split; congruence. Qed.

Lemma dict_get_set_eq k v d : dict_get k (dict_set k v d) = Some v.
Proof.
  induction d as [|[k' v'] d IH]; simpl.
  - by rewrite String.eqb_refl.
  - destruct (String.eqb k k') eqn:E; simpl.
    + by rewrite String.eqb_refl.
    + by rewrite E.
Qed.

Lemma dict_get_set_ne k k' v d :
  k' <> k -> dict_get k' (dict_set k v d) = dict_get k' d.
Proof.
  intros Hne. induction d as [|[k0 v0] d IH]; simpl.
  - destruct (String.eqb k' k) eqn:E; [apply String.eqb_eq in E; congruence | done].
  - destruct (String.eqb k k0) eqn:E; simpl.
    + apply String.eqb_eq in E. subst k0.
      destruct (String.eqb k' k) eqn:E'; [apply String.eqb_eq in E'; congruence | done].
    + by rewrite IH.
Qed.

Lemma dict_set_keys k v d :
  is_Some (dict_get k d) -> map fst (dict_set k v d) = map fst d.
Proof.
  induction d as [|[k0 v0] d IH]; simpl; intros H.
  - by destruct H.
  - destruct (String.eqb k k0) eqn:E; simpl.
    + apply String.eqb_eq in E. by subst.
    + by rewrite IH.
Qed.

Lemma dict_set_fresh k v d :
  dict_get k d = None -> dict_set k v d = d ++ [(k, v)].
Proof.
  induction d as [|[k0 v0] d IH]; simpl; intros H; [done |].
  destruct (String.eqb k k0); [done |]. by rewrite IH.
Qed.

Lemma init_empty_hash_fields id nm st sev rsn ts ev :
  let r := InvariantResult_init id nm st sev rsn ts ev EmptyString in
  invariant_id r = id /\ name r = nm /\ status r = st /\ severity r = sev
  /\ reason r = rsn /\ evidence r = ev.
Proof. repeat split; reflexivity. Qed.

(** [validate] always returns, and touches nothing but the clock. *)
Lemma validate_spec (inv : Invariant) (ctx : context) (w : world) :
  exists r w',
    validate inv ctx w = (Returned r, w')
    /\ validated ctx inv r
    /\ file w' = file w /\ io w' = io w /\ log w' = log w.
Proof.
  unfold validate, validated.
  destruct (inv_enabled inv); cbn [negb].
  - unfold try_except, call_validator.
    destruct (inv_validator inv ctx) as [r | e].
    + exists r, w. repeat split; reflexivity.
    + cbn [exc_kind_of]. unfold bind, now, ret. eexists _, _.
      split; [reflexivity |]. split; [| repeat split; reflexivity].
      unfold caught. repeat split; reflexivity.
  - unfold bind, now, ret. eexists _, _.
    split; [reflexivity |]. split; [| repeat split; reflexivity].
    unfold skipped. repeat split; reflexivity.
Qed.

Lemma validate_loop_spec (invs : list Invariant) (ctx : context) :
  forall (rs hs : list InvariantResult) (w : world),
  exists out w',
    validate_loop invs ctx rs hs w = (Returned (rs ++ out, hs ++ out), w')
    /\ Forall2 (validated ctx) invs out
    /\ file w' = file w /\ io w' = io w /\ log w' = log w.
Proof.
  induction invs as [|inv invs IH]; intros rs hs w; simpl.
  - exists [], w. rewrite !app_nil_r. repeat split; constructor.
  - destruct (validate_spec inv ctx w) as (r & w1 & Hv & Hr & Hf & Hi & Hl).
    unfold bind at 1. rewrite Hv.
    destruct (IH (rs ++ [r]) (hs ++ [r]) w1) as (out & w2 & Hloop & Hall & Hf2 & Hi2 & Hl2).
    exists (r :: out), w2. rewrite Hloop, <- !app_assoc. simpl.
    split; [reflexivity |]. split; [by constructor |].
    repeat split; congruence.
Qed.

(** [validate_all] returns one result per registered invariant, in
    registration order, each the result of its invariant taken alone. *)
Lemma validate_all_spec (self : InvariantRegistry) (ctx : context) (w : world) :
  exists results w',
    validate_all self ctx w
    = (Returned (results, {| _invariants := _invariants self;
                            _results_history := _results_history self ++ results |}), w')
    /\ Forall2 (validated ctx) (list_all self) results
    /\ file w' = file w /\ io w' = io w /\ log w' = log w.
Proof.
  unfold validate_all, list_all.
  destruct (validate_loop_spec (values (_invariants self)) ctx [] (_results_history self) w)
    as (out & w' & Hloop & Hall & Hrest).
  exists out, w'. unfold bind. rewrite Hloop. simpl. by split.
Qed.

Lemma quiet_not_error ctx inv r :
  quiet ctx inv -> validated ctx inv r -> status r <> ERROR.
Proof.
  unfold quiet, validated. intros [Hd | (r' & Hr & Hs)].
  - rewrite Hd. intros (_ & _ & -> & _). discriminate.
  - destruct (inv_enabled inv).
    + rewrite Hr. by intros ->.
    + intros (_ & _ & -> & _). discriminate.
Qed.

Lemma count_status_app s l1 l2 :
  count_status s (l1 ++ l2) = count_status s l1 + count_status s l2.
Proof. unfold count_status. by rewrite List.filter_app, length_app. Qed.

Lemma count_quiet ctx invs rs :
  Forall (quiet ctx) invs -> Forall2 (validated ctx) invs rs ->
  count_status ERROR rs = 0.
Proof.
  intros Hq Hv. induction Hv as [|inv r invs rs Hr Hv IH]; [reflexivity |].
  inversion Hq as [|? ? Hq1 Hq2]; subst.
  specialize (IH Hq2). unfold count_status in *. simpl.
  pose proof (quiet_not_error _ _ _ Hq1 Hr) as Hne.
  destruct (status r); simpl; try exact IH. congruence.
Qed.

End InvariantsProofs.

Section InvariantsClaims.
Import Invariants InvariantsSpec InvariantsProofs.

(** C2.  [validate_all] never raises and returns exactly one result per
    registered invariant.  When exactly one predicate raises (the others
    being disabled or returning a result whose status is not ERROR), the
    result at its place has status ERROR, severity CRITICAL and the type and
    message of the exception in its evidence; every other result is the one
    its own invariant yields, and exactly one result has status ERROR. *)
Theorem C2_validate_all_isolates (self : InvariantRegistry) (ctx : context) (w : world) :
  (exists results self' w',
     validate_all self ctx w = (Returned (results, self'), w')
     /\ length results = length (_invariants self))
  /\ forall (before : list Invariant) (bad : Invariant) (after : list Invariant) (e : exn),
       list_all self = before ++ bad :: after ->
       inv_enabled bad = true ->
       inv_validator bad ctx = Raised e ->
       Forall (quiet ctx) (before ++ after) ->
       exists rb err ra self' w',
         validate_all self ctx w = (Returned (rb ++ err :: ra, self'), w')
         /\ length (rb ++ err :: ra) = length (_invariants self)
         /\ status err = ERROR /\ severity err = CRITICAL
         /\ Json.lookup "exception_type" (evidence err) = Some (JStr (exc_type e))
         /\ Json.lookup "exception" (evidence err) = Some (JStr (exc_msg e))
         /\ Forall2 (validated ctx) before rb
         /\ Forall2 (validated ctx) after ra
         /\ count_status ERROR (rb ++ err :: ra) = 1.
Proof.
  destruct (validate_all_spec self ctx w) as (results & w' & Hrun & Hall & _).
  assert (Hlen : length results = length (_invariants self)).
  { apply Forall2_length in Hall. unfold list_all, values in Hall.
    rewrite length_map in Hall. by symmetry. }
  split.
  - eexists _, _, _. split; [exact Hrun | exact Hlen].
  - intros before bad after e Hsplit Hen Hraise Hquiet.
    rewrite Hsplit in Hall.
    apply Forall2_app_inv_l in Hall as (rb & rest & Hb & Hrest & ->).
    apply Forall2_cons_inv_l in Hrest as (err & ra & Herr & Ha & ->).
    apply Forall_app in Hquiet as [Hqb Hqa].
    unfold validated in Herr. rewrite Hen, Hraise in Herr.
    destruct Herr as (_ & _ & Hst & Hsev & _ & Hev).
    eexists rb, err, ra, _, _.
    split; [exact Hrun |]. split; [exact Hlen |].
    split; [exact Hst |]. split; [exact Hsev |].
    split; [by rewrite Hev |]. split; [by rewrite Hev |].
    split; [exact Hb |]. split; [exact Ha |].
    rewrite count_status_app, (count_quiet _ _ _ Hqb Hb).
    change (err :: ra) with ([err] ++ ra).
    rewrite count_status_app, (count_quiet _ _ _ Hqa Ha).
    unfold count_status. simpl. by rewrite Hst.
Qed.

Lemma C2_witness :
  list_all registry_ABC = [inv_A; inv_B] ++ inv_C :: []
  /\ inv_enabled inv_C = true
  /\ inv_validator inv_C [] = Raised boom
  /\ Forall (quiet []) ([inv_A; inv_B] ++ [])
  /\ exists rb err ra self' w',
       validate_all registry_ABC [] world0 = (Returned (rb ++ err :: ra, self'), w')
       /\ length (rb ++ err :: ra) = 3
       /\ status err = ERROR
       /\ count_status ERROR (rb ++ err :: ra) = 1.
Proof.
  assert (Hq : Forall (quiet []) ([inv_A; inv_B] ++ [])).
  { simpl. apply Forall_cons. split; [| apply Forall_cons; split; [| apply Forall_nil_2]];
      right; eexists; (split; [reflexivity | discriminate]). }
  split; [reflexivity |]. split; [reflexivity |]. split; [reflexivity |].
  split; [exact Hq |].
  destruct (proj2 (C2_validate_all_isolates registry_ABC [] world0)
              [inv_A; inv_B] inv_C [] boom eq_refl eq_refl eq_refl Hq)
    as (rb & err & ra & self' & w' & Hrun & Hlen & Hst & _ & _ & _ & _ & _ & Hcount).
  exists rb, err, ra, self', w'.
  split; [exact Hrun |]. split; [exact Hlen |]. split; [exact Hst | exact Hcount].
Defined.

(** C2 as stated fails.  A predicate may report ERROR without raising: of
    the two invariants here exactly one predicate raises, that of C, the
    predicate of E returns a result of status ERROR, and both results of
    [validate_all] have status ERROR, not exactly one. *)
Lemma C2_counterexample :
  inv_validator inv_E [] = Returned result_E
  /\ inv_validator inv_C [] = Raised boom
  /\ exists results self' w',
       validate_all registry_EC [] world0 = (Returned (results, self'), w')
       /\ length results = 2
       /\ map status results = [ERROR; ERROR]
       /\ count_status ERROR results = 2.
Proof.
  split; [reflexivity |]. split; [reflexivity |].
  eexists _, _, _. split; [vm_compute; reflexivity |].
  split; [reflexivity |]. split; reflexivity.
Qed.

(** The scenario of the three invariants: PASS, FAIL and ERROR in
    registration order, the failures being B and C. *)
Example validate_all_ABC :
  match fst (validate_all registry_ABC [] world0) with
  | Returned (results, _) =>
      map status results = [PASS; FAIL; ERROR]
      /\ map invariant_id (get_failures results) = ["B"; "C"]
      /\ has_critical_failure results = true
  | Raised _ => False
  end.
Proof. vm_compute. repeat split; reflexivity. Qed.

(** C10.  A result built with an empty hash gets the first 16 hexadecimal
    characters of the SHA-256 digest of the canonical, sorted-key JSON of its
    seven other fields; a result built with a non-empty hash keeps that
    value as it is, whatever the content. *)
Theorem C10_result_hash (invariant_id name : string) (status : InvariantStatus)
    (severity : Severity) (reason timestamp : string)
    (evidence : list (string * json)) :
  hash (InvariantResult_init invariant_id name status severity reason timestamp
          evidence EmptyString)
  = PyStr.take 16
      (Sha256.hexdigest
         (canonical_fields invariant_id name status severity reason timestamp evidence))
  /\ forall supplied : string,
       supplied <> EmptyString ->
       InvariantResult_init invariant_id name status severity reason timestamp
         evidence supplied
       = Build_InvariantResult invariant_id name status severity reason timestamp
           evidence supplied.
Proof.
  split.
  - reflexivity.
  - intros supplied H. unfold InvariantResult_init, __post_init__. simpl.
    destruct supplied; [congruence | reflexivity].
Qed.

Lemma C10_witness :
  "0000000000000000" <> EmptyString
  /\ hash (InvariantResult_init "INV-001" "first" PASS LOW "ok"
             "2026-01-01T00:00:00+00:00" [] "0000000000000000")
     = "0000000000000000"
  /\ hash (InvariantResult_init "INV-001" "first" PASS LOW "ok"
             "2026-01-01T00:00:00+00:00" [] EmptyString)
     <> "0000000000000000".
Proof.
  assert (H : "0000000000000000" <> EmptyString) by discriminate.
  split; [exact H |]. split.
  - rewrite (proj2 (C10_result_hash "INV-001" "first" PASS LOW "ok"
                      "2026-01-01T00:00:00+00:00" []) "0000000000000000" H).
    reflexivity.
  - vm_compute. discriminate.
Defined.

(** C8, as the code has it.  Registering an invariant whose id is already
    registered raises nothing: the new invariant replaces the old one under
    that id, the ids keep their order, and the other registrations and the
    history are untouched. *)
Theorem C8_register_last_write_wins (self : InvariantRegistry) (invariant : Invariant) :
  is_Some (get self (inv_id invariant)) ->
  exists self',
    register self invariant = Returned self'
    /\ get self' (inv_id invariant) = Some invariant
    /\ map fst (_invariants self') = map fst (_invariants self)
    /\ (forall k, k <> inv_id invariant -> get self' k = get self k)
    /\ _results_history self' = _results_history self.
Proof.
  intros H. eexists. split; [reflexivity |]. unfold get in *. simpl.
  split; [apply dict_get_set_eq |].
  split; [by apply dict_set_keys |].
  split; [| reflexivity].
  intros k Hk. by apply dict_get_set_ne.
Qed.

Lemma C8_witness :
  is_Some (get (registry_of [("INV-001", inv_first)]) (inv_id inv_second))
  /\ exists self',
       register (registry_of [("INV-001", inv_first)]) inv_second = Returned self'
       /\ get self' "INV-001" = Some inv_second.
Proof.
  assert (H : is_Some (get (registry_of [("INV-001", inv_first)]) (inv_id inv_second)))
    by (eexists; reflexivity).
  split; [exact H |].
  destruct (C8_register_last_write_wins _ _ H) as (self' & Hr & Hg & _).
  exists self'. split; [exact Hr | exact Hg].
Defined.

(** C8 as stated fails: the second registration of "INV-001" returns
    normally and the first one is gone. *)
Lemma C8_counterexample :
  get (registry_of [("INV-001", inv_first)]) (inv_id inv_second) = Some inv_first
  /\ register (registry_of [("INV-001", inv_first)]) inv_second
     = Returned (registry_of [("INV-001", inv_second)])
  /\ get (registry_of [("INV-001", inv_second)]) "INV-001" = Some inv_second
  /\ inv_second <> inv_first
  /\ ~ (exists e, register (registry_of [("INV-001", inv_first)]) inv_second = Raised e).
Proof.
  split; [reflexivity |]. split; [reflexivity |]. split; [reflexivity |].
  split; [intros H; apply (f_equal inv_name) in H; discriminate H |].
  intros [e H]. discriminate H.
Qed.

End InvariantsClaims.

(** ** The evidence ledger *)

Module LedgerProofs.
Import Invariants Ledger InvariantsSpec LedgerSpec.
Local Open Scope py_scope.

#[local] Opaque Sha256.hexdigest dumps_canonical PyStr.of_Z.

Lemma fs_op_ok (w : world) : io w = [] -> fs_op w = (Returned tt, w).
Proof. intros H. unfold fs_op. by rewrite H. Qed.

Lemma read_lines_ok (w : world) (lines : list line) :
  io w = [] -> file w = Some lines -> read_lines w = (Returned lines, w).
Proof.
  intros Hio Hf. unfold read_lines, bind. rewrite (fs_op_ok _ Hio).
  unfold get_file. by rewrite Hf.
Qed.

Lemma lookup_set_eq k v d : Json.lookup k (Json.set k v d) = Some v.
Proof.
  induction d as [|[k' v'] d IH]; simpl.
  - by rewrite String.eqb_refl.
  - destruct (String.eqb k k') eqn:E; simpl.
    + by rewrite String.eqb_refl.
    + by rewrite E.
Qed.

Lemma lookup_set_ne k k' v d :
  k' <> k -> Json.lookup k' (Json.set k v d) = Json.lookup k' d.
Proof.
  intros Hne. induction d as [|[k0 v0] d IH]; simpl.
  - destruct (String.eqb k' k) eqn:E; [apply String.eqb_eq in E; congruence | done].
  - destruct (String.eqb k k0) eqn:E; simpl.
    + apply String.eqb_eq in E. subst k0.
      destruct (String.eqb k' k) eqn:E'; [apply String.eqb_eq in E'; congruence | done].
    + by rewrite IH.
Qed.

(** The loop of [verify_chain] is the scan. *)
Lemma verify_loop_scan (lines : list line) :
  forall (line_num : nat) (prev_hash : json) (w : world),
    verify_loop lines line_num prev_hash w = report (scan lines line_num prev_hash) w.
Proof.
  induction lines as [|l lines IH]; intros n prev w; [reflexivity |].
  cbn [verify_loop scan]. unfold bind at 1.
  destruct l as [|j].
  - reflexivity.
  - destruct j as [| | | | |d]; try reflexivity.
    unfold verify_line, try_except, bind, loads, Py.get, ret.
    fold (get_or_null "previous_hash" d). fold (get_or_null "entry_hash" d).
    destruct (py_eqb (get_or_null "previous_hash" d) prev) eqn:E; cbn [negb].
    + apply IH.
    + reflexivity.
Qed.

Lemma verify_chain_scan (self : EvidenceLedger) (w : world) (lines : list line) :
  file w = Some lines -> io w = [] ->
  verify_chain self w = report (scan lines 1 JNull) w.
Proof.
  intros Hf Hio. unfold verify_chain, bind at 1, get_file. rewrite Hf.
  unfold bind. rewrite (read_lines_ok _ _ Hio Hf). apply verify_loop_scan.
Qed.

Lemma scan_tamper (k : string) (v : json) :
  k <> "previous_hash" -> k <> "entry_hash" ->
  forall (lines : list line) (i n : nat) (prev : json),
    scan (tamper i k v lines) n prev = scan lines n prev.
Proof.
  intros Hp He. induction lines as [|l lines IH]; intros i n prev; [by destruct i |].
  destruct i as [|i].
  - destruct l as [|j]; [reflexivity |]. destruct j as [| | | | |d]; try reflexivity.
    cbn [tamper scan]. unfold get_or_null.
    rewrite !lookup_set_ne by congruence. reflexivity.
  - cbn [tamper]. destruct l as [|j]; [reflexivity |].
    destruct j as [| | | | |d]; try reflexivity.
    cbn [scan]. destruct (py_eqb _ _); [apply IH | reflexivity].
Qed.

(** *** Appending keeps the chain *)

Lemma write_entry_ok (self : EvidenceLedger) (entry : list (string * json)) (w : world) :
  io w = [] ->
  write_entry self entry w
  = (Returned (_compute_entry_hash self entry,
               {| path := path self;
                  _last_hash := JStr (_compute_entry_hash self entry) |}),
     set_file w (lines_of w ++
                 [Parsed (JDict (Json.set "entry_hash"
                                   (JStr (_compute_entry_hash self entry)) entry))])).
Proof.
  intros Hio. unfold write_entry, open_append, write_line, bind, get_file, put_file, ret.
  rewrite (fs_op_ok _ Hio). destruct w as [f i c t lg]. simpl in Hio. subst i.
  unfold fs_op, set_file, lines_of. simpl. by destruct f.
Qed.

Lemma append_ok (self : EvidenceLedger) (r : InvariantResult) (w : world) :
  io w = [] ->
  exists h e,
    append self r w
    = (Returned (h, {| path := path self; _last_hash := JStr h |}),
       set_file (tick w) (lines_of w ++ [e]))
    /\ field "previous_hash" e = Some (_last_hash self)
    /\ field "entry_hash" e = Some (JStr h)
    /\ field "result" e = Some (to_dict r).
Proof.
  intros Hio. unfold append, bind at 1, now.
  rewrite write_entry_ok by exact Hio.
  eexists _, _. split; [reflexivity |]. repeat split; reflexivity.
Qed.

Lemma append_event_ok (self : EvidenceLedger) (t : string) (p : json) (w : world) :
  io w = [] ->
  exists h e,
    append_event self t p w
    = (Returned (h, {| path := path self; _last_hash := JStr h |}),
       set_file (tick w) (lines_of w ++ [e]))
    /\ field "previous_hash" e = Some (_last_hash self)
    /\ field "entry_hash" e = Some (JStr h)
    /\ field "payload" e = Some p
    /\ field "type" e = Some (JStr t).
Proof.
  intros Hio. unfold append_event, bind at 1, now.
  rewrite write_entry_ok by exact Hio.
  eexists _, _. split; [reflexivity |]. repeat split; reflexivity.
Qed.

Lemma chained_snoc (lines : list line) :
  forall (prev : json) (e : line) (h : string),
    chained prev lines ->
    field "previous_hash" e = Some (tip prev lines) ->
    field "entry_hash" e = Some (JStr h) ->
    chained prev (lines ++ [e]) /\ tip prev (lines ++ [e]) = JStr h.
Proof.
  induction lines as [|l lines IH]; intros prev e h Hc Hp He; simpl in *.
  - rewrite He. split; [| reflexivity]. split; [exact Hp |]. by exists h.
  - destruct Hc as (Hprev & h0 & Hh0 & Hrest). rewrite Hh0 in *.
    destruct (IH (JStr h0) e h Hrest Hp He) as [Hc' Ht'].
    split; [| exact Ht']. split; [exact Hprev |]. exists h0. by split.
Qed.

Lemma chained_last (lines : list line) :
  forall (prev : json) (l : line),
    chained prev lines -> last lines = Some l ->
    exists d h, l = Parsed (JDict d)
                /\ Json.lookup "entry_hash" d = Some (JStr h)
                /\ tip prev lines = JStr h.
Proof.
  induction lines as [|l0 lines IH]; intros prev l Hc Hl; [discriminate |].
  simpl in Hc. destruct Hc as (_ & h0 & Hh0 & Hrest).
  destruct lines as [|l1 lines].
  - simpl in Hl. injection Hl as <-. simpl. rewrite Hh0.
    destruct l0 as [|[| | | | |d]]; try discriminate. by exists d, h0.
  - change (tip prev (l0 :: l1 :: lines))
      with (tip (match field "entry_hash" l0 with Some h => h | None => JNull end)
                (l1 :: lines)).
    rewrite Hh0. apply IH; assumption.
Qed.

Lemma chained_links (lines : list line) :
  forall (prev : json), chained prev lines ->
    (forall e, lines !! 0 = Some e -> field "previous_hash" e = Some prev)
    /\ (forall i e e', lines !! i = Some e -> lines !! (S i) = Some e' ->
          exists h, field "entry_hash" e = Some (JStr h)
                    /\ field "previous_hash" e' = Some (JStr h)).
Proof.
  induction lines as [|l lines IH]; intros prev Hc.
  - split; intros; discriminate.
  - simpl in Hc. destruct Hc as (Hprev & h & Hh & Hrest).
    destruct (IH _ Hrest) as [Hfirst Hnext].
    split.
    + intros e He. simpl in He. by injection He as <-.
    + intros [|i] e e' He He'; simpl in He, He'.
      * injection He as <-. exists h. split; [exact Hh |]. by apply Hfirst.
      * by apply (Hnext i).
Qed.

Lemma init_consistent (p : string) (w : world) :
  io w = [] -> chained JNull (lines_of w) ->
  exists self, EvidenceLedger_init p w = (Returned self, w)
               /\ path self = p /\ consistent self w.
Proof.
  intros Hio Hc.
  unfold EvidenceLedger_init, _ensure_directory, bind at 1.
  rewrite (fs_op_ok _ Hio). unfold _load_last_hash, bind at 1, get_file.
  unfold lines_of in Hc. unfold consistent, lines_of.
  destruct (file w) as [lines|] eqn:Hf.
  - unfold try_except, bind at 1. rewrite (read_lines_ok _ _ Hio Hf).
    destruct (last lines) as [l|] eqn:Hl.
    + destruct (chained_last _ _ _ Hc Hl) as (d & h & -> & Hh & Ht).
      unfold bind, loads, Py.get, ret. rewrite Hh. eexists. split; [reflexivity |].
      split; [reflexivity |]. by rewrite Ht.
    + apply last_None in Hl. subst lines.
      eexists. split; [reflexivity |]. split; [reflexivity |]. done.
  - eexists. split; [reflexivity |]. split; [reflexivity |]. done.
Qed.

Lemma consistent_snoc (self : EvidenceLedger) (w : world) (e : line) (h : string) :
  consistent self w ->
  field "previous_hash" e = Some (_last_hash self) ->
  field "entry_hash" e = Some (JStr h) ->
  consistent {| path := path self; _last_hash := JStr h |}
             (set_file (tick w) (lines_of w ++ [e])).
Proof.
  intros (Hio & Hc & Hl) Hp He. rewrite Hl in Hp.
  destruct (chained_snoc _ _ _ _ Hc Hp He) as [Hc' Ht'].
  unfold consistent.
  change (lines_of (set_file (tick w) (lines_of w ++ [e]))) with (lines_of w ++ [e]).
  split; [exact Hio |]. split; [exact Hc' | simpl; by rewrite Ht'].
Qed.

Lemma run_op_consistent (self : EvidenceLedger) (o : op) (w : world) :
  consistent self w ->
  exists self' w',
    run_op self o w = (Returned self', w')
    /\ path self' = path self
    /\ consistent self' w'
    /\ length (lines_of w')
       = length (lines_of w) + (if is_append o then 1 else 0).
Proof.
  intros Hcons. pose proof Hcons as (Hio & Hc & Hl).
  destruct o as [r | t p |]; simpl.
  - destruct (append_ok self r w Hio) as (h & e & Hrun & Hp & He & _).
    unfold bind. rewrite Hrun. eexists _, _. split; [reflexivity |].
    split; [reflexivity |]. split; [by apply consistent_snoc |].
    change (lines_of (set_file (tick w) (lines_of w ++ [e]))) with (lines_of w ++ [e]).
    by rewrite length_app.
  - destruct (append_event_ok self t p w Hio) as (h & e & Hrun & Hp & He & _ & _).
    unfold bind. rewrite Hrun. eexists _, _. split; [reflexivity |].
    split; [reflexivity |]. split; [by apply consistent_snoc |].
    change (lines_of (set_file (tick w) (lines_of w ++ [e]))) with (lines_of w ++ [e]).
    by rewrite length_app.
  - destruct (init_consistent (path self) w Hio Hc) as (self' & Hrun & Hpath & Hcons').
    exists self', w. rewrite Nat.add_0_r.
    split; [exact Hrun |]. split; [exact Hpath |]. split; [exact Hcons' | reflexivity].
Qed.

Lemma run_ops_consistent (ops : list op) :
  forall (self : EvidenceLedger) (w : world),
    consistent self w ->
    exists self' w',
      run_ops self ops w = (Returned self', w')
      /\ consistent self' w'
      /\ length (lines_of w')
         = length (lines_of w) + length (List.filter is_append ops).
Proof.
  induction ops as [|o ops IH]; intros self w Hcons; simpl.
  - exists self, w. by rewrite Nat.add_0_r.
  - destruct (run_op_consistent self o w Hcons) as (self1 & w1 & Hrun & _ & Hc1 & Hlen1).
    unfold bind. rewrite Hrun.
    destruct (IH self1 w1 Hc1) as (self2 & w2 & Hrun2 & Hc2 & Hlen2).
    exists self2, w2. split; [exact Hrun2 |]. split; [exact Hc2 |].
    rewrite Hlen2, Hlen1. destruct (is_append o); simpl; lia.
Qed.

End LedgerProofs.

Section LedgerClaims.
Import Invariants Ledger InvariantsSpec LedgerSpec LedgerProofs.
Local Open Scope py_scope.

Lemma fst_report (v : verdict) (w w' : world) : fst (report v w) = fst (report v w').
Proof. by destruct v. Qed.

(** [verify_chain] re-reads the lines in order and checks only that each
    line parses and that its previous_hash equals the entry_hash stored in
    the line before (None for the first line).  No hash is recomputed:
    replacing what an entry stores under any key other than previous_hash and
    entry_hash, its payload included, leaves the answer as it was. *)
Lemma verify_chain_checks_links_only
    (self : EvidenceLedger) (w : world) (lines : list line) :
  file w = Some lines -> io w = [] ->
  verify_chain self w = report (scan lines 1 JNull) w
  /\ forall (i : nat) (k : string) (v : json),
       k <> "previous_hash" -> k <> "entry_hash" ->
       fst (verify_chain self (set_file w (tamper i k v lines)))
       = fst (verify_chain self w).
Proof.
  intros Hf Hio. split; [by apply verify_chain_scan |].
  intros i k v Hp He.
  rewrite (verify_chain_scan self w lines Hf Hio).
  rewrite (verify_chain_scan self (set_file w (tamper i k v lines))
             (tamper i k v lines) eq_refl Hio).
  rewrite scan_tamper by assumption. apply fst_report.
Qed.

(** C1, at the input where the code departs from it.  The ledger holds two
    entries written by [append] and [append_event], and the stored hash of
    each is the hash recomputed from its other fields.  In the forged copy
    one byte of the payload of the first entry differs and its entry_hash,
    left as it was, is no longer the hash of its fields.  [verify_chain]
    answers True on both, and logs nothing. *)
Theorem C1_payload_flip_not_detected :
  exists l l' : line,
    ledger_lines !! 0 = Some l
    /\ forged_lines !! 0 = Some l'
    /\ skipn 1 forged_lines = skipn 1 ledger_lines
    /\ PyStr.hamming (line_text l) (line_text l') = Some 1
    /\ field "entry_hash" l' = field "entry_hash" l
    /\ recomputed_hash l = field "entry_hash" l
    /\ recomputed_hash l' <> field "entry_hash" l'
    /\ fst (verify_chain {| path := "ledger"; _last_hash := JNull |}
              (set_file world0 ledger_lines)) = Returned true
    /\ verify_chain {| path := "ledger"; _last_hash := JNull |}
         (set_file world0 forged_lines)
       = (Returned true, set_file world0 forged_lines).
Proof.
  eexists _, _.
  split; [vm_compute; reflexivity |].
  split; [vm_compute; reflexivity |].
  split; [vm_compute; reflexivity |].
  split; [vm_compute; reflexivity |].
  split; [vm_compute; reflexivity |].
  split; [vm_compute; reflexivity |].
  split; [vm_compute; discriminate |].
  split; vm_compute; reflexivity.
Qed.

(** Flips that break the syntax of a line or one of the two hash fields it
    links by are found: the verdict names the first such line. *)
Example verify_chain_finds_broken_link :
  verify_chain {| path := "ledger"; _last_hash := JNull |}
    (set_file world0 (tamper 1 "previous_hash" (JStr "00") ledger_lines))
  = (Returned false,
     add_log (set_file world0 (tamper 1 "previous_hash" (JStr "00") ledger_lines))
       "ERROR" "Chain broken at line 2").
Proof. vm_compute. reflexivity. Qed.

Lemma init_malformed (p : string) (w : world) (lines : list line) :
  io w = [] -> file w = Some (lines ++ [Malformed]) ->
  EvidenceLedger_init p w = (Returned {| path := p; _last_hash := JNull |}, w).
Proof.
  intros Hio Hf.
  unfold EvidenceLedger_init, _ensure_directory, bind at 1.
  rewrite (fs_op_ok _ Hio). unfold _load_last_hash, bind at 1, get_file. rewrite Hf.
  unfold try_except, bind at 1. rewrite (read_lines_ok _ _ Hio Hf).
  rewrite last_snoc. reflexivity.
Qed.

Lemma init_seeded (p : string) (w : world) (lines : list line) (d : list (string * json)) :
  io w = [] -> file w = Some (lines ++ [Parsed (JDict d)]) ->
  EvidenceLedger_init p w
  = (Returned {| path := p; _last_hash := get_or_null "entry_hash" d |}, w).
Proof.
  intros Hio Hf.
  unfold EvidenceLedger_init, _ensure_directory, bind at 1.
  rewrite (fs_op_ok _ Hio). unfold _load_last_hash, bind at 1, get_file. rewrite Hf.
  unfold try_except, bind at 1. rewrite (read_lines_ok _ _ Hio Hf).
  rewrite last_snoc. reflexivity.
Qed.

Lemma init_not_object (p : string) (w : world) (lines : list line) (j : json) :
  io w = [] -> file w = Some (lines ++ [Parsed j]) -> (forall d, j <> JDict d) ->
  EvidenceLedger_init p w
  = (Raised (Exn AttributeError "AttributeError" "object has no attribute 'get'"), w).
Proof.
  intros Hio Hf Hj.
  unfold EvidenceLedger_init, _ensure_directory, bind at 1.
  rewrite (fs_op_ok _ Hio). unfold _load_last_hash, bind at 1, get_file. rewrite Hf.
  unfold try_except, bind at 1. rewrite (read_lines_ok _ _ Hio Hf).
  rewrite last_snoc. destruct j; try reflexivity. by destruct (Hj d).
Qed.

(** The two file operations of the constructor: creating the directory,
    whose failure is raised, and reading an existing file, whose failure is
    swallowed. *)
Lemma init_mkdir_fails (p : string) (w : world) (m : string) (rest : list (option string)) :
  io w = Some m :: rest ->
  EvidenceLedger_init p w
  = (Raised (Exn OSError "OSError" m), World (file w) rest (clock w) (ticks w) (log w)).
Proof.
  intros Hio. unfold EvidenceLedger_init, _ensure_directory, bind at 1, fs_op.
  by rewrite Hio.
Qed.

Lemma init_read_fails (p : string) (w : world) (lines : list line) (m : string)
    (rest : list (option string)) :
  io w = None :: Some m :: rest -> file w = Some lines ->
  EvidenceLedger_init p w
  = (Returned {| path := p; _last_hash := JNull |},
     World (file w) rest (clock w) (ticks w) (log w)).
Proof.
  intros Hio Hf. destruct w as [f i c t lg]. simpl in Hio, Hf. subst f i.
  reflexivity.
Qed.

(** C9, as the code has it.  When no file operation fails, [_last_hash] at
    startup is what the last persisted line stores as entry_hash (None when
    it stores none) if that line is a JSON object, and None if the line does
    not parse or the file is missing or empty: the sentinel is None, not a
    string.  A last line that is valid JSON but not an object makes the
    constructor raise AttributeError.  A failure to create the directory is
    raised; a failure to read the existing file is swallowed and leaves
    None.  On a ledger that starts missing or empty and is written by
    [append] and [append_event], across restarts and without I/O failure,
    the first entry has previous_hash None and every later entry has the
    entry_hash of the entry before it. *)
Theorem C9_chain_starts_at_None (p : string) (ops : list op) (w : world) :
  (io w = [] ->
   (forall lines d,
      file w = Some (lines ++ [Parsed (JDict d)]) ->
      EvidenceLedger_init p w
      = (Returned {| path := p; _last_hash := get_or_null "entry_hash" d |}, w))
   /\ (forall lines,
        file w = Some (lines ++ [Malformed]) ->
        EvidenceLedger_init p w = (Returned {| path := p; _last_hash := JNull |}, w))
   /\ (forall lines j,
        file w = Some (lines ++ [Parsed j]) -> (forall d, j <> JDict d) ->
        EvidenceLedger_init p w
        = (Raised (Exn AttributeError "AttributeError" "object has no attribute 'get'"),
           w))
   /\ (lines_of w = [] ->
       EvidenceLedger_init p w = (Returned {| path := p; _last_hash := JNull |}, w)
       /\ exists self w',
            session p ops w = (Returned self, w')
            /\ length (lines_of w') = length (List.filter is_append ops)
            /\ (forall e, lines_of w' !! 0 = Some e ->
                  field "previous_hash" e = Some JNull)
            /\ (forall i e e',
                  lines_of w' !! i = Some e -> lines_of w' !! (S i) = Some e' ->
                  exists h, field "entry_hash" e = Some (JStr h)
                            /\ field "previous_hash" e' = Some (JStr h))
            /\ _last_hash self = tip JNull (lines_of w')))
  /\ (forall m rest,
        io w = Some m :: rest ->
        EvidenceLedger_init p w
        = (Raised (Exn OSError "OSError" m),
           World (file w) rest (clock w) (ticks w) (log w)))
  /\ (forall m rest lines,
        io w = None :: Some m :: rest -> file w = Some lines ->
        EvidenceLedger_init p w
        = (Returned {| path := p; _last_hash := JNull |},
           World (file w) rest (clock w) (ticks w) (log w))).
Proof.
  split; [| split; [intros m rest; apply init_mkdir_fails
                   | intros m rest lines; apply init_read_fails]].
  intros Hio. split; [intros lines d Hf; by apply (init_seeded p w lines d) |].
  split; [intros lines Hf; by apply (init_malformed p w lines) |].
  split; [intros lines j Hf Hj; by apply (init_not_object p w lines j) |].
  intros Hempty.
  assert (Hc : chained JNull (lines_of w)) by (by rewrite Hempty).
  destruct (init_consistent p w Hio Hc) as (self0 & Hinit & Hpath & Hcons0).
  split.
  - rewrite Hinit. destruct Hcons0 as (_ & _ & Hl). rewrite Hempty in Hl.
    destruct self0 as [p0 h0]. simpl in *. by subst.
  - destruct (run_ops_consistent ops self0 w Hcons0)
      as (self & w' & Hrun & (Hio' & Hc' & Hl') & Hlen).
    exists self, w'. unfold session, bind. rewrite Hinit.
    split; [exact Hrun |].
    split; [by rewrite Hlen, Hempty |].
    destruct (chained_links _ _ Hc') as [Hfirst Hnext].
    split; [exact Hfirst |]. split; [exact Hnext | exact Hl'].
Qed.

Lemma C9_witness :
  io world0 = [] /\ lines_of world0 = []
  /\ exists self w',
       session "ledger" two_entries world0 = (Returned self, w')
       /\ length (lines_of w') = 2
       /\ (forall e, lines_of w' !! 0 = Some e -> field "previous_hash" e = Some JNull).
Proof.
  split; [reflexivity |]. split; [reflexivity |].
  destruct (proj2 (proj2 (proj2 (proj1 (C9_chain_starts_at_None "ledger" two_entries world0)
                                   eq_refl)))
              eq_refl)
    as (_ & self & w' & Hrun & Hlen & Hfirst & _).
  exists self, w'. split; [exact Hrun |]. split; [exact Hlen | exact Hfirst].
Defined.

(** C9 as stated fails: the first entry appended to a missing ledger has
    previous_hash None, which is not the string "GENESIS", and so has
    [_last_hash] at startup. *)
Lemma C9_counterexample :
  exists (self : EvidenceLedger) (w' : world) (e : line),
    EvidenceLedger_init "ledger" world0
    = (Returned {| path := "ledger"; _last_hash := JNull |}, world0)
    /\ session "ledger" [Append result_A] world0 = (Returned self, w')
    /\ lines_of w' = [e]
    /\ field "previous_hash" e = Some JNull
    /\ field "previous_hash" e <> Some (JStr "GENESIS").
Proof.
  eexists _, _, _.
  split; [vm_compute; reflexivity |].
  split; [vm_compute; reflexivity |].
  split; [vm_compute; reflexivity |].
  split; [vm_compute; reflexivity | vm_compute; discriminate].
Qed.

End LedgerClaims.

(** ** The H.U.G audit *)

Module HugProofs.
Import Invariants Ledger InvariantsSpec LedgerSpec LedgerProofs HugSpec HugAudit.
Local Open Scope py_scope.

#[local] Opaque Sha256.hexdigest dumps_canonical PyStr.of_Z.

Lemma fs_op_only_OSError : raises_only_OSError fs_op.
Proof.
  intros w e w'. unfold fs_op.
  destruct (io w) as [|[msg|] rest]; intros H; try discriminate.
  by injection H as <- _.
Qed.

Lemma ret_only_OSError {A} (a : A) : raises_only_OSError (ret a).
Proof. intros w e w' H. discriminate. Qed.

Lemma bind_only_OSError {A B} (c : M A) (k : A -> M B) :
  raises_only_OSError c -> (forall a, raises_only_OSError (k a)) ->
  raises_only_OSError (bind c k).
Proof.
  intros Hc Hk w e w'. unfold bind.
  destruct (c w) as [[a|e1] w1] eqn:Ec.
  - apply Hk.
  - intros H. injection H as <- _. by apply (Hc w e1 w1).
Qed.

Lemma open_append_only_OSError : raises_only_OSError open_append.
Proof.
  unfold open_append. apply bind_only_OSError; [apply fs_op_only_OSError |].
  intros _. apply bind_only_OSError; [| intros f w e w' H; discriminate].
  intros w e w' H. discriminate.
Qed.

Lemma write_line_only_OSError v : raises_only_OSError (write_line v).
Proof.
  unfold write_line. apply bind_only_OSError; [apply fs_op_only_OSError |].
  intros _. apply bind_only_OSError; [| intros f w e w' H; discriminate].
  intros w e w' H. discriminate.
Qed.

Lemma write_results_only_OSError rs : raises_only_OSError (HugProtocol.write_results rs).
Proof.
  induction rs as [|r rs IH]; simpl; [apply ret_only_OSError |].
  apply bind_only_OSError; [apply write_line_only_OSError | intros _; exact IH].
Qed.

(** A handler for [OSError] that returns makes the block return. *)
Lemma try_except_OSError_returns {A} (c : M A) (h : exn -> M A) :
  raises_only_OSError c ->
  (forall e w, exists a w', h e w = (Returned a, w')) ->
  forall w, exists a w',
    try_except c (fun k => match k with OSError => true | _ => false end) h w
    = (Returned a, w').
Proof.
  intros Hc Hh w. unfold try_except.
  destruct (c w) as [[a|e] w1] eqn:Ec; [by eexists _, _ |].
  rewrite (Hc w e w1 Ec). apply Hh.
Qed.

Lemma write_line_ok (v : json) (w : world) :
  io w = [] -> write_line v w = (Returned tt, set_file w (lines_of w ++ [Parsed v])).
Proof.
  intros Hio. unfold write_line, bind, get_file, put_file.
  rewrite (fs_op_ok _ Hio). reflexivity.
Qed.

Lemma open_append_ok (w : world) :
  io w = [] -> open_append w = (Returned tt, set_file w (lines_of w)).
Proof.
  intros Hio. unfold open_append, bind, get_file, put_file.
  rewrite (fs_op_ok _ Hio). reflexivity.
Qed.

(** What the ["G"] block of [run_hug_audit] does with the ledger file:
    it always comes back with an evidence dict. *)
Lemma write_ledger_returns (results : list HugProtocol.HUGResult) (p : string)
    (g_evidence : list (string * json)) (w : world) :
  exists ev w', write_ledger results p g_evidence w = (Returned ev, w').
Proof.
  apply try_except_OSError_returns.
  - apply bind_only_OSError; [apply fs_op_only_OSError | intros _].
    apply bind_only_OSError; [apply open_append_only_OSError | intros _].
    apply bind_only_OSError; [apply write_results_only_OSError | intros _].
    apply ret_only_OSError.
  - intros e w0. by eexists _, _.
Qed.

Lemma write_ledger_two (h u : HugProtocol.HUGResult) (p : string)
    (g_evidence : list (string * json)) (w : world) :
  io w = [] ->
  write_ledger [h; u] p g_evidence w
  = (Returned (Json.set "ledger_written" (JBool true)
                 (Json.set "ledger_path" (JStr p) g_evidence)),
     set_file w (lines_of w ++ [hug_line h; hug_line u])).
Proof.
  intros Hio. destruct w as [f i c t lg]. simpl in Hio. subst i.
  destruct f as [l|]; cbn -[Json.set]; [by rewrite <- app_assoc | reflexivity].
Qed.

Lemma write_ledger_fails (h u : HugProtocol.HUGResult) (p : string)
    (g_evidence : list (string * json)) (w : world) (k : nat) (m : string)
    (rest : list (option string)) :
  k < 4 -> io w = repeat None k ++ Some m :: rest ->
  exists w',
    write_ledger [h; u] p g_evidence w
    = (Returned (Json.set "ledger_error" (JStr m) g_evidence), w')
    /\ lines_of w' = lines_of w ++ firstn (k - 2) [hug_line h; hug_line u]
    /\ io w' = rest /\ clock w' = clock w /\ ticks w' = ticks w /\ log w' = log w.
Proof.
  intros Hk Hio. destruct w as [f i c t lg]. simpl in Hio. subst i.
  destruct k as [|[|[|[|k]]]]; [| | | | lia];
    (eexists; split; [reflexivity |];
     split; [destruct f as [l|]; cbn -[Json.set];
             rewrite <- ?app_assoc, ?app_nil_r; reflexivity |];
     by repeat split).
Qed.

(** The machine and a computation on one of its files. *)
Lemma lines_at_store (p : string) (w : world) (m : machine) :
  lines_at p (store p w m) = lines_of w.
Proof. unfold lines_at, store, lines_of. cbn [files]. by rewrite String.eqb_refl. Qed.

Lemma lines_of_view (p : string) (m : machine) : lines_of (view p m) = lines_at p m.
Proof. reflexivity. Qed.

(** An exception of the U step ends [run_hug_audit]: there is no G step. *)
Lemma run_hug_audit_raises (env : environment) (changed_files : list string)
    (commit_msg : string) (ledger_path : option string) (m : machine)
    (e : exn) (m1 : machine) :
  run_invariant_tests env (clock_read m) = (Raised e, m1) ->
  run_hug_audit env changed_files commit_msg ledger_path m = (Raised e, m1).
Proof.
  intros HU. unfold run_hug_audit, pbind at 1, read_clock.
  unfold pbind at 1. unfold clock_read, read_clock in HU. cbn [snd] in HU.
  by rewrite HU.
Qed.

(** Once the U step has returned, [run_hug_audit] is the G block on the
    two results. *)
Lemma run_hug_audit_after_U (env : environment) (changed_files : list string)
    (commit_msg : string) (ledger_path : option string) (m : machine)
    (u : bool * list (string * json)) (m1 : machine) :
  run_invariant_tests env (clock_read m) = (Returned u, m1) ->
  let now_ := m_clock m (m_ticks m) in
  let h := h_result changed_files commit_msg now_ in
  let ur := u_result u now_ in
  run_hug_audit env changed_files commit_msg ledger_path m
  = match ledger_path with
    | Some p =>
        if is_empty p then (Returned [h; ur; g_result (g_evidence0 h ur) now_], m1)
        else
          match write_ledger [h; ur] p (g_evidence0 h ur) (view p m1) with
          | (Returned ev, w) => (Returned [h; ur; g_result ev now_], store p w m1)
          | (Raised e, w) => (Raised e, store p w m1)
          end
    | None => (Returned [h; ur; g_result (g_evidence0 h ur) now_], m1)
    end.
Proof.
  intros HU now_ h ur. unfold run_hug_audit, pbind at 1, read_clock.
  unfold pbind at 1. unfold clock_read, read_clock in HU. cbn [snd] in HU.
  rewrite HU. destruct u as [u_passed u_evidence].
  destruct ledger_path as [p|]; [| reflexivity].
  destruct (is_empty p); [reflexivity |].
  unfold pbind, on_file.
  change ([h_result changed_files commit_msg now_] ++ [u_result (u_passed, u_evidence) now_])
    with [h; ur].
  fold now_.
  match goal with
  | |- context [write_ledger ?rs p ?ge (view p m1)] =>
      change (write_ledger rs p ge (view p m1))
        with (write_ledger [h; ur] p (g_evidence0 h ur) (view p m1))
  end.
  destruct (write_ledger [h; ur] p (g_evidence0 h ur) (view p m1)) as [[ev|e] w];
    reflexivity.
Qed.

Lemma run_hug_audit_returns (env : environment) (changed_files : list string)
    (commit_msg : string) (ledger_path : option string) (m : machine)
    (u_passed : bool) (u_evidence : list (string * json)) (m1 : machine) :
  run_invariant_tests env (clock_read m) = (Returned (u_passed, u_evidence), m1) ->
  exists h u g m',
    run_hug_audit env changed_files commit_msg ledger_path m = (Returned [h; u; g], m')
    /\ HugProtocol.step h = "H" /\ HugProtocol.step u = "U" /\ HugProtocol.step g = "G"
    /\ HugProtocol.passed h
       = (negb (HugProtocol.needs_human_review changed_files)
          || HugProtocol.is_human_approved commit_msg)
    /\ HugProtocol.passed u = u_passed
    /\ HugProtocol.evidence u = u_evidence
    /\ HugProtocol.passed g = true.
Proof.
  intros HU.
  rewrite (run_hug_audit_after_U env changed_files commit_msg ledger_path m _ m1 HU).
  cbv zeta.
  destruct ledger_path as [p|].
  - destruct (is_empty p).
    + eexists _, _, _, _. split; [reflexivity |]. by repeat split.
    + match goal with
      | |- context [write_ledger ?rs p ?ge ?w0] =>
          destruct (write_ledger_returns rs p ge w0) as (ev & w' & ->)
      end.
      eexists _, _, _, _. split; [reflexivity |]. by repeat split.
  - eexists _, _, _, _. split; [reflexivity |]. by repeat split.
Qed.

Lemma run_hug_audit_writes_two (env : environment) (changed_files : list string)
    (commit_msg p : string) (m : machine)
    (u_passed : bool) (u_evidence : list (string * json)) (m1 : machine) :
  run_invariant_tests env (clock_read m) = (Returned (u_passed, u_evidence), m1) ->
  is_empty p = false -> m_io m1 = [] ->
  exists h u g m',
    run_hug_audit env changed_files commit_msg (Some p) m = (Returned [h; u; g], m')
    /\ lines_at p m' = lines_at p m1 ++ [hug_line h; hug_line u]
    /\ Json.lookup "ledger_written" (HugProtocol.evidence g) = Some (JBool true)
    /\ Json.lookup "ledger_error" (HugProtocol.evidence g) = None
    /\ HugProtocol.passed g = true.
Proof.
  intros HU Hp Hio.
  rewrite (run_hug_audit_after_U env changed_files commit_msg (Some p) m _ m1 HU).
  cbv zeta. rewrite Hp.
  rewrite write_ledger_two by exact Hio.
  eexists _, _, _, _. split; [reflexivity |].
  split; [by rewrite lines_at_store |]. by repeat split.
Qed.

Lemma run_hug_audit_swallows (env : environment) (changed_files : list string)
    (commit_msg p : string) (m : machine)
    (u_passed : bool) (u_evidence : list (string * json)) (m1 : machine)
    (k : nat) (msg : string) (rest : list (option string)) :
  run_invariant_tests env (clock_read m) = (Returned (u_passed, u_evidence), m1) ->
  is_empty p = false -> k < 4 -> m_io m1 = repeat None k ++ Some msg :: rest ->
  exists h u g m',
    run_hug_audit env changed_files commit_msg (Some p) m = (Returned [h; u; g], m')
    /\ lines_at p m' = lines_at p m1 ++ firstn (k - 2) [hug_line h; hug_line u]
    /\ Json.lookup "ledger_error" (HugProtocol.evidence g) = Some (JStr msg)
    /\ Json.lookup "ledger_written" (HugProtocol.evidence g) = None
    /\ HugProtocol.passed g = true
    /\ HugProtocol.audit_passed [h; u; g]
       = ((negb (HugProtocol.needs_human_review changed_files)
           || HugProtocol.is_human_approved commit_msg)
          && u_passed).
Proof.
  intros HU Hp Hk Hio.
  rewrite (run_hug_audit_after_U env changed_files commit_msg (Some p) m _ m1 HU).
  cbv zeta. rewrite Hp.
  match goal with
  | |- context [write_ledger [?h; ?u] p ?ge ?w0] =>
      destruct (write_ledger_fails h u p ge w0 k msg rest Hk Hio)
        as (w' & -> & Hlines & _)
  end.
  eexists _, _, _, _. split; [reflexivity |].
  split; [by rewrite lines_at_store, Hlines |].
  split; [reflexivity |]. split; [reflexivity |]. split; [reflexivity |].
  unfold HugProtocol.audit_passed. simpl. by rewrite andb_true_r.
Qed.

(** What [run_hug_audit] returns is the three results, the first with
    the verdict of the H gate. *)
Lemma run_hug_audit_returned (env : environment) (changed_files : list string)
    (commit_msg : string) (ledger_path : option string) (m : machine)
    (rs : list HugProtocol.HUGResult) (m' : machine) :
  run_hug_audit env changed_files commit_msg ledger_path m = (Returned rs, m') ->
  exists h u g,
    rs = [h; u; g]
    /\ HugProtocol.step h = "H" /\ HugProtocol.step u = "U" /\ HugProtocol.step g = "G"
    /\ HugProtocol.passed h
       = (negb (HugProtocol.needs_human_review changed_files)
          || HugProtocol.is_human_approved commit_msg)
    /\ HugProtocol.passed g = true.
Proof.
  intros Hrun.
  destruct (run_invariant_tests env (clock_read m)) as [[[u_passed u_evidence]|e] m1] eqn:HU.
  - destruct (run_hug_audit_returns env changed_files commit_msg ledger_path m
                u_passed u_evidence m1 HU)
      as (h & u & g & m2 & Hrun2 & Hh & Hu & Hg & Hph & _ & _ & Hpg).
    rewrite Hrun in Hrun2. injection Hrun2 as -> _.
    exists h, u, g. by repeat split.
  - rewrite (run_hug_audit_raises env changed_files commit_msg ledger_path m e m1 HU)
      in Hrun.
    discriminate.
Qed.

Lemma log_results_three (l : EvidenceLedger) (h u g : Hug.HUGResult) (w : world) :
  io w = [] ->
  exists l' w' e1 e2 e3,
    Hug.log_results l [h; u; g] w = (Returned l', w')
    /\ lines_of w' = lines_of w ++ [e1; e2; e3]
    /\ field "type" e1 = Some (JStr ("HUG_STEP_" +:+ Hug.step h))
    /\ field "type" e2 = Some (JStr ("HUG_STEP_" +:+ Hug.step u))
    /\ field "type" e3 = Some (JStr ("HUG_STEP_" +:+ Hug.step g)).
Proof.
  intros Hio. cbn [Hug.log_results].
  destruct (append_event_ok l ("HUG_STEP_" +:+ Hug.step h)
              (JDict [("passed", JBool (Hug.passed h));
                      ("evidence", JDict (Hug.evidence h));
                      ("timestamp", JStr (Hug.timestamp h))]) w Hio)
    as (h1 & e1 & Hr1 & _ & _ & _ & Ht1).
  unfold bind at 1. rewrite Hr1. cbn [snd path].
  set (w1 := set_file (tick w) (lines_of w ++ [e1])).
  destruct (append_event_ok {| path := path l; _last_hash := JStr h1 |}
              ("HUG_STEP_" +:+ Hug.step u)
              (JDict [("passed", JBool (Hug.passed u));
                      ("evidence", JDict (Hug.evidence u));
                      ("timestamp", JStr (Hug.timestamp u))]) w1 Hio)
    as (h2 & e2 & Hr2 & _ & _ & _ & Ht2).
  unfold bind at 1. rewrite Hr2. cbn [snd path].
  set (w2 := set_file (tick w1) (lines_of w1 ++ [e2])).
  destruct (append_event_ok {| path := path l; _last_hash := JStr h2 |}
              ("HUG_STEP_" +:+ Hug.step g)
              (JDict [("passed", JBool (Hug.passed g));
                      ("evidence", JDict (Hug.evidence g));
                      ("timestamp", JStr (Hug.timestamp g))]) w2 Hio)
    as (h3 & e3 & Hr3 & _ & _ & _ & Ht3).
  unfold bind at 1. rewrite Hr3. cbn [snd path].
  eexists _, _, e1, e2, e3. split; [reflexivity |].
  split; [| by repeat split].
  change (lines_of (set_file (tick w2) (lines_of w2 ++ [e3]))) with (lines_of w2 ++ [e3]).
  change (lines_of w2) with (lines_of w1 ++ [e2]).
  change (lines_of w1) with (lines_of w ++ [e1]).
  by rewrite <- !app_assoc.
Qed.

Lemma run_audit_logs_three (self : Hug.HUGProtocol) (changed_files : list string)
    (commit_msg : string) (batch : list InvariantResult) (w : world) :
  io w = [] ->
  exists h u g self' w' e1 e2 e3,
    Hug.run_audit self changed_files commit_msg batch w = (Returned ([h; u; g], self'), w')
    /\ Hug.step h = "H" /\ Hug.step u = "U" /\ Hug.step g = "G"
    /\ Hug.passed u = forallb (fun r => InvariantStatus_eqb (status r) PASS) batch
    /\ Hug.passed g = true
    /\ lines_of w' = lines_of w ++ [e1; e2; e3]
    /\ field "type" e1 = Some (JStr "HUG_STEP_H")
    /\ field "type" e2 = Some (JStr "HUG_STEP_U")
    /\ field "type" e3 = Some (JStr "HUG_STEP_G").
Proof.
  intros Hio. unfold Hug.run_audit. unfold bind, now. cbv beta iota zeta.
  cbn [app].
  match goal with
  | |- context [Hug.log_results ?l [?h; ?u; ?g] ?w0] =>
      destruct (log_results_three l h u g w0 Hio)
        as (l' & w' & e1 & e2 & e3 & Hlog & Hlines & Ht1 & Ht2 & Ht3)
  end.
  rewrite Hlog.
  eexists _, _, _, _, _, e1, e2, e3. split; [reflexivity |].
  repeat (split; [reflexivity |]).
  split; [exact Hlines |]. split; [exact Ht1 |]. split; [exact Ht2 | exact Ht3].
Qed.

(** [append_event] under the three ways the next two file operations can
    go: the open fails, the write fails, both succeed. *)
Lemma append_event_open_fails (l : EvidenceLedger) (t : string) (p : json) (w : world)
    (m : string) (rest : list (option string)) :
  io w = Some m :: rest ->
  exists w', append_event l t p w = (Raised (Exn OSError "OSError" m), w')
             /\ lines_of w' = lines_of w.
Proof.
  intros Hio. destruct w as [f i c tk lg]. simpl in Hio. subst i.
  eexists. split; reflexivity.
Qed.

Lemma append_event_write_fails (l : EvidenceLedger) (t : string) (p : json) (w : world)
    (m : string) (rest : list (option string)) :
  io w = None :: Some m :: rest ->
  exists w', append_event l t p w = (Raised (Exn OSError "OSError" m), w')
             /\ lines_of w' = lines_of w.
Proof.
  intros Hio. destruct w as [f i c tk lg]. simpl in Hio. subst i.
  eexists. split; [reflexivity |]. by destruct f.
Qed.

Lemma append_event_succeeds (l : EvidenceLedger) (t : string) (p : json) (w : world)
    (rest : list (option string)) :
  io w = None :: None :: rest ->
  exists hl e w', append_event l t p w = (Returned hl, w')
                  /\ io w' = rest
                  /\ lines_of w' = lines_of w ++ [e].
Proof.
  intros Hio. destruct w as [f i c tk lg]. simpl in Hio. subst i.
  eexists _, _, _. split; [reflexivity |]. split; [reflexivity |]. by destruct f.
Qed.

(** A failure of any file operation of the logging loop leaves the loop by
    the exception, after the entries written before it. *)
Lemma log_results_raises (results : list Hug.HUGResult) :
  forall (l : EvidenceLedger) (w : world) (k : nat) (m : string)
         (rest : list (option string)),
    k < 2 * length results -> io w = repeat None k ++ Some m :: rest ->
    exists w', Hug.log_results l results w = (Raised (Exn OSError "OSError" m), w')
               /\ length (lines_of w') = length (lines_of w) + Nat.div2 k.
Proof.
  induction results as [|r results IH]; intros l w k m rest Hk Hio; [simpl in Hk; lia |].
  cbn [Hug.log_results]. unfold bind at 1.
  destruct k as [|[|k]].
  - destruct (append_event_open_fails l ("HUG_STEP_" +:+ Hug.step r)
                (JDict [("passed", JBool (Hug.passed r));
                        ("evidence", JDict (Hug.evidence r));
                        ("timestamp", JStr (Hug.timestamp r))]) w m rest Hio)
      as (w' & -> & Hl).
    exists w'. split; [reflexivity |]. rewrite Hl. simpl. lia.
  - destruct (append_event_write_fails l ("HUG_STEP_" +:+ Hug.step r)
                (JDict [("passed", JBool (Hug.passed r));
                        ("evidence", JDict (Hug.evidence r));
                        ("timestamp", JStr (Hug.timestamp r))]) w m rest Hio)
      as (w' & -> & Hl).
    exists w'. split; [reflexivity |]. rewrite Hl. simpl. lia.
  - destruct (append_event_succeeds l ("HUG_STEP_" +:+ Hug.step r)
                (JDict [("passed", JBool (Hug.passed r));
                        ("evidence", JDict (Hug.evidence r));
                        ("timestamp", JStr (Hug.timestamp r))]) w
                (repeat None k ++ Some m :: rest) Hio)
      as (hl & e & w1 & -> & Hio1 & Hl1).
    assert (Hk' : k < 2 * length results) by (simpl in Hk; lia).
    destruct (IH (snd hl) w1 k m rest Hk' Hio1) as (w' & Hrun & Hl').
    exists w'. split; [exact Hrun |].
    rewrite Hl', Hl1, length_app. simpl. lia.
Qed.

Lemma run_audit_raises (self : Hug.HUGProtocol) (changed_files : list string)
    (commit_msg : string) (batch : list InvariantResult) (w : world)
    (k : nat) (m : string) (rest : list (option string)) :
  k < 6 -> io w = repeat None k ++ Some m :: rest ->
  exists w',
    Hug.run_audit self changed_files commit_msg batch w
    = (Raised (Exn OSError "OSError" m), w')
    /\ length (lines_of w') = length (lines_of w) + Nat.div2 k.
Proof.
  intros Hk Hio. unfold Hug.run_audit. unfold bind, now. cbv beta iota zeta.
  cbn [app].
  match goal with
  | |- context [Hug.log_results ?l ?rs ?w0] =>
      destruct (log_results_raises rs l w0 k m rest Hk Hio) as (w' & Hlog & Hlines)
  end.
  rewrite Hlog. exists w'. split; [reflexivity | exact Hlines].
Qed.

End HugProofs.

Section HugClaims.
Import Invariants Ledger InvariantsSpec LedgerSpec LedgerProofs HugSpec HugProofs.
Import HugAudit.
Local Open Scope py_scope.

(** C5, at the input where the code departs from it.  A batch whose only
    result is the SKIP of a disabled invariant holds no failure, and
    [run_invariant_tests] passes it; the ["U"] step of [run_audit] fails on
    it, with a failure count of 0, and so does the audit. *)
Theorem C5_U_step_fails_on_SKIP :
  status skip_result = SKIP
  /\ get_failures [skip_result] = []
  /\ fst (HugProtocol.invariant_tests_verdict [skip_result]) = true
  /\ exists h u g self' w',
       Hug.run_audit protocol0 [] EmptyString [skip_result] world0
       = (Returned ([h; u; g], self'), w')
       /\ Hug.step u = "U"
       /\ Hug.passed u = false
       /\ Json.lookup "failed" (Hug.evidence u) = Some (JInt 0)
       /\ Hug.passed h = true /\ Hug.passed g = true
       /\ Hug.is_audit_passed [h; u; g] = false.
Proof.
  split; [reflexivity |]. split; [reflexivity |]. split; [reflexivity |].
  eexists _, _, _, _, _.
  split; [vm_compute; reflexivity |].
  repeat split; reflexivity.
Qed.

(** C6, as the code has it.  [run_hug_audit] reaches its ["G"] step only
    when the U step returns: an exception of [run_invariant_tests] ends the
    audit, and there is no result.  When it is reached, the G step always
    reports passed: with a ledger path and no I/O failure the H and U
    results, and only they, are appended to the file; an I/O failure is
    caught and noted in the evidence of G as ledger_error, and the audit
    still passes when H and U do.  In [HUGProtocol.run_audit] the G result is
    built with passed=True and the three results are then appended as events;
    an I/O failure there leaves [run_audit] by an exception. *)
Theorem C6_G_step_always_passes (env : environment) (changed_files : list string)
    (commit_msg : string) (m : machine) (batch : list InvariantResult)
    (self : Hug.HUGProtocol) (w : world) :
  (forall ledger_path,
     (exists e m1,
        run_invariant_tests env (clock_read m) = (Raised e, m1)
        /\ run_hug_audit env changed_files commit_msg ledger_path m = (Raised e, m1))
     \/ (exists u_passed u_evidence m1 h u g m',
           run_invariant_tests env (clock_read m) = (Returned (u_passed, u_evidence), m1)
           /\ run_hug_audit env changed_files commit_msg ledger_path m
              = (Returned [h; u; g], m')
           /\ HugProtocol.step h = "H" /\ HugProtocol.step u = "U"
           /\ HugProtocol.step g = "G"
           /\ HugProtocol.passed h
              = (negb (HugProtocol.needs_human_review changed_files)
                 || HugProtocol.is_human_approved commit_msg)
           /\ HugProtocol.passed u = u_passed
           /\ HugProtocol.evidence u = u_evidence
           /\ HugProtocol.passed g = true))
  /\ (forall p u_passed u_evidence m1,
      run_invariant_tests env (clock_read m) = (Returned (u_passed, u_evidence), m1) ->
      is_empty p = false -> m_io m1 = [] ->
      exists h u g m',
        run_hug_audit env changed_files commit_msg (Some p) m = (Returned [h; u; g], m')
        /\ lines_at p m' = lines_at p m1 ++ [hug_line h; hug_line u]
        /\ Json.lookup "ledger_written" (HugProtocol.evidence g) = Some (JBool true)
        /\ Json.lookup "ledger_error" (HugProtocol.evidence g) = None
        /\ HugProtocol.passed g = true)
  /\ (forall p u_passed u_evidence m1 k msg rest,
      run_invariant_tests env (clock_read m) = (Returned (u_passed, u_evidence), m1) ->
      is_empty p = false -> k < 4 -> m_io m1 = repeat None k ++ Some msg :: rest ->
      exists h u g m',
        run_hug_audit env changed_files commit_msg (Some p) m = (Returned [h; u; g], m')
        /\ lines_at p m' = lines_at p m1 ++ firstn (k - 2) [hug_line h; hug_line u]
        /\ Json.lookup "ledger_error" (HugProtocol.evidence g) = Some (JStr msg)
        /\ Json.lookup "ledger_written" (HugProtocol.evidence g) = None
        /\ HugProtocol.passed g = true
        /\ HugProtocol.audit_passed [h; u; g]
           = ((negb (HugProtocol.needs_human_review changed_files)
               || HugProtocol.is_human_approved commit_msg)
              && u_passed))
  /\ (io w = [] ->
      exists h u g self' w' e1 e2 e3,
        Hug.run_audit self changed_files commit_msg batch w
        = (Returned ([h; u; g], self'), w')
        /\ Hug.step h = "H" /\ Hug.step u = "U" /\ Hug.step g = "G"
        /\ Hug.passed u = forallb (fun r => InvariantStatus_eqb (status r) PASS) batch
        /\ Hug.passed g = true
        /\ lines_of w' = lines_of w ++ [e1; e2; e3]
        /\ field "type" e1 = Some (JStr "HUG_STEP_H")
        /\ field "type" e2 = Some (JStr "HUG_STEP_U")
        /\ field "type" e3 = Some (JStr "HUG_STEP_G"))
  /\ (forall k msg rest, k < 6 -> io w = repeat None k ++ Some msg :: rest ->
      exists w',
        Hug.run_audit self changed_files commit_msg batch w
        = (Raised (Exn OSError "OSError" msg), w')
        /\ length (lines_of w') = length (lines_of w) + Nat.div2 k).
Proof.
  split.
  { intros ledger_path.
    destruct (run_invariant_tests env (clock_read m))
      as [[[u_passed u_evidence]|e] m1] eqn:HU.
    - right.
      destruct (run_hug_audit_returns env changed_files commit_msg ledger_path m
                  u_passed u_evidence m1 HU) as (h & u & g & m' & Hrun).
      by exists u_passed, u_evidence, m1, h, u, g, m'.
    - left. exists e, m1. split; [reflexivity |].
      by apply run_hug_audit_raises. }
  split; [intros p u_passed u_evidence m1; apply run_hug_audit_writes_two |].
  split; [intros p u_passed u_evidence m1 k msg rest; apply run_hug_audit_swallows |].
  split; [apply run_audit_logs_three |].
  intros k msg rest. apply run_audit_raises.
Qed.

Lemma C6_witness :
  is_empty "ledger" = false
  /\ exists u_evidence m1 h u g m',
       run_invariant_tests env_constitution (clock_read machine_full)
       = (Returned (true, u_evidence), m1)
       /\ m_io m1 = [Some "[Errno 28] No space left on device"]
       /\ run_hug_audit env_constitution [] EmptyString (Some "ledger") machine_full
          = (Returned [h; u; g], m')
       /\ lines_at "ledger" m' = []
       /\ Json.lookup "ledger_error" (HugProtocol.evidence g)
          = Some (JStr "[Errno 28] No space left on device")
       /\ HugProtocol.passed g = true
       /\ HugProtocol.audit_passed [h; u; g] = true.
Proof.
  split; [reflexivity |].
  assert (HU : exists u_evidence m1,
             run_invariant_tests env_constitution (clock_read machine_full)
             = (Returned (true, u_evidence), m1)
             /\ m_io m1 = [Some "[Errno 28] No space left on device"]
             /\ lines_at "ledger" m1 = []).
  { eexists _, _. split; [vm_compute; reflexivity |]. split; reflexivity. }
  destruct HU as (u_evidence & m1 & HU & Hio & Hl1).
  destruct (C6_G_step_always_passes env_constitution [] EmptyString machine_full []
              protocol0 world0) as (_ & _ & Hfail & _).
  assert (Hk : 0 < 4) by lia.
  destruct (Hfail "ledger" true u_evidence m1 0 "[Errno 28] No space left on device" []
              HU eq_refl Hk Hio)
    as (h & u & g & m' & Hrun & Hlines & Herr & _ & Hg & Hall).
  exists u_evidence, m1, h, u, g, m'.
  split; [exact HU |]. split; [exact Hio |]. split; [exact Hrun |].
  split; [by rewrite Hlines, Hl1 |].
  split; [exact Herr |]. split; [exact Hg | exact Hall].
Defined.

(** C6 as stated fails.  With the file system refusing the write, the audit
    of [run_hug_audit] passes and nothing is in the ledger; without failure,
    two lines are written, for H and U, not three. *)
Lemma C6_counterexample :
  (exists rs m',
     run_hug_audit env_constitution [] EmptyString (Some "ledger") machine_full
     = (Returned rs, m')
     /\ lines_at "ledger" m' = []
     /\ map HugProtocol.passed rs = [true; true; true]
     /\ HugProtocol.audit_passed rs = true)
  /\ (exists rs m',
        run_hug_audit env_constitution [] EmptyString (Some "ledger") (machine_ready [])
        = (Returned rs, m')
        /\ map HugProtocol.step rs = ["H"; "U"; "G"]
        /\ map (field "type") (lines_at "ledger" m')
           = [Some (JStr "HUG_STEP_H"); Some (JStr "HUG_STEP_U")]).
Proof.
  split; eexists _, _; (split; [vm_compute; reflexivity |]); repeat split; reflexivity.
Qed.

(** Without a constitution file in the directory of the test configuration
    the daemon of the U step halts on INV-003: [run_hug_audit] ends in
    SystemExit(1) and returns no result; the daemon has written the halt to
    its own ledger, and nothing is in the ledger of the audit. *)
Example run_hug_audit_exits :
  exists m',
    run_hug_audit env_no_constitution [] EmptyString (Some "ledger") (machine_ready [])
    = (Raised (Exn OtherError "SystemExit" "1"), m')
    /\ lines_at "ledger" m' = []
    /\ last (map (field "type") (lines_at test_ledger m'))
       = Some (Some (JStr "EMERGENCY_HALT")).
Proof.
  eexists. split; [vm_compute; reflexivity |]. split; reflexivity.
Qed.

End HugClaims.

(** ** The rest of the registry *)

Section RegistryExtras.
Import Invariants InvariantsSpec InvariantsProofs Registry RegistrySpec.
Local Open Scope py_scope.

Lemma dict_get_None_keys k d : dict_get k d = None <-> ~ In k (map fst d).
Proof.
  induction d as [|[k' v] d IH]; simpl; [tauto |].
  destruct (String.eqb k k') eqn:E.
  - apply String.eqb_eq in E. subst. split; [discriminate | tauto].
  - apply String.eqb_neq in E. rewrite IH. split; [intros H [?|?]; congruence | tauto].
Qed.

Lemma dict_del_keys_subset k k' d : In k' (map fst (dict_del k d)) -> In k' (map fst d).
Proof.
  induction d as [|[k0 v] d IH]; simpl; [tauto |].
  destruct (String.eqb k k0); simpl; tauto.
Qed.

Lemma dict_del_NoDup k d : NoDup (map fst d) -> NoDup (map fst (dict_del k d)).
Proof.
  induction d as [|[k0 v] d IH]; simpl; intros H; [constructor |].
  apply NoDup_cons in H as [Hn Hd].
  destruct (String.eqb k k0); [exact Hd |]. simpl. apply NoDup_cons. split; [| auto].
  rewrite list_elem_of_In in *. intros Hin. apply Hn. by apply dict_del_keys_subset in Hin.
Qed.

Lemma dict_get_del_eq k d : NoDup (map fst d) -> dict_get k (dict_del k d) = None.
Proof.
  induction d as [|[k0 v] d IH]; simpl; intros H; [reflexivity |].
  apply NoDup_cons in H as [Hn Hd].
  destruct (String.eqb k k0) eqn:E.
  - apply String.eqb_eq in E. subst. apply dict_get_None_keys.
    by rewrite <- list_elem_of_In.
  - simpl. rewrite E. auto.
Qed.

Lemma dict_get_del_ne k k' d : k' <> k -> dict_get k' (dict_del k d) = dict_get k' d.
Proof.
  intros Hne. induction d as [|[k0 v] d IH]; simpl; [reflexivity |].
  destruct (String.eqb k k0) eqn:E.
  - apply String.eqb_eq in E. subst.
    destruct (String.eqb k' k0) eqn:E'; [apply String.eqb_eq in E'; congruence | done].
  - simpl. by rewrite IH.
Qed.

Lemma dict_del_snoc k v d : dict_get k d = None -> dict_del k (d ++ [(k, v)]) = d.
Proof.
  induction d as [|[k0 v0] d IH]; simpl.
  - by rewrite String.eqb_refl.
  - destruct (String.eqb k k0); [discriminate |]. intros H. by rewrite IH.
Qed.

Lemma dict_set_NoDup k v d : NoDup (map fst d) -> NoDup (map fst (dict_set k v d)).
Proof.
  intros H. destruct (dict_get k d) eqn:E.
  - rewrite dict_set_keys; [exact H | by eexists].
  - rewrite dict_set_fresh by exact E. rewrite map_app. simpl.
    apply NoDup_app. split; [exact H |]. split; [| apply NoDup_singleton].
    intros x Hx Hk. apply list_elem_of_singleton in Hk. subst.
    apply dict_get_None_keys in E. apply E. by rewrite <- list_elem_of_In.
Qed.

(** The ids of a registry stay distinct under [register] and [unregister]. *)
Lemma register_NoDup self inv self' :
  NoDup (ids self) -> register self inv = Returned self' -> NoDup (ids self').
Proof.
  unfold register, ids. intros H E. injection E as <-. simpl. by apply dict_set_NoDup.
Qed.

(** X1.  On a registry whose ids are distinct, [unregister] answers whether
    the id was registered; afterwards the id is unknown, every other id has
    the invariant it had, the ids stay distinct and the history is
    untouched.  Unregistering an id just registered on a registry that did
    not know it gives that registry back. *)
Theorem X1_unregister (self : InvariantRegistry) (k : string) :
  NoDup (ids self) ->
  fst (unregister self k) = bool_decide (is_Some (get self k))
  /\ get (snd (unregister self k)) k = None
  /\ (forall k', k' <> k -> get (snd (unregister self k)) k' = get self k')
  /\ NoDup (ids (snd (unregister self k)))
  /\ _results_history (snd (unregister self k)) = _results_history self
  /\ (forall invariant self',
        inv_id invariant = k -> get self k = None ->
        register self invariant = Returned self' ->
        unregister self' k = (true, self)).
Proof.
  intros Hnd. unfold unregister, get, ids in *.
  destruct (dict_get k (_invariants self)) as [inv|] eqn:E; simpl.
  - split; [reflexivity |].
    split; [by apply dict_get_del_eq |].
    split; [intros k' Hk; by apply dict_get_del_ne |].
    split; [by apply dict_del_NoDup |]. split; [reflexivity |].
    intros invariant self' _ Hnone. discriminate Hnone.
  - split; [reflexivity |].
    split; [exact E |]. split; [reflexivity |].
    split; [exact Hnd |]. split; [reflexivity |].
    intros invariant self' Hid _ Hreg. unfold register in Hreg.
    injection Hreg as <-. simpl. rewrite Hid, dict_get_set_eq.
    rewrite (dict_set_fresh _ _ _ E), dict_del_snoc by exact E.
    by destruct self.
Qed.

Lemma X1_witness :
  NoDup (ids registry_ABC)
  /\ unregister registry_ABC "B"
     = (true, registry_of [("A", inv_A); ("C", inv_C)])
  /\ get (snd (unregister registry_ABC "B")) "B" = None.
Proof.
  assert (H : NoDup (ids registry_ABC)).
  { unfold ids. simpl.
    repeat (apply NoDup_cons; split;
            [rewrite list_elem_of_In; simpl; intuition discriminate |]).
    apply NoDup_nil_2. }
  split; [exact H |]. split; [reflexivity |].
  exact (proj1 (proj2 (X1_unregister registry_ABC "B" H))).
Defined.

Lemma subset_loop_spec (d : list (string * Invariant)) (ctx : context)
    (invariant_ids : list string) :
  forall (rs hs : list InvariantResult) (w : world),
  exists out w',
    subset_loop d invariant_ids ctx rs hs w = (Returned (rs ++ out, hs ++ out), w')
    /\ Forall2 (validated ctx) (select d invariant_ids) out
    /\ file w' = file w /\ io w' = io w /\ log w' = log w.
Proof.
  induction invariant_ids as [|k ks IH]; intros rs hs w; simpl.
  - exists [], w. rewrite !app_nil_r. repeat split; constructor.
  - destruct (dict_get k d) as [inv|] eqn:E; simpl.
    + destruct (validate_spec inv ctx w) as (r & w1 & Hv & Hr & Hf & Hi & Hl).
      unfold bind at 1. rewrite Hv.
      destruct (IH (rs ++ [r]) (hs ++ [r]) w1)
        as (out & w2 & Hloop & Hall & Hf2 & Hi2 & Hl2).
      exists (r :: out), w2. rewrite Hloop, <- !app_assoc. simpl.
      split; [reflexivity |]. split; [by constructor |].
      repeat split; congruence.
    + apply IH.
Qed.

(** X2.  [validate_subset] never raises.  It returns one result per id of
    the list that is registered, in the order of the list and not of the
    registry: an unknown id is passed over without a result or an error, a
    repeated id is validated again.  The results are added to the history
    and no invariant is registered or removed. *)
Theorem X2_validate_subset (self : InvariantRegistry) (invariant_ids : list string)
    (ctx : context) (w : world) :
  exists results w',
    validate_subset self invariant_ids ctx w
    = (Returned (results,
                 {| _invariants := _invariants self;
                    _results_history := _results_history self ++ results |}), w')
    /\ Forall2 (validated ctx) (selected self invariant_ids) results
    /\ length results <= length invariant_ids
    /\ (Forall (fun k => get self k = None) invariant_ids -> results = []).
Proof.
  unfold validate_subset, selected, get.
  destruct (subset_loop_spec (_invariants self) ctx invariant_ids []
              (_results_history self) w) as (out & w' & Hloop & Hall & _).
  exists out, w'. unfold bind. rewrite Hloop. simpl.
  split; [reflexivity |]. split; [exact Hall |].
  split.
  - rewrite <- (Forall2_length _ _ _ Hall). clear.
    induction invariant_ids as [|k ks IH]; simpl; [lia |].
    destruct (dict_get k (_invariants self)); simpl; lia.
  - intros Hnone. apply Forall2_length in Hall.
    assert (Hsel : select (_invariants self) invariant_ids = []).
    { clear Hall Hloop. induction Hnone as [|k ks Hk _ IH]; [reflexivity |].
      simpl. unfold get in Hk. by rewrite Hk. }
    rewrite Hsel in Hall. by destruct out.
Qed.

Lemma X2_witness :
  Forall (fun k => get registry_ABC k = None) ["Z"; "Y"]
  /\ exists results w',
       fst (validate_subset registry_ABC ["Z"; "Y"] [] world0) = Returned (results, w')
       /\ results = [].
Proof.
  assert (H : Forall (fun k => get registry_ABC k = None) ["Z"; "Y"])
    by (repeat constructor).
  split; [exact H |].
  destruct (X2_validate_subset registry_ABC ["Z"; "Y"] [] world0)
    as (results & w' & Hrun & _ & _ & Hnone).
  eexists results, _. rewrite Hrun. split; [reflexivity | exact (Hnone H)].
Defined.

(** The order of the id list, not of the registry, and a repeated id. *)
Example validate_subset_order :
  match fst (validate_subset registry_ABC ["C"; "nope"; "A"; "C"] [] world0) with
  | Returned (results, _) => map invariant_id results = ["C"; "A"; "C"]
  | Raised _ => False
  end.
Proof. vm_compute. reflexivity. Qed.

(** X3.  A predicate that raises makes the batch a critical one, whatever
    severity its invariant declares: when an enabled registered invariant
    raises on the context, [has_critical_failure] holds of the results of
    [validate_all] and [get_failures] is not empty. *)
Theorem X3_raising_predicate_is_critical (self : InvariantRegistry) (ctx : context)
    (w : world) (bad : Invariant) (e : exn) :
  In bad (list_all self) ->
  inv_enabled bad = true ->
  inv_validator bad ctx = Raised e ->
  exists results self' w',
    validate_all self ctx w = (Returned (results, self'), w')
    /\ has_critical_failure results = true
    /\ get_failures results <> [].
Proof.
  intros Hin Hen Hraise.
  destruct (validate_all_spec self ctx w) as (results & w' & Hrun & Hall & _).
  eexists results, _, w'. split; [exact Hrun |].
  apply list_elem_of_In, list_elem_of_lookup in Hin as [i Hi].
  destruct (Forall2_lookup_l _ _ _ _ _ Hall Hi) as (r & Hr & Hv).
  unfold validated in Hv. rewrite Hen, Hraise in Hv.
  destruct Hv as (_ & _ & Hst & Hsev & _).
  assert (Hrin : In r results) by (apply list_elem_of_In, list_elem_of_lookup; eauto).
  split.
  - unfold has_critical_failure. apply existsb_exists. exists r.
    split; [exact Hrin |]. unfold is_failure. by rewrite Hst, Hsev.
  - intros Hnil.
    assert (Hf : In r (get_failures results)).
    { unfold get_failures. apply filter_In. split; [exact Hrin |].
      unfold is_failure. by rewrite Hst. }
    rewrite Hnil in Hf. destruct Hf.
Qed.

Lemma X3_witness :
  In inv_C (list_all registry_ABC)
  /\ inv_enabled inv_C = true
  /\ inv_severity inv_C = MEDIUM
  /\ inv_validator inv_C [] = Raised boom
  /\ exists results self' w',
       validate_all registry_ABC [] world0 = (Returned (results, self'), w')
       /\ has_critical_failure results = true.
Proof.
  assert (H : In inv_C (list_all registry_ABC)) by (simpl; tauto).
  split; [exact H |]. split; [reflexivity |]. split; [reflexivity |].
  split; [reflexivity |].
  destruct (X3_raising_predicate_is_critical registry_ABC [] world0 inv_C boom
              H eq_refl eq_refl) as (results & self' & w' & Hrun & Hcrit & _).
  exists results, self', w'. split; [exact Hrun | exact Hcrit].
Defined.

(** X4.  A disabled invariant is never a failure: in the results of
    [validate_all] its result has status SKIP, is left out by
    [get_failures], and its validator is not consulted, so that a registry
    of disabled invariants has no failure and no critical failure even when
    every validator would raise. *)
Theorem X4_disabled_never_fails (self : InvariantRegistry) (ctx : context) (w : world) :
  exists results self' w',
    validate_all self ctx w = (Returned (results, self'), w')
    /\ (forall i inv r,
          list_all self !! i = Some inv -> results !! i = Some r ->
          inv_enabled inv = false ->
          status r = SKIP /\ severity r = inv_severity inv
          /\ ~ In r (get_failures results))
    /\ (Forall (fun inv => inv_enabled inv = false) (list_all self) ->
        get_failures results = [] /\ has_critical_failure results = false).
Proof.
  destruct (validate_all_spec self ctx w) as (results & w' & Hrun & Hall & _).
  eexists results, _, w'. split; [exact Hrun |]. split.
  - intros i inv r Hi Hr Hdis.
    destruct (Forall2_lookup_l _ _ _ _ _ Hall Hi) as (r' & Hr' & Hv).
    rewrite Hr in Hr'. injection Hr' as <-.
    unfold validated in Hv. rewrite Hdis in Hv.
    destruct Hv as (_ & _ & Hst & Hsev & _).
    split; [exact Hst |]. split; [exact Hsev |].
    unfold get_failures. rewrite filter_In. unfold is_failure. rewrite Hst.
    intros [_ ?]. discriminate.
  - intros Hdis.
    assert (Hskip : Forall (fun r => is_failure r = false) results).
    { clear Hrun. induction Hall as [|inv r invs rs Hv _ IH]; [constructor |].
      apply Forall_cons in Hdis as [Hd Hds]. constructor; [| by apply IH].
      unfold validated in Hv. rewrite Hd in Hv. destruct Hv as (_ & _ & Hst & _).
      unfold is_failure. by rewrite Hst. }
    clear Hrun Hall. induction Hskip as [|r rs Hr _ [IH1 IH2]]; [by split |].
    unfold get_failures, has_critical_failure in *. simpl. rewrite Hr. simpl.
    by split.
Qed.

Lemma X4_witness :
  list_all registry_off !! 1 = Some (disabled inv_C)
  /\ inv_enabled (disabled inv_C) = false
  /\ inv_validator (disabled inv_C) [] = Raised boom
  /\ Forall (fun inv => inv_enabled inv = false) (list_all registry_off)
  /\ exists results self' w' r,
       validate_all registry_off [] world0 = (Returned (results, self'), w')
       /\ length results = 2
       /\ results !! 1 = Some r
       /\ status r = SKIP /\ severity r = MEDIUM
       /\ get_failures results = [] /\ has_critical_failure results = false.
Proof.
  assert (H : Forall (fun inv => inv_enabled inv = false) (list_all registry_off))
    by (repeat constructor).
  split; [reflexivity |]. split; [reflexivity |]. split; [reflexivity |].
  split; [exact H |].
  destruct (X4_disabled_never_fails registry_off [] world0)
    as (results & self' & w' & Hrun & Hone & Hnone).
  assert (Hres : exists r0 r1, results = [r0; r1]).
  { vm_compute in Hrun. injection Hrun as <- _ _. by eexists _, _. }
  destruct Hres as (r0 & r1 & ->).
  destruct (Hone 1 (disabled inv_C) r1 eq_refl eq_refl eq_refl) as (Hst & Hsev & _).
  exists [r0; r1], self', w', r1.
  split; [exact Hrun |]. split; [reflexivity |]. split; [reflexivity |].
  split; [exact Hst |]. split; [exact Hsev |]. exact (Hnone H).
Defined.

Lemma slice_from_nonpos {A} (l : list A) (k : Z) :
  (0 <= k)%Z -> slice_from k l = skipn (Z.to_nat k) l.
Proof.
  intros Hk. unfold slice_from.
  destruct (Z.ltb_spec k 0); [lia |].
  destruct (Z.le_gt_cases k (Z.of_nat (length l))).
  - by rewrite Z.min_l.
  - rewrite Z.min_r, Nat2Z.id by lia. rewrite !skipn_all2; [reflexivity | lia | lia].
Qed.

(** X5.  [get_history(limit)] is the slice [history[-limit:]]: for a limit
    between 1 and the length of the history it is the last [limit] results;
    for a limit at least the length it is the whole history; and for the
    limit 0 it is the whole history too, not the empty list, while a
    negative limit drops that many results from the front.  After a
    [validate_all] that returned at least one result, asking for as many
    results as it returned gives them back; after one that returned none,
    the registry being empty, it gives the whole history. *)
Theorem X5_get_history (self : InvariantRegistry) (limit : Z) :
  ((0 < limit <= Z.of_nat (length (_results_history self)))%Z ->
     exists older, _results_history self = older ++ get_history self limit
                   /\ Z.of_nat (length (get_history self limit)) = limit)
  /\ ((Z.of_nat (length (_results_history self)) <= limit)%Z ->
      get_history self limit = _results_history self)
  /\ get_history self 0 = _results_history self
  /\ ((limit < 0)%Z ->
      get_history self limit = skipn (Z.to_nat (- limit)) (_results_history self))
  /\ (forall ctx w results self' w',
        validate_all self ctx w = (Returned (results, self'), w') ->
        get_history self' (Z.of_nat (length results))
        = match results with
          | [] => _results_history self
          | _ :: _ => results
          end).
Proof.
  unfold get_history. set (h := _results_history self).
  assert (Hneg : forall (l : list InvariantResult) (n : Z),
            (0 < n <= Z.of_nat (length l))%Z ->
            slice_from (- n) l = skipn (length l - Z.to_nat n) l).
  { intros l n Hn. unfold slice_from.
    destruct (Z.ltb_spec (- n) 0); [| lia].
    rewrite Z.max_r by lia. f_equal. lia. }
  assert (Hzero : forall l : list InvariantResult, slice_from (- 0) l = l).
  { intros l. unfold slice_from. simpl. rewrite Z.min_l by lia. reflexivity. }
  split; [| split; [| split; [| split]]].
  - intros Hl. rewrite (Hneg h limit Hl).
    exists (firstn (length h - Z.to_nat limit) h).
    split; [by rewrite firstn_skipn |]. rewrite length_skipn. lia.
  - intros Hl. unfold slice_from.
    destruct (Z.ltb_spec (- limit) 0).
    + rewrite Z.max_l by lia. reflexivity.
    + assert (limit = 0)%Z by lia. subst. simpl. rewrite Z.min_l by lia. reflexivity.
  - apply Hzero.
  - intros Hl. apply slice_from_nonpos. lia.
  - intros ctx w results self' w' Hrun.
    destruct (validate_all_spec self ctx w) as (rs & w1 & Hrun' & _).
    rewrite Hrun in Hrun'. injection Hrun' as Hr Hs _. subst rs self'. simpl.
    destruct results as [|r results].
    + rewrite app_nil_r. apply Hzero.
    + rewrite Hneg by (rewrite length_app; simpl; lia).
      assert (Hn : length (h ++ r :: results)
                   - Z.to_nat (Z.of_nat (length (r :: results)))
                   = length h) by (rewrite length_app; lia).
      unfold h in Hn. rewrite Hn. apply drop_app_length.
Qed.

Lemma X5_witness :
  _results_history registry_AB_used = [result_A]
  /\ exists results self' w',
       validate_all registry_AB_used [] world0 = (Returned (results, self'), w')
       /\ results = [result_A; result_B]
       /\ _results_history self' = [result_A; result_A; result_B]
       /\ get_history self' 2 = [result_A; result_B]
       /\ get_history self' 0 = [result_A; result_A; result_B].
Proof.
  split; [reflexivity |].
  assert (Hrun : validate_all registry_AB_used [] world0
                 = (Returned ([result_A; result_B],
                              {| _invariants := _invariants registry_AB_used;
                                 _results_history :=
                                   _results_history registry_AB_used
                                   ++ [result_A; result_B] |}), world0))
    by reflexivity.
  eexists _, _, _. split; [exact Hrun |]. split; [reflexivity |].
  split; [reflexivity |].
  split.
  - exact (proj2 (proj2 (proj2 (proj2 (X5_get_history registry_AB_used 0))))
             [] world0 _ _ _ Hrun).
  - reflexivity.
Defined.

End RegistryExtras.

(** ** More on the evidence ledger *)

Module LedgerMoreProofs.
Import Invariants Ledger InvariantsSpec LedgerSpec LedgerProofs LedgerMoreSpec.
Local Open Scope py_scope.

#[local] Opaque Sha256.hexdigest dumps_canonical PyStr.of_Z.

Lemma py_eqb_hashlike (j : json) : hashlike j -> py_eqb j j = true.
Proof. intros [-> | [h ->]]; simpl; [reflexivity | apply String.eqb_refl]. Qed.

Lemma tip_hashlike (lines : list line) :
  forall prev, hashlike prev -> chained prev lines -> hashlike (tip prev lines).
Proof.
  induction lines as [|l lines IH]; intros prev Hp Hc; [exact Hp |].
  simpl in *. destruct Hc as (_ & h & Hh & Hrest). rewrite Hh.
  apply IH; [right; by exists h | exact Hrest].
Qed.

Lemma tip_nonempty (lines : list line) :
  forall (prev : json) (l : line),
    chained prev (l :: lines) -> exists h, tip prev (l :: lines) = JStr h.
Proof.
  induction lines as [|l1 lines IH]; intros prev l (_ & h & Hh & Hrest).
  - exists h. simpl. by rewrite Hh.
  - destruct (IH (JStr h) l1 Hrest) as [h' Hh']. exists h'.
    change (tip prev (l :: l1 :: lines))
      with (tip (match field "entry_hash" l with Some x => x | None => JNull end)
                (l1 :: lines)).
    by rewrite Hh.
Qed.

(** The scan walks through a chained prefix. *)
Lemma scan_app_chained (lines rest : list line) :
  forall (n : nat) (prev : json),
    hashlike prev -> chained prev lines ->
    scan (lines ++ rest) n prev = scan rest (n + length lines) (tip prev lines).
Proof.
  induction lines as [|l lines IH]; intros n prev Hp Hc; simpl.
  - by rewrite Nat.add_0_r.
  - simpl in Hc. destruct Hc as (Hprev & h & Hh & Hrest).
    destruct l as [|j]; [discriminate |]. destruct j; try discriminate.
    cbn [field] in Hprev, Hh |- *.
    unfold get_or_null. rewrite Hprev, Hh, (py_eqb_hashlike _ Hp).
    rewrite IH; [| right; by exists h | exact Hrest].
    f_equal. lia.
Qed.

Lemma verify_chain_linked (self : EvidenceLedger) (w : world) :
  io w = [] -> chained JNull (lines_of w) ->
  verify_chain self w = (Returned true, w).
Proof.
  intros Hio Hc. unfold lines_of in Hc.
  destruct (file w) as [lines|] eqn:Hf.
  - rewrite (verify_chain_scan self w lines Hf Hio).
    rewrite <- (app_nil_r lines), scan_app_chained; [reflexivity | by left | exact Hc].
  - unfold verify_chain, bind, get_file. by rewrite Hf.
Qed.

(** What [write_entry] does, whatever the file system has in store for the
    open and the write. *)
Lemma write_entry_cases (self : EvidenceLedger) (entry : list (string * json)) (w : world) :
  (exists w',
     write_entry self entry w
     = (Returned (_compute_entry_hash self entry,
                  {| path := path self;
                     _last_hash := JStr (_compute_entry_hash self entry) |}), w')
     /\ lines_of w'
        = lines_of w ++ [Parsed (JDict (Json.set "entry_hash"
                                          (JStr (_compute_entry_hash self entry)) entry))]
     /\ io w' = skipn 2 (io w) /\ log w' = log w)
  \/ (exists m w',
        write_entry self entry w = (Raised (Exn OSError "OSError" m), w')
        /\ lines_of w' = lines_of w /\ In (Some m) (firstn 2 (io w))
        /\ log w' = log w).
Proof.
  destruct w as [f i c t lg].
  destruct i as [|[m|] i].
  - left. eexists. split; [reflexivity |]. by destruct f.
  - right. eexists m, _. split; [reflexivity |]. destruct i; simpl; tauto.
  - destruct i as [|[m'|] rest].
    + left. eexists. split; [reflexivity |]. by destruct f.
    + right. eexists m', _. split; [reflexivity |]. destruct f; simpl; tauto.
    + left. eexists. split; [reflexivity |]. by destruct f.
Qed.

Lemma linked_snoc (self : EvidenceLedger) (w w' : world) (e : line) (h : string) :
  linked self w ->
  lines_of w' = lines_of w ++ [e] ->
  field "previous_hash" e = Some (_last_hash self) ->
  field "entry_hash" e = Some (JStr h) ->
  linked {| path := path self; _last_hash := JStr h |} w'.
Proof.
  intros [Hc Hl] Hlines Hp He. rewrite Hl in Hp.
  destruct (chained_snoc _ _ _ _ Hc Hp He) as [Hc' Ht'].
  unfold linked. rewrite Hlines. split; [exact Hc' | by rewrite Ht'].
Qed.

Lemma append_succeeds (self : EvidenceLedger) (r : InvariantResult) (w : world)
    (rest : list (option string)) :
  io w = [] \/ io w = None :: None :: rest ->
  exists h e w',
    append self r w = (Returned (h, {| path := path self; _last_hash := JStr h |}), w')
    /\ lines_of w' = lines_of w ++ [e]
    /\ io w' = skipn 2 (io w) /\ log w' = log w
    /\ field "previous_hash" e = Some (_last_hash self)
    /\ stores_hash h e /\ holds_result r e /\ hash_intact e.
Proof.
  intros Hio. destruct w as [f i c t lg]. simpl in Hio.
  destruct Hio as [-> | ->].
  - eexists _, _, _. split; [reflexivity |]. split; [by destruct f |].
    repeat (split; [reflexivity |]). split; [by split |]. eexists. split; reflexivity.
  - eexists _, _, _. split; [reflexivity |]. split; [by destruct f |].
    repeat (split; [reflexivity |]). split; [by split |]. eexists. split; reflexivity.
Qed.

Lemma append_event_succeeds' (self : EvidenceLedger) (t : string) (p : json) (w : world)
    (rest : list (option string)) :
  io w = [] \/ io w = None :: None :: rest ->
  exists h e w',
    append_event self t p w
    = (Returned (h, {| path := path self; _last_hash := JStr h |}), w')
    /\ lines_of w' = lines_of w ++ [e]
    /\ io w' = skipn 2 (io w) /\ log w' = log w
    /\ field "previous_hash" e = Some (_last_hash self)
    /\ stores_hash h e /\ field "payload" e = Some p /\ hash_intact e.
Proof.
  intros Hio. destruct w as [f i c tk lg]. simpl in Hio.
  destruct Hio as [-> | ->].
  - eexists _, _, _. split; [reflexivity |]. split; [by destruct f |].
    repeat (split; [reflexivity |]). eexists. split; reflexivity.
  - eexists _, _, _. split; [reflexivity |]. split; [by destruct f |].
    repeat (split; [reflexivity |]). eexists. split; reflexivity.
Qed.

Lemma append_open_fails (self : EvidenceLedger) (r : InvariantResult) (w : world)
    (m : string) (rest : list (option string)) :
  io w = Some m :: rest ->
  exists w', append self r w = (Raised (Exn OSError "OSError" m), w')
             /\ lines_of w' = lines_of w /\ io w' = rest /\ log w' = log w.
Proof.
  intros Hio. destruct w as [f i c t lg]. simpl in Hio. subst i.
  eexists. split; [reflexivity |]. by repeat split.
Qed.

Lemma append_write_fails (self : EvidenceLedger) (r : InvariantResult) (w : world)
    (m : string) (rest : list (option string)) :
  io w = None :: Some m :: rest ->
  exists w', append self r w = (Raised (Exn OSError "OSError" m), w')
             /\ lines_of w' = lines_of w /\ io w' = rest /\ log w' = log w.
Proof.
  intros Hio. destruct w as [f i c t lg]. simpl in Hio. subst i.
  eexists. split; [reflexivity |]. split; [by destruct f |]. by split.
Qed.

Lemma run_op_intact (self : EvidenceLedger) (o : op) (w : world) :
  consistent self w -> Forall hash_intact (lines_of w) ->
  exists self' w',
    run_op self o w = (Returned self', w')
    /\ consistent self' w' /\ Forall hash_intact (lines_of w').
Proof.
  intros Hcons Hall. pose proof Hcons as (Hio & Hc & Hl).
  destruct o as [r | t p |]; simpl.
  - destruct (append_succeeds self r w [] (or_introl Hio))
      as (h & e & w' & Hrun & Hlines & Hio' & _ & Hp & He & _ & Hint).
    unfold bind. rewrite Hrun. eexists _, w'. split; [reflexivity |].
    rewrite Hio in Hio'. rewrite Hl in Hp.
    destruct (chained_snoc _ _ _ _ Hc Hp He) as [Hc' Ht'].
    unfold consistent. rewrite Hlines. split; [| by apply Forall_app; split; [| constructor]].
    split; [exact Hio' |]. split; [exact Hc' | by rewrite Ht'].
  - destruct (append_event_succeeds' self t p w [] (or_introl Hio))
      as (h & e & w' & Hrun & Hlines & Hio' & _ & Hp & He & _ & Hint).
    unfold bind. rewrite Hrun. eexists _, w'. split; [reflexivity |].
    rewrite Hio in Hio'. rewrite Hl in Hp.
    destruct (chained_snoc _ _ _ _ Hc Hp He) as [Hc' Ht'].
    unfold consistent. rewrite Hlines. split; [| by apply Forall_app; split; [| constructor]].
    split; [exact Hio' |]. split; [exact Hc' | by rewrite Ht'].
  - destruct (init_consistent (path self) w Hio Hc) as (self0 & Hinit & _ & Hcons0).
    exists self0, w. by split.
Qed.

Lemma run_ops_intact (ops : list op) :
  forall (self : EvidenceLedger) (w : world),
    consistent self w -> Forall hash_intact (lines_of w) ->
    exists self' w',
      run_ops self ops w = (Returned self', w')
      /\ consistent self' w' /\ Forall hash_intact (lines_of w').
Proof.
  induction ops as [|o ops IH]; intros self w Hcons Hall; simpl.
  - by exists self, w.
  - destruct (run_op_intact self o w Hcons Hall) as (self1 & w1 & Hrun & Hc1 & Hall1).
    unfold bind. rewrite Hrun. by apply IH.
Qed.

Lemma append_batch_ok (results : list InvariantResult) :
  forall (self : EvidenceLedger) (w : world),
    io w = [] ->
    exists hs self' w' es,
      append_batch self results w = (Returned (hs, self'), w')
      /\ io w' = [] /\ log w' = log w
      /\ lines_of w' = lines_of w ++ es
      /\ Forall2 holds_result results es
      /\ Forall2 stores_hash hs es
      /\ Forall hash_intact es
      /\ (linked self w -> linked self' w').
Proof.
  induction results as [|r results IH]; intros self w Hio.
  - exists [], self, w, []. rewrite app_nil_r.
    split; [reflexivity |]. split; [exact Hio |]. split; [reflexivity |].
    split; [reflexivity |]. by repeat (split; [constructor |]).
  - destruct (append_succeeds self r w [] (or_introl Hio))
      as (h & e & w1 & Hrun & Hlines & Hio1 & Hlog1 & Hp & He & Hr & Hint).
    rewrite Hio in Hio1. simpl in Hio1.
    destruct (IH {| path := path self; _last_hash := JStr h |} w1 Hio1)
      as (hs & self' & w' & es & Hrun' & Hio' & Hlog' & Hlines' & Hrs & Hhs & Hints & Hlink).
    cbn [append_batch]. unfold bind at 1. rewrite Hrun. cbn [fst snd].
    unfold bind at 1. rewrite Hrun'.
    exists (h :: hs), self', w', (e :: es).
    split; [reflexivity |]. split; [exact Hio' |]. split; [congruence |].
    split; [by rewrite Hlines', Hlines, <- app_assoc |].
    split; [by constructor |]. split; [by constructor |]. split; [by constructor |].
    intros Hl. apply Hlink. by apply (linked_snoc self w w1 e h).
Qed.

Lemma half_SS (n : nat) : S (S n) / 2 = S (n / 2).
Proof. change (S (S n)) with (1 * 2 + n). by rewrite Nat.div_add_l. Qed.

Lemma append_batch_fails (results : list InvariantResult) :
  forall (self : EvidenceLedger) (w : world) (n : nat) (m : string)
         (rest : list (option string)),
    io w = repeat None n ++ Some m :: rest ->
    n < 2 * length results ->
    exists w' es,
      append_batch self results w = (Raised (Exn OSError "OSError" m), w')
      /\ lines_of w' = lines_of w ++ es
      /\ Forall2 holds_result (firstn (n / 2) results) es
      /\ io w' = rest /\ log w' = log w.
Proof.
  induction results as [|r results IH]; intros self w n m rest Hio Hn.
  - simpl in Hn. lia.
  - cbn [append_batch]. destruct n as [|[|n]].
    + destruct (append_open_fails self r w m rest Hio) as (w' & Hrun & Hlines & Hio' & Hlog).
      unfold bind at 1. rewrite Hrun. exists w', []. rewrite app_nil_r.
      split; [reflexivity |]. split; [exact Hlines |]. split; [constructor | by split].
    + destruct (append_write_fails self r w m rest Hio) as (w' & Hrun & Hlines & Hio' & Hlog).
      unfold bind at 1. rewrite Hrun. exists w', []. rewrite app_nil_r.
      split; [reflexivity |]. split; [exact Hlines |]. split; [constructor | by split].
    + destruct (append_succeeds self r w (repeat None n ++ Some m :: rest) (or_intror Hio))
        as (h & e & w1 & Hrun & Hlines & Hio1 & Hlog1 & _ & _ & Hr & _).
      rewrite Hio in Hio1. cbn [repeat app skipn] in Hio1.
      assert (Hn' : n < 2 * length results) by (cbn [length] in Hn; lia).
      destruct (IH {| path := path self; _last_hash := JStr h |} w1 n m rest Hio1 Hn')
        as (w' & es & Hrun' & Hlines' & Hrs & Hio' & Hlog').
      unfold bind at 1. rewrite Hrun. cbn [fst snd].
      unfold bind at 1. rewrite Hrun'.
      exists w', (e :: es). split; [reflexivity |].
      split; [by rewrite Hlines', Hlines, <- app_assoc |].
      rewrite half_SS. cbn [firstn].
      split; [by constructor |]. split; [exact Hio' | congruence].
Qed.

End LedgerMoreProofs.

Section LedgerExtras.
Import Invariants Ledger InvariantsSpec LedgerSpec HugSpec LedgerProofs.
Import LedgerMoreSpec LedgerMoreProofs.
Local Open Scope py_scope.

(** X6.  What the ledger writes, it accepts: after any sequence of
    [append], [append_event] and restarts on a ledger that starts missing or
    empty, without I/O failure, [verify_chain] returns True, logs nothing and
    leaves the world as it is, so that a second verification answers the
    same. *)
Theorem X6_written_ledger_verifies (p : string) (ops : list op) (w : world) :
  io w = [] -> lines_of w = [] ->
  exists self w',
    session p ops w = (Returned self, w')
    /\ verify_chain self w' = (Returned true, w').
Proof.
  intros Hio Hempty.
  assert (Hc : chained JNull (lines_of w)) by (by rewrite Hempty).
  destruct (init_consistent p w Hio Hc) as (self0 & Hinit & _ & Hcons0).
  destruct (run_ops_consistent ops self0 w Hcons0)
    as (self & w' & Hrun & (Hio' & Hc' & _) & _).
  exists self, w'. unfold session, bind. rewrite Hinit.
  split; [exact Hrun | by apply verify_chain_linked].
Qed.

Lemma X6_witness :
  io world0 = [] /\ lines_of world0 = []
  /\ exists self w',
       session "ledger" two_entries world0 = (Returned self, w')
       /\ verify_chain self w' = (Returned true, w').
Proof.
  split; [reflexivity |]. split; [reflexivity |].
  exact (X6_written_ledger_verifies "ledger" two_entries world0 eq_refl eq_refl).
Defined.

(** X7.  Every line the ledger writes stores, as entry_hash, the SHA-256 of
    the canonical JSON of its other fields: on a ledger that starts missing
    or empty and is written by [append], [append_event] and restarts without
    I/O failure, recomputing the hash of any line from the line itself gives
    the stored hash back. *)
Theorem X7_stored_hash_recomputes (p : string) (ops : list op) (w : world) :
  io w = [] -> lines_of w = [] ->
  exists self w',
    session p ops w = (Returned self, w')
    /\ Forall hash_intact (lines_of w').
Proof.
  intros Hio Hempty.
  assert (Hc : chained JNull (lines_of w)) by (by rewrite Hempty).
  destruct (init_consistent p w Hio Hc) as (self0 & Hinit & _ & Hcons0).
  assert (Hall : Forall hash_intact (lines_of w)) by (rewrite Hempty; constructor).
  destruct (run_ops_intact ops self0 w Hcons0 Hall) as (self & w' & Hrun & _ & Hall').
  exists self, w'. unfold session, bind. rewrite Hinit. by split.
Qed.

Lemma X7_witness :
  io world0 = [] /\ lines_of world0 = []
  /\ exists self w',
       session "ledger" two_entries world0 = (Returned self, w')
       /\ Forall hash_intact (lines_of w').
Proof.
  split; [reflexivity |]. split; [reflexivity |].
  exact (X7_stored_hash_recomputes "ledger" two_entries world0 eq_refl eq_refl).
Defined.

(** The forged first line of the ledger that [verify_chain] accepts does
    not pass the recomputation. *)
Example forged_line_not_intact :
  forall l, forged_lines !! 0 = Some l -> ~ hash_intact l.
Proof.
  intros l Hl [h [Hs Hr]].
  assert (Hne : (match forged_lines !! 0 with
                 | Some l0 =>
                     match recomputed_hash l0, field "entry_hash" l0 with
                     | Some a, Some b => py_eqb a b
                     | _, _ => false
                     end
                 | None => false
                 end) = false) by (vm_compute; reflexivity).
  rewrite Hl, Hs, Hr in Hne. simpl in Hne. by rewrite String.eqb_refl in Hne.
Qed.

(** X8.  [append_batch] without I/O failure: one hash per result, one line
    per result appended in the order of the batch, each line holding its
    result and storing the hash returned at its place; nothing is logged, and
    a ledger object that agreed with the file agrees with it afterwards. *)
Theorem X8_append_batch (self : EvidenceLedger) (results : list InvariantResult)
    (w : world) :
  io w = [] ->
  exists hs self' w' es,
    append_batch self results w = (Returned (hs, self'), w')
    /\ lines_of w' = lines_of w ++ es
    /\ length hs = length results
    /\ Forall2 holds_result results es
    /\ Forall2 stores_hash hs es
    /\ log w' = log w
    /\ (linked self w -> linked self' w').
Proof.
  intros Hio.
  destruct (append_batch_ok results self w Hio)
    as (hs & self' & w' & es & Hrun & _ & Hlog & Hlines & Hrs & Hhs & _ & Hlink).
  exists hs, self', w', es. split; [exact Hrun |]. split; [exact Hlines |].
  split; [by rewrite (Forall2_length _ _ _ Hhs), (Forall2_length _ _ _ Hrs) |].
  split; [exact Hrs |]. split; [exact Hhs |]. split; [exact Hlog | exact Hlink].
Qed.

Lemma X8_witness :
  io world0 = []
  /\ exists hs self' w' es,
       append_batch {| path := "ledger"; _last_hash := JNull |} [result_A; result_B] world0
       = (Returned (hs, self'), w')
       /\ lines_of w' = lines_of world0 ++ es
       /\ length hs = 2
       /\ Forall2 holds_result [result_A; result_B] es
       /\ Forall2 stores_hash hs es
       /\ log w' = log world0
       /\ (linked {| path := "ledger"; _last_hash := JNull |} world0 -> linked self' w').
Proof.
  split; [reflexivity |].
  exact (X8_append_batch {| path := "ledger"; _last_hash := JNull |}
           [result_A; result_B] world0 eq_refl).
Defined.

(** X9.  [append_batch] is not atomic.  When the first failure of the file
    system comes after [n] successful operations (two per entry: open, then
    write) and the batch has more than [n / 2] results, the call raises that
    OSError, no hash is returned, and the lines of the first [n / 2] results
    stay in the file, in order. *)
Theorem X9_append_batch_not_atomic (self : EvidenceLedger)
    (results : list InvariantResult) (w : world) (n : nat) (m : string)
    (rest : list (option string)) :
  io w = repeat None n ++ Some m :: rest ->
  n < 2 * length results ->
  exists w' es,
    append_batch self results w = (Raised (Exn OSError "OSError" m), w')
    /\ lines_of w' = lines_of w ++ es
    /\ length es = n / 2
    /\ Forall2 holds_result (firstn (n / 2) results) es.
Proof.
  intros Hio Hn.
  destruct (append_batch_fails results self w n m rest Hio Hn)
    as (w' & es & Hrun & Hlines & Hrs & _ & _).
  exists w', es. split; [exact Hrun |]. split; [exact Hlines |].
  split; [| exact Hrs].
  rewrite <- (Forall2_length _ _ _ Hrs), length_firstn.
  apply Nat.min_l. apply Nat.Div0.div_le_upper_bound. lia.
Qed.

Lemma X9_witness :
  io (world_io [None; None; Some "disk full"]) = repeat None 2 ++ Some "disk full" :: []
  /\ 2 < 2 * length [result_A; result_B]
  /\ exists w' es,
       append_batch ledger0 [result_A; result_B] (world_io [None; None; Some "disk full"])
       = (Raised (Exn OSError "OSError" "disk full"), w')
       /\ lines_of w' = lines_of (world_io [None; None; Some "disk full"]) ++ es
       /\ length es = 2 / 2
       /\ Forall2 holds_result (firstn (2 / 2) [result_A; result_B]) es.
Proof.
  split; [reflexivity |]. split; [simpl; lia |].
  apply (X9_append_batch_not_atomic ledger0 [result_A; result_B]
           (world_io [None; None; Some "disk full"]) 2 "disk full" []).
  - reflexivity.
  - simpl; lia.
Defined.

(** X10.  A ledger file whose last line is valid JSON but not an object (a
    number, a string, a list, null) makes the constructor raise
    AttributeError: the handler of [_load_last_hash] catches JSONDecodeError
    and IOError only.  [verify_chain] on such a file, the lines before the
    last one being chained, raises AttributeError as well instead of
    answering False. *)
Theorem X10_non_object_line_raises (p : string) (self : EvidenceLedger) (w : world)
    (lines : list line) (j : json) :
  io w = [] -> file w = Some (lines ++ [Parsed j]) ->
  (forall d, j <> JDict d) ->
  EvidenceLedger_init p w
  = (Raised (Exn AttributeError "AttributeError" "object has no attribute 'get'"), w)
  /\ (chained JNull lines ->
      verify_chain self w
      = (Raised (Exn AttributeError "AttributeError" "object has no attribute 'get'"), w)).
Proof.
  intros Hio Hf Hj. split.
  - unfold EvidenceLedger_init, _ensure_directory, bind at 1.
    rewrite (fs_op_ok _ Hio). unfold _load_last_hash, bind at 1, get_file. rewrite Hf.
    unfold try_except, bind at 1. rewrite (read_lines_ok _ _ Hio Hf).
    rewrite last_snoc. destruct j; try reflexivity. by destruct (Hj d).
  - intros Hc. rewrite (verify_chain_scan self w _ Hf Hio).
    rewrite scan_app_chained; [| by left | exact Hc].
    destruct j; try reflexivity. by destruct (Hj d).
Qed.

Lemma X10_witness :
  io (world_with [Parsed (JInt 42)] []) = []
  /\ file (world_with [Parsed (JInt 42)] []) = Some ([] ++ [Parsed (JInt 42)])
  /\ EvidenceLedger_init "ledger" (world_with [Parsed (JInt 42)] [])
     = (Raised (Exn AttributeError "AttributeError" "object has no attribute 'get'"),
        world_with [Parsed (JInt 42)] []).
Proof.
  split; [reflexivity |]. split; [reflexivity |].
  apply (X10_non_object_line_raises "ledger" ledger0 (world_with [Parsed (JInt 42)] [])
           [] (JInt 42) eq_refl eq_refl).
  intros d; discriminate.
Defined.

(** X11.  A read failure at startup is swallowed and forks the chain.  When
    the ledger file holds a chained, non-empty ledger and reading it fails
    in the constructor (the directory creation before it succeeding), the
    constructor returns normally with [_last_hash = None] and logs nothing;
    the next [append] then writes an entry with previous_hash None after the
    existing lines, and [verify_chain] answers False on the result, reporting
    the chain broken at the line of that entry. *)
Theorem X11_startup_read_failure_forks_chain (p : string) (r : InvariantResult)
    (w : world) (lines : list line) (l0 : line) (m : string) :
  io w = [None; Some m] -> file w = Some (l0 :: lines) ->
  chained JNull (l0 :: lines) ->
  exists self w1 h self2 w2,
    EvidenceLedger_init p w = (Returned self, w1)
    /\ _last_hash self = JNull /\ log w1 = log w
    /\ append self r w1 = (Returned (h, self2), w2)
    /\ verify_chain self2 w2
       = (Returned false,
          add_log w2 "ERROR"
            ("Chain broken at line " +:+ str_of_nat (S (S (length lines))))).
Proof.
  intros Hio Hf Hc. destruct w as [f i c t lg]. simpl in Hio, Hf. subst f i.
  set (w1 := World (Some (l0 :: lines)) [] c t lg).
  assert (Hinit : EvidenceLedger_init p (World (Some (l0 :: lines)) [None; Some m] c t lg)
                  = (Returned {| path := p; _last_hash := JNull |}, w1)) by reflexivity.
  destruct (append_succeeds {| path := p; _last_hash := JNull |} r w1 []
              (or_introl eq_refl))
    as (h & e & w2 & Hrun & Hlines & Hio2 & _ & Hp & _ & _ & _).
  exists {| path := p; _last_hash := JNull |}, w1, h,
         {| path := p; _last_hash := JStr h |}, w2.
  split; [exact Hinit |]. split; [reflexivity |]. split; [reflexivity |].
  split; [exact Hrun |].
  assert (Hf2 : file w2 = Some ((l0 :: lines) ++ [e])).
  { unfold lines_of in Hlines. simpl in Hlines.
    destruct (file w2) as [ls|] eqn:E; [by rewrite Hlines |].
    destruct lines; discriminate. }
  rewrite (verify_chain_scan _ w2 _ Hf2 Hio2).
  rewrite scan_app_chained; [| by left | exact Hc].
  destruct (tip_nonempty lines JNull l0 Hc) as [h0 Htip].
  rewrite Htip.
  destruct e as [|je]; [discriminate |]. destruct je; try discriminate.
  cbn [field] in Hp. cbn [scan]. unfold get_or_null. rewrite Hp.
  cbn [py_eqb length Nat.add report]. reflexivity.
Qed.

Lemma X11_witness :
  exists self w1 h self2 w2,
    EvidenceLedger_init "ledger" (world_with [line_aa] [None; Some "EIO"])
    = (Returned self, w1)
    /\ _last_hash self = JNull
    /\ log w1 = log (world_with [line_aa] [None; Some "EIO"])
    /\ append self result_A w1 = (Returned (h, self2), w2)
    /\ verify_chain self2 w2
       = (Returned false,
          add_log w2 "ERROR" ("Chain broken at line " +:+ str_of_nat 2)).
Proof.
  apply (X11_startup_read_failure_forks_chain "ledger" result_A
           (world_with [line_aa] [None; Some "EIO"]) [] line_aa "EIO").
  - reflexivity.
  - reflexivity.
  - split; [reflexivity |]. exists "aa". split; [reflexivity | exact I].
Defined.

(** X12.  An [append] that fails leaves the ledger as it was.  Whatever the
    file system does, [append] on a ledger object that agrees with its
    chained file either returns, with one line added and the new object in
    agreement with the new file, or raises OSError with the lines of the file
    unchanged and the old object still in agreement with them: a later
    [append] continues the chain.  (A write that fails writes nothing.) *)
Theorem X12_failed_append_keeps_chain (self : EvidenceLedger) (r : InvariantResult)
    (w : world) :
  linked self w ->
  (exists h self' w' e,
     append self r w = (Returned (h, self'), w')
     /\ lines_of w' = lines_of w ++ [e]
     /\ holds_result r e /\ stores_hash h e
     /\ linked self' w')
  \/ (exists m w',
        append self r w = (Raised (Exn OSError "OSError" m), w')
        /\ In (Some m) (firstn 2 (io w))
        /\ lines_of w' = lines_of w
        /\ linked self w').
Proof.
  intros Hl.
  assert (Hok : forall rest, io w = [] \/ io w = None :: None :: rest ->
    exists h self' w' e,
      append self r w = (Returned (h, self'), w')
      /\ lines_of w' = lines_of w ++ [e]
      /\ holds_result r e /\ stores_hash h e /\ linked self' w').
  { intros rest Hio.
    destruct (append_succeeds self r w rest Hio)
      as (h & e & w' & Hrun & Hlines & _ & _ & Hp & He & Hr & _).
    exists h, {| path := path self; _last_hash := JStr h |}, w', e.
    split; [exact Hrun |]. split; [exact Hlines |]. split; [exact Hr |].
    split; [exact He |]. by apply (linked_snoc self w w' e h). }
  destruct (io w) as [|[m|] i] eqn:Hio.
  - left. apply (Hok []). by left.
  - right. destruct (append_open_fails self r w m i Hio) as (w' & Hrun & Hlines & _).
    exists m, w'. split; [exact Hrun |]. split; [by left |]. split; [exact Hlines |].
    unfold linked. by rewrite Hlines.
  - destruct i as [|[m|] rest].
    + left. destruct w as [f i c t lg]. simpl in Hio. subst i.
      eexists _, _, _, _. split; [reflexivity |].
      split; [by destruct f |]. split; [by split |]. split; [reflexivity |].
      destruct Hl as [Hc Ht].
      eapply (linked_snoc self (World f [None] c t lg)); [by split | by destruct f | |];
        reflexivity.
    + right. destruct (append_write_fails self r w m rest Hio) as (w' & Hrun & Hlines & _).
      exists m, w'. split; [exact Hrun |]. split; [right; by left |].
      split; [exact Hlines |]. unfold linked. by rewrite Hlines.
    + left. apply (Hok rest). by right.
Qed.

Lemma X12_witness :
  linked ledger0 world_full
  /\ ((exists h self' w' e,
         append ledger0 result_A world_full = (Returned (h, self'), w')
         /\ lines_of w' = lines_of world_full ++ [e]
         /\ holds_result result_A e /\ stores_hash h e
         /\ linked self' w')
      \/ (exists m w',
            append ledger0 result_A world_full = (Raised (Exn OSError "OSError" m), w')
            /\ In (Some m) (firstn 2 (io world_full))
            /\ lines_of w' = lines_of world_full
            /\ linked ledger0 w')).
Proof.
  assert (H : linked ledger0 world_full) by (split; [exact I | reflexivity]).
  split; [exact H |].
  exact (X12_failed_append_keeps_chain ledger0 result_A world_full H).
Defined.

End LedgerExtras.

(** ** More on the halt matrix *)

Section HaltMatrixExtras.
Import HaltMatrix HaltMatrixSpec HaltMatrixProofs.

(** X13.  Satisfying more gates never blocks an operation: on every matrix,
    for every severity and operation, if [can_proceed] allows it with some
    quorum and challenge flags, it allows it with any flags at least as
    true. *)
Theorem X13_can_proceed_monotone (m : HaltMatrix) (sev : Severity) (op : OpClass)
    (q c q' c' : bool) :
  implb q q' = true -> implb c c' = true ->
  fst (can_proceed m sev op q c) = true ->
  fst (can_proceed m sev op q' c') = true.
Proof.
  intros Hq Hc. rewrite !can_proceed_by_behavior.
  destruct (behavior (decide m sev op)); try done.
  destruct (requires_quorum (decide m sev op)),
    (requires_challenge_clear (decide m sev op)), q, c, q', c'; done.
Qed.

Lemma X13_witness :
  implb false true = true /\ implb true true = true
  /\ fst (can_proceed HALT_MATRIX FAULT CONFIG_DEPLOY false true) = true
  /\ fst (can_proceed HALT_MATRIX FAULT CONFIG_DEPLOY true true) = true.
Proof.
  assert (H : fst (can_proceed HALT_MATRIX FAULT CONFIG_DEPLOY false true) = true)
    by (rewrite can_proceed_by_behavior, HALT_MATRIX_decide; reflexivity).
  split; [reflexivity |]. split; [reflexivity |]. split; [exact H |].
  exact (X13_can_proceed_monotone HALT_MATRIX FAULT CONFIG_DEPLOY false true true true
           eq_refl eq_refl H).
Defined.

(** X14.  Suspending an invariant and downgrading security need both gates
    at every severity: on the matrix of the module, INVARIANT_SUSPEND and
    SECURITY_DOWNGRADE proceed exactly when quorum is satisfied and the
    challenges are clear and the severity is not FAULT, where they are
    denied outright. *)
Theorem X14_suspend_and_downgrade_need_both_gates (sev : Severity) (op : OpClass)
    (q c : bool) :
  op_in op [INVARIANT_SUSPEND; SECURITY_DOWNGRADE] = true ->
  fst (can_proceed HALT_MATRIX sev op q c)
  = q && c && negb (bool_decide (sev = FAULT)).
Proof.
  intros Hop. rewrite can_proceed_by_behavior, HALT_MATRIX_decide.
  destruct op; try discriminate Hop; destruct sev, q, c; reflexivity.
Qed.

Lemma X14_witness :
  op_in INVARIANT_SUSPEND [INVARIANT_SUSPEND; SECURITY_DOWNGRADE] = true
  /\ fst (can_proceed HALT_MATRIX INFO INVARIANT_SUSPEND true false)
     = true && false && negb (bool_decide (INFO = FAULT)).
Proof.
  split; [reflexivity |].
  exact (X14_suspend_and_downgrade_need_both_gates INFO INVARIANT_SUSPEND true false eq_refl).
Defined.

(** X15.  The matrix is not monotone in the severity.  SYSTEM_UPGRADE,
    CONFIG_DEPLOY and DATA_MIGRATE are queued at WARN, where no quorum and no
    cleared challenges let them proceed, but at FAULT they proceed as soon as
    the challenges are clear, and at CRITICAL when both gates hold. *)
Theorem X15_escalation_unblocks_queued_operations (op : OpClass) (q c : bool) :
  op_in op [SYSTEM_UPGRADE; CONFIG_DEPLOY; DATA_MIGRATE] = true ->
  fst (can_proceed HALT_MATRIX INFO op q c) = true
  /\ fst (can_proceed HALT_MATRIX WARN op q c) = false
  /\ fst (can_proceed HALT_MATRIX FAULT op q c) = c
  /\ fst (can_proceed HALT_MATRIX CRITICAL op q c) = q && c.
Proof.
  intros Hop. rewrite !can_proceed_by_behavior, !HALT_MATRIX_decide.
  destruct op; try discriminate Hop; destruct q, c; by repeat split.
Qed.

Lemma X15_witness :
  op_in CONFIG_DEPLOY [SYSTEM_UPGRADE; CONFIG_DEPLOY; DATA_MIGRATE] = true
  /\ fst (can_proceed HALT_MATRIX INFO CONFIG_DEPLOY true true) = true
  /\ fst (can_proceed HALT_MATRIX WARN CONFIG_DEPLOY true true) = false
  /\ fst (can_proceed HALT_MATRIX FAULT CONFIG_DEPLOY true true) = true
  /\ fst (can_proceed HALT_MATRIX CRITICAL CONFIG_DEPLOY true true) = true && true.
Proof.
  split; [reflexivity |].
  exact (X15_escalation_unblocks_queued_operations CONFIG_DEPLOY true true eq_refl).
Defined.

(** X16.  At FAULT the quorum plays no part: an operation proceeds exactly
    when the challenges are clear and it is one of AUTHORITY_GRANT,
    AUTHORITY_EXTEND, CONFIG_MODIFY, CONFIG_DEPLOY, SYSTEM_UPGRADE,
    DATA_DELETE, DATA_MIGRATE; every other operation is queued or denied
    whatever the gates.  With the default arguments of [can_proceed] (no
    quorum, challenges not clear) nothing proceeds at FAULT, and at CRITICAL
    only the three emergency operations do. *)
Theorem X16_fault_policy (op : OpClass) (q c : bool) :
  fst (can_proceed HALT_MATRIX FAULT op q c)
  = c && op_in op [AUTHORITY_GRANT; AUTHORITY_EXTEND; CONFIG_MODIFY; CONFIG_DEPLOY;
                   SYSTEM_UPGRADE; DATA_DELETE; DATA_MIGRATE]
  /\ fst (can_proceed HALT_MATRIX FAULT op false false) = false
  /\ fst (can_proceed HALT_MATRIX CRITICAL op false false)
     = op_in op [AUTHORITY_REVOKE; CONFIG_ROLLBACK; SYSTEM_SHUTDOWN].
Proof.
  rewrite !can_proceed_by_behavior, !HALT_MATRIX_decide.
  destruct op, q, c; by repeat split.
Qed.

(** X17.  A sealed matrix cannot be modified through the code that fills
    it: [_add] raises RuntimeError on it for every entry, and so does a
    second [_build_matrix]; the matrix of the module is sealed. *)
Theorem X17_sealed_matrix_rejects_add (self : HaltMatrix) :
  _sealed self = true ->
  (forall sev op b q c a,
     _add self sev op b q c a
     = Raised (Exn OtherError "RuntimeError" "Cannot modify sealed matrix"))
  /\ _build_matrix self
     = Raised (Exn OtherError "RuntimeError" "Cannot modify sealed matrix").
Proof.
  intros Hs. split.
  - intros sev op b q c a. unfold _add. by rewrite Hs.
  - unfold _build_matrix, all_OpClass. cbn [for_ops].
    change (add_INFO self AUTHORITY_GRANT)
      with (_add self INFO AUTHORITY_GRANT ALLOW false false "standard").
    unfold _add. by rewrite Hs.
Qed.

Lemma X17_witness :
  _sealed HALT_MATRIX = true
  /\ (forall sev op b q c a,
        _add HALT_MATRIX sev op b q c a
        = Raised (Exn OtherError "RuntimeError" "Cannot modify sealed matrix"))
  /\ _build_matrix HALT_MATRIX
     = Raised (Exn OtherError "RuntimeError" "Cannot modify sealed matrix").
Proof.
  split; [exact HALT_MATRIX_sealed |].
  exact (X17_sealed_matrix_rejects_add HALT_MATRIX HALT_MATRIX_sealed).
Defined.

End HaltMatrixExtras.

(** ** The failure handler and the validation cycle *)

Module DaemonProofs.
Import Invariants Ledger InvariantsSpec LedgerSpec LedgerProofs.
Import InvariantsProofs LedgerMoreSpec LedgerMoreProofs DaemonCode DaemonSpec.

#[local] Opaque Sha256.hexdigest dumps_canonical PyStr.of_Z.

Lemma same_settings_refl (d : GovernanceDaemon) : same_settings d d.
Proof. by repeat split. Qed.

Lemma same_settings_trans (d1 d2 d3 : GovernanceDaemon) :
  same_settings d1 d2 -> same_settings d2 d3 -> same_settings d1 d3.
Proof.
  intros (H1 & H2 & H3 & H4 & H5 & H6) (K1 & K2 & K3 & K4 & K5 & K6).
  repeat split; congruence.
Qed.

(** Writing to the ledger touches nothing else of the daemon. *)
Lemma ledger_append_settings (r : InvariantResult) (d d' : GovernanceDaemon)
    (w w' : world) (o : outcome string) :
  ledger_append r d w = (o, d', w') ->
  same_settings d d' /\ failure_handler d' = failure_handler d.
Proof.
  unfold ledger_append. destruct (append (ledger d) r w) as [[[h l']|e] w1].
  - intros [= <- <- <-]. split; [by repeat split | reflexivity].
  - intros [= <- <- <-]. split; [by repeat split | reflexivity].
Qed.

(** [handle_failure] counts, logs, and then records. *)
Lemma handle_failure_eq (r : InvariantResult) (d : GovernanceDaemon) (w : world) :
  handle_failure r d w
  = match ledger_append r (set_failure_handler (counted r (failure_handler d)) d)
            (add_logs w [(failure_level r, failure_message r)]) with
    | (Returned _, d', w') => (Returned tt, d', add_logs w' (evidence_logs (config d) r))
    | (Raised e, d', w') => (Raised e, d', w')
    end.
Proof.
  unfold handle_failure, failure_level, counted, evidence_logs, failure_message.
  unfold dbind at 1. cbn [modify]. destruct d as [cfg run reg led fh vc lv cf].
  destruct (severity r) eqn:Hsev; cbn [Severity_eqb Severity_value String.eqb Ascii.eqb
    Bool.eqb dbind modify dret lift logging get_self set_failure_handler failure_handler
    failure_count critical_failure_count config running registry ledger validation_count
    last_validation consecutive_failures];
  unfold add_logs, set_failure_handler;
  cbn [failure_handler failure_count critical_failure_count config running registry
       ledger validation_count last_validation consecutive_failures];
  unfold dbind at 1;
  match goal with
  | |- context [ledger_append r ?d1 ?w1] =>
      destruct (ledger_append r d1 w1) as [[[h|e] d2] w2] eqn:Happ;
      destruct (ledger_append_settings _ _ _ _ _ _ Happ) as [(Hc & _) _];
      cbn [config] in Hc
  end.
  all: try reflexivity.
  all: unfold _send_alert, dbind, get_self, dret, lift, logging; cbv beta iota;
    rewrite ?Hc; destruct (alerting_enabled cfg); cbv beta iota; rewrite ?Hc;
    [destruct (no_webhook (alert_webhook_url cfg)) |];
    cbn [andb negb log file io clock ticks app];
    by rewrite <- ?app_assoc.
Qed.

Lemma append_cases (self : EvidenceLedger) (r : InvariantResult) (w : world) :
  (exists h e w',
     append self r w = (Returned (h, {| path := path self; _last_hash := JStr h |}), w')
     /\ lines_of w' = lines_of w ++ [e] /\ log w' = log w
     /\ (io w = [] -> io w' = [])
     /\ field "previous_hash" e = Some (_last_hash self)
     /\ stores_hash h e /\ holds_result r e)
  \/ (exists m w',
        append self r w = (Raised (Exn OSError "OSError" m), w')
        /\ lines_of w' = lines_of w /\ log w' = log w
        /\ In (Some m) (firstn 2 (io w))).
Proof.
  assert (Hok : forall rest, io w = [] \/ io w = None :: None :: rest ->
    exists h e w',
      append self r w = (Returned (h, {| path := path self; _last_hash := JStr h |}), w')
      /\ lines_of w' = lines_of w ++ [e] /\ log w' = log w
      /\ (io w = [] -> io w' = [])
      /\ field "previous_hash" e = Some (_last_hash self)
      /\ stores_hash h e /\ holds_result r e).
  { intros rest Hio.
    destruct (append_succeeds self r w rest Hio)
      as (h & e & w' & Hrun & Hlines & Hio' & Hlog & Hp & He & Hr & _).
    exists h, e, w'. split; [exact Hrun |]. split; [exact Hlines |]. split; [exact Hlog |].
    split; [intros H0; by rewrite Hio', H0 |].
    split; [exact Hp |]. split; [exact He | exact Hr]. }
  destruct (io w) as [|[m|] i] eqn:Hio.
  - left. apply (Hok []). by left.
  - right. destruct (append_open_fails self r w m i Hio) as (w' & Hrun & Hlines & _ & Hlog).
    exists m, w'. split; [exact Hrun |]. split; [exact Hlines |]. split; [exact Hlog |].
    by left.
  - destruct i as [|[m|] rest].
    + left. destruct w as [f i c t lg]. simpl in Hio. subst i.
      eexists _, _, _. split; [reflexivity |].
      split; [by destruct f |]. split; [reflexivity |]. split; [discriminate |].
      split; [reflexivity |]. split; [reflexivity |]. by split.
    + right.
      destruct (append_write_fails self r w m rest Hio) as (w' & Hrun & Hlines & _ & Hlog).
      exists m, w'. split; [exact Hrun |]. split; [exact Hlines |]. split; [exact Hlog |].
      right; by left.
    + left. apply (Hok rest). by right.
Qed.

Lemma wrote_refl (d : GovernanceDaemon) (w : world) : io w = [] -> wrote d w d w [].
Proof.
  intros Hio. split; [apply same_settings_refl |]. rewrite app_nil_r.
  split; [reflexivity |]. split; [exact Hio |]. split; [| done].
  exists []. by rewrite app_nil_r.
Qed.

Lemma wrote_trans (d1 d2 d3 : GovernanceDaemon) (w1 w2 w3 : world) (es es' : list line) :
  wrote d1 w1 d2 w2 es -> wrote d2 w2 d3 w3 es' -> wrote d1 w1 d3 w3 (es ++ es').
Proof.
  intros (Hs & Hl & _ & [lg Hlg] & Hk) (Hs' & Hl' & Hio' & [lg' Hlg'] & Hk').
  split; [by apply (same_settings_trans _ d2) |].
  split; [by rewrite Hl', Hl, app_assoc |]. split; [exact Hio' |].
  split; [exists (lg ++ lg'); by rewrite Hlg', Hlg, app_assoc | auto].
Qed.

(** Steps that write nothing to the ledger. *)
Lemma wrote_quiet (d d' : GovernanceDaemon) (w w' : world) :
  same_settings d d' -> ledger d' = ledger d ->
  file w' = file w -> io w' = io w -> (exists lg, log w' = log w ++ lg) ->
  io w = [] -> wrote d w d' w' [].
Proof.
  intros Hs Hl Hf Hi Hlg Hio. split; [exact Hs |].
  unfold lines_of, linked. rewrite app_nil_r, Hf, Hi.
  split; [reflexivity |]. split; [exact Hio |]. split; [exact Hlg |].
  rewrite Hl. unfold lines_of. by rewrite Hf.
Qed.

Lemma ledger_append_wrote (r : InvariantResult) (d : GovernanceDaemon) (w : world) :
  io w = [] ->
  exists h e d' w',
    ledger_append r d w = (Returned h, d', w')
    /\ wrote d w d' w' [e] /\ holds_result r e /\ stores_hash h e
    /\ failure_handler d' = failure_handler d.
Proof.
  intros Hio.
  destruct (append_succeeds (ledger d) r w [] (or_introl Hio))
    as (h & e & w' & Hrun & Hlines & Hio' & Hlog & Hp & He & Hr & _).
  exists h, e, (set_ledger {| path := path (ledger d); _last_hash := JStr h |} d), w'.
  unfold ledger_append. rewrite Hrun. split; [reflexivity |].
  split; [| split; [exact Hr |]; split; [exact He | reflexivity]].
  split; [by repeat split |]. split; [exact Hlines |].
  split; [by rewrite Hio', Hio |].
  split; [exists []; by rewrite app_nil_r |].
  intros Hl. by apply (linked_snoc (ledger d) w w' e h).
Qed.

Lemma ledger_append_event_wrote (t : string) (p : json) (d : GovernanceDaemon)
    (w : world) :
  io w = [] ->
  exists h e d' w',
    ledger_append_event t p d w = (Returned h, d', w')
    /\ wrote d w d' w' [e] /\ is_event t e /\ field "payload" e = Some p
    /\ failure_handler d' = failure_handler d.
Proof.
  intros Hio.
  destruct (append_event_ok (ledger d) t p w Hio) as (h & e & Hrun & Hp & He & Hpay & Ht).
  exists h, e, (set_ledger {| path := path (ledger d); _last_hash := JStr h |} d),
         (set_file (tick w) (lines_of w ++ [e])).
  unfold ledger_append_event. rewrite Hrun. split; [reflexivity |].
  split; [| split; [exact Ht |]; split; [exact Hpay | reflexivity]].
  split; [by repeat split |]. split; [reflexivity |].
  split; [exact Hio |].
  split; [exists []; by rewrite app_nil_r |].
  intros Hl. by apply (linked_snoc (ledger d) w _ e h).
Qed.

Lemma handle_failure_wrote (r : InvariantResult) (d : GovernanceDaemon) (w : world) :
  io w = [] ->
  exists e d' w',
    handle_failure r d w = (Returned tt, d', w')
    /\ wrote d w d' w' [e] /\ holds_result r e
    /\ failure_handler d' = counted r (failure_handler d).
Proof.
  intros Hio. rewrite handle_failure_eq.
  set (d1 := set_failure_handler (counted r (failure_handler d)) d).
  set (w1 := add_logs w [(failure_level r, failure_message r)]).
  destruct (ledger_append_wrote r d1 w1 Hio)
    as (h & e & d' & w' & Hrun & (Hs & Hl & Hio' & [lg Hlg] & Hk) & Hr & _ & Hfh).
  rewrite Hrun. exists e, d', (add_logs w' (evidence_logs (config d) r)).
  split; [reflexivity |]. split; [| by split].
  split; [exact Hs |]. split; [exact Hl |]. split; [exact Hio' |].
  split; [| exact Hk].
  eexists. cbn [add_logs log]. rewrite Hlg. cbn [w1 add_logs log].
  by rewrite <- !app_assoc.
Qed.

Lemma for_each_handle_failure_wrote (failures : list InvariantResult) :
  forall (d : GovernanceDaemon) (w : world),
    io w = [] ->
    exists es d' w',
      for_each failures handle_failure d w = (Returned tt, d', w')
      /\ wrote d w d' w' es /\ Forall2 holds_result failures es
      /\ failure_handler d' = counted_all failures (failure_handler d).
Proof.
  induction failures as [|r failures IH]; intros d w Hio.
  - exists [], d, w. split; [reflexivity |]. split; [by apply wrote_refl |].
    split; [constructor | reflexivity].
  - destruct (handle_failure_wrote r d w Hio) as (e & d1 & w1 & Hrun & Hw & Hr & Hfh).
    destruct (IH d1 w1 (proj1 (proj2 (proj2 Hw))))
      as (es & d' & w' & Hrun' & Hw' & Hrs & Hfh').
    exists (e :: es), d', w'. cbn [for_each]. unfold dbind. rewrite Hrun, Hrun'.
    split; [reflexivity |]. split; [exact (wrote_trans _ _ _ _ _ _ _ _ Hw Hw') |].
    split; [by constructor |]. by rewrite Hfh', Hfh.
Qed.

Lemma ledger_append_batch_wrote (results : list InvariantResult) :
  forall (d : GovernanceDaemon) (w : world),
    io w = [] ->
    exists hs es d' w',
      ledger_append_batch results d w = (Returned hs, d', w')
      /\ wrote d w d' w' es /\ Forall2 holds_result results es
      /\ Forall2 stores_hash hs es
      /\ failure_handler d' = failure_handler d.
Proof.
  induction results as [|r results IH]; intros d w Hio.
  - exists [], [], d, w. split; [reflexivity |]. split; [by apply wrote_refl |].
    split; [constructor |]. split; [constructor | reflexivity].
  - destruct (ledger_append_wrote r d w Hio) as (h & e & d1 & w1 & Hrun & Hw & Hr & Hh & Hfh).
    destruct (IH d1 w1 (proj1 (proj2 (proj2 Hw))))
      as (hs & es & d' & w' & Hrun' & Hw' & Hrs & Hhs & Hfh').
    exists (h :: hs), (e :: es), d', w'. cbn [ledger_append_batch]. unfold dbind.
    rewrite Hrun, Hrun'.
    split; [reflexivity |]. split; [exact (wrote_trans _ _ _ _ _ _ _ _ Hw Hw') |].
    split; [by constructor |]. split; [by constructor |]. by rewrite Hfh', Hfh.
Qed.

Lemma stop_spec (d : GovernanceDaemon) (w : world) :
  io w = [] ->
  exists d' w' es,
    stop d w = (Returned tt, d', w')
    /\ wrote (set_running false d) w d' w' es
    /\ failure_handler d' = failure_handler d
    /\ (if running d
        then exists e, es = [e] /\ is_event "DAEMON_STOP" e
                       /\ field "payload" e
                          = Some (JDict [ ("validation_count", JInt (validation_count d));
                                          ("failure_stats", get_stats (failure_handler d)) ])
        else es = []).
Proof.
  intros Hio. unfold stop. unfold dbind at 1, get_self.
  destruct (running d) eqn:Hrun; cbn [negb].
  - unfold dbind at 1, lift at 1, logging at 1.
    unfold dbind at 1, modify. unfold dbind at 1. unfold dbind at 1.
    set (w1 := World (file w) (io w) (clock w) (ticks w)
                 (log w ++ [("INFO", "Stopping governance daemon...")])).
    destruct (ledger_append_event_wrote "DAEMON_STOP"
                (JDict [ ("validation_count", JInt (validation_count (set_running false d)));
                         ("failure_stats",
                          get_stats (failure_handler (set_running false d))) ])
                (set_running false d) w1 Hio)
      as (h & e & d' & w' & Happ & Hw & He & Hp & Hfh).
    rewrite Happ. destruct Hw as (Hs & Hl & Hio' & [lg Hlg] & Hk).
    unfold dbind at 1, remove_pid_file, lift at 1. rewrite (fs_op_ok _ Hio').
    unfold lift, logging.
    eexists d', _, [e]. split; [reflexivity |]. split.
    + split; [exact Hs |]. split; [exact Hl |]. split; [exact Hio' |].
      split; [| exact Hk].
      eexists. cbn [log]. rewrite Hlg. cbn [w1 log]. by rewrite <- !app_assoc.
    + split; [exact Hfh |]. exists e. by repeat split.
  - exists d, w, []. split; [reflexivity |]. split; [| by split].
    apply wrote_quiet;
      [| reflexivity | reflexivity | reflexivity | exists []; by rewrite app_nil_r
       | exact Hio].
    repeat split; try reflexivity. cbn [set_running running]. by rewrite Hrun.
Qed.

Lemma for_each_logging (level : string) (msg : InvariantResult -> string)
    (failures : list InvariantResult) :
  forall (d : GovernanceDaemon) (w : world),
    for_each failures (fun failure => lift (logging level (msg failure))) d w
    = (Returned tt, d, add_logs w (map (fun f => (level, msg f)) failures)).
Proof.
  induction failures as [|r failures IH]; intros d w.
  - cbn [for_each map]. unfold dret, add_logs. rewrite app_nil_r. by destruct w.
  - cbn [for_each map]. unfold dbind, lift at 1, logging at 1. rewrite IH.
    unfold add_logs. cbn [file io clock ticks log]. by rewrite <- app_assoc.
Qed.

Lemma _emergency_halt_spec (failures : list InvariantResult) (d : GovernanceDaemon)
    (w : world) :
  io w = [] ->
  exists d' w' ev tail,
    _emergency_halt failures d w = (Raised SystemExit_1, d', w')
    /\ wrote (set_running false d) w d' w' (ev :: tail)
    /\ failure_handler d' = failure_handler d
    /\ is_event "EMERGENCY_HALT" ev
    /\ field "payload" ev
       = Some (JDict [ ("reason", JStr "Critical invariant failure");
                       ("failures", JList (map to_dict failures));
                       ("validation_count", JInt (validation_count d)) ])
    /\ (if running d then exists e, tail = [e] /\ is_event "DAEMON_STOP" e
        else tail = [])
    /\ In ("CRITICAL", "  EMERGENCY HALT INITIATED") (log w').
Proof.
  intros Hio. unfold _emergency_halt.
  do 3 (unfold dbind at 1, lift at 1, logging at 1).
  unfold dbind at 1. rewrite for_each_logging.
  unfold dbind at 1, get_self. unfold dbind at 1.
  match goal with
  | |- context [ledger_append_event ?t ?p d ?w1] =>
      destruct (ledger_append_event_wrote t p d w1 Hio)
        as (h & ev & d1 & w1' & Happ & Hw & Hev & Hp & Hfh);
      rewrite Happ
  end.
  pose proof Hw as (Hs1 & Hl1 & Hio1 & [lg1 Hlg1] & Hk1).
  destruct (stop_spec d1 w1' Hio1) as (d' & w' & tail & Hstop & Hw' & Hfh' & Htail).
  unfold dbind at 1. rewrite Hstop. unfold sys_exit.
  exists d', w', ev, tail. split; [reflexivity |].
  pose proof Hw' as (Hs2 & Hl2 & Hio2 & [lg2 Hlg2] & Hk2).
  destruct Hs1 as (Hc1 & Hr1 & Hg1 & Hv1 & Hlv1 & Hcf1).
  split.
  { split.
    - destruct Hs2 as (Hc2 & Hr2 & Hg2 & Hv2 & Hlv2 & Hcf2).
      unfold same_settings, set_running in *.
      cbn [config running registry validation_count last_validation
           consecutive_failures] in *.
      repeat split; congruence.
    - split; [rewrite Hl2, Hl1; cbn [add_logs lines_of file]; by rewrite <- app_assoc |].
      split; [exact Hio2 |]. split.
      + eexists. rewrite Hlg2, Hlg1. cbn [add_logs log]. by rewrite <- !app_assoc.
      + intros Hk. apply Hk2. cbn [set_running ledger]. apply Hk1. exact Hk. }
  split; [by rewrite Hfh', Hfh |]. split; [exact Hev |]. split; [exact Hp |].
  split.
  { rewrite Hr1 in Htail. destruct (running d); [| exact Htail].
    destruct Htail as (e & -> & He & _). by exists e. }
  rewrite Hlg2, Hlg1. cbn [add_logs log file io clock ticks].
  rewrite !in_app_iff. cbn [In]. tauto.
Qed.

Lemma wrote_from (d d' : GovernanceDaemon) (w0 w w' : world) (es : list line) :
  file w = file w0 -> (exists lg, log w = log w0 ++ lg) ->
  wrote d w d' w' es -> wrote d w0 d' w' es.
Proof.
  intros Hf [lg0 Hlg0] (Hs & Hl & Hio & [lg Hlg] & Hk).
  assert (Hlines : lines_of w = lines_of w0) by (unfold lines_of; by rewrite Hf).
  split; [exact Hs |]. split; [by rewrite <- Hlines |]. split; [exact Hio |].
  split; [exists (lg0 ++ lg); by rewrite Hlg, Hlg0, app_assoc |].
  intros H. apply Hk. unfold linked in *. by rewrite Hlines.
Qed.

Lemma wrote_set_running (b : bool) (d d' : GovernanceDaemon) (w w' : world)
    (es : list line) :
  wrote d w d' w' es -> wrote (set_running b d) w (set_running b d') w' es.
Proof.
  intros ((Hc & Hr & Hg & Hv & Hlv & Hcf) & Hrest).
  split; [by repeat split |]. exact Hrest.
Qed.

(** A log record, then the emergency halt. *)
Lemma halt_after_log (level msg : string) (failures : list InvariantResult)
    (d : GovernanceDaemon) (w : world) :
  io w = [] ->
  exists d' w' ev tail,
    dbind (lift (logging level msg)) (fun _ => _emergency_halt failures) d w
    = (Raised SystemExit_1, d', w')
    /\ wrote (set_running false d) w d' w' (ev :: tail)
    /\ failure_handler d' = failure_handler d
    /\ is_event "EMERGENCY_HALT" ev
    /\ field "payload" ev
       = Some (JDict [ ("reason", JStr "Critical invariant failure");
                       ("failures", JList (map to_dict failures));
                       ("validation_count", JInt (validation_count d)) ])
    /\ (if running d then exists e, tail = [e] /\ is_event "DAEMON_STOP" e
        else tail = [])
    /\ In ("CRITICAL", "  EMERGENCY HALT INITIATED") (log w').
Proof.
  intros Hio. unfold dbind, lift, logging.
  set (w1 := World (file w) (io w) (clock w) (ticks w) (log w ++ [(level, msg)])).
  destruct (_emergency_halt_spec failures d w1 Hio)
    as (d' & w' & ev & tail & Hrun & Hw & Hrest).
  rewrite Hrun. exists d', w', ev, tail. split; [reflexivity |].
  split; [| exact Hrest].
  apply (wrote_from _ _ w w1); [reflexivity | by eexists | exact Hw].
Qed.

Lemma batch_then_return (results : list InvariantResult) (d : GovernanceDaemon)
    (w : world) :
  io w = [] ->
  exists bs d' w',
    dbind (ledger_append_batch results) (fun _ => dret results) d w
    = (Returned results, d', w')
    /\ wrote d w d' w' bs /\ Forall2 holds_result results bs
    /\ failure_handler d' = failure_handler d.
Proof.
  intros Hio.
  destruct (ledger_append_batch_wrote results d w Hio)
    as (hs & bs & d' & w' & Hrun & Hw & Hrs & _ & Hfh).
  exists bs, d', w'. unfold dbind. rewrite Hrun.
  split; [reflexivity |]. split; [exact Hw |]. split; [exact Hrs | exact Hfh].
Qed.

(** From the state after the results were obtained to the end of the cycle. *)
Lemma cycle_common_intro (d d4 d' : GovernanceDaemon) (w w4 w' : world)
    (results : list InvariantResult) (es : list line) :
  config d4 = config d ->
  validation_count d4 = (validation_count d + 1)%Z ->
  last_validation d4 = Some (clock w (ticks w)) ->
  registry d4 = {| _invariants := _invariants (registry d);
                   _results_history := _results_history (registry d) ++ results |} ->
  ledger d4 = ledger d ->
  file w4 = file w -> (exists lg, log w4 = log w ++ lg) ->
  wrote d4 w4 d' w' es ->
  failure_handler d' = counted_all (get_failures results) (failure_handler d) ->
  cycle_common d w results d' w'
  /\ lines_of w' = lines_of w ++ es
  /\ running d' = running d4
  /\ consecutive_failures d' = consecutive_failures d4.
Proof.
  intros Hc Hv Hlv Hg Hl Hf Hlg Hw Hfh.
  pose proof (wrote_from _ _ w w4 w' es Hf Hlg Hw)
    as ((Hc' & Hr' & Hg' & Hv' & Hlv' & Hcf') & Hl' & Hio' & Hlg' & Hk').
  split; [| split; [exact Hl' |]; split; [exact Hr' | exact Hcf']].
  unfold cycle_common. rewrite Hc', Hv', Hlv', Hg', Hc, Hv, Hlv, Hg.
  repeat (split; [done |]). by rewrite <- Hl.
Qed.

Lemma halted_intro (d d4 d5 d' : GovernanceDaemon) (w w3 w5 wX w' : world)
    (results : list InvariantResult) (es : list line) (ev : line) (tail : list line) :
  config d4 = config d ->
  validation_count d4 = (validation_count d + 1)%Z ->
  last_validation d4 = Some (clock w (ticks w)) ->
  registry d4 = {| _invariants := _invariants (registry d);
                   _results_history := _results_history (registry d) ++ results |} ->
  ledger d4 = ledger d -> running d4 = running d ->
  consecutive_failures d4 = (consecutive_failures d + 1)%Z ->
  failure_handler d4 = failure_handler d ->
  file w3 = file w -> (exists lg, log w3 = log w ++ lg) ->
  wrote d4 w3 d5 w5 es ->
  Forall2 holds_result (get_failures results) es ->
  failure_handler d5 = counted_all (get_failures results) (failure_handler d4) ->
  file wX = file w5 -> (exists lg, log wX = log w5 ++ lg) ->
  wrote (set_running false d5) wX d' w' (ev :: tail) ->
  failure_handler d' = failure_handler d5 ->
  is_event "EMERGENCY_HALT" ev ->
  field "payload" ev
  = Some (JDict [ ("reason", JStr "Critical invariant failure");
                  ("failures", JList (map to_dict (get_failures results)));
                  ("validation_count", JInt (validation_count d5)) ]) ->
  (if running d5 then exists e, tail = [e] /\ is_event "DAEMON_STOP" e else tail = []) ->
  In ("CRITICAL", "  EMERGENCY HALT INITIATED") (log w') ->
  cycle_common d w results d' w' /\ cycle_halted d w results d' w'.
Proof.
  intros Hc Hv Hlv Hg Hl Hr Hcf Hfh Hf3 Hlg3 Hw45 Hes Hfh5 HfX HlgX Hw' Hfh' Hev Hpay
    Htail Hin.
  pose proof Hw45 as ((Hc5 & Hr5 & Hg5 & Hv5 & Hlv5 & Hcf5) & _).
  pose proof (wrote_trans _ _ _ _ _ _ _ _ (wrote_set_running false _ _ _ _ _ Hw45)
                (wrote_from _ _ w5 wX w' _ HfX HlgX Hw')) as Hall.
  destruct (cycle_common_intro d (set_running false d4) d' w w3 w' results
              (es ++ ev :: tail)) as (Hcom & Hlines & Hr' & Hcf'); try assumption.
  { by rewrite Hfh', Hfh5, Hfh. }
  split; [exact Hcom |].
  split; [exact Hr' |]. split; [by rewrite Hcf' |]. split; [exact Hin |].
  exists es, ev, tail. split; [exact Hlines |]. split; [exact Hes |].
  split; [exact Hev |]. split; [by rewrite Hpay, Hv5, Hv |].
  by rewrite <- Hr, <- Hr5.
Qed.

Lemma recorded_intro (d d4 d5 d' : GovernanceDaemon) (w w3 w5 wX w' : world)
    (results : list InvariantResult) (es bs : list line) :
  config d4 = config d ->
  validation_count d4 = (validation_count d + 1)%Z ->
  last_validation d4 = Some (clock w (ticks w)) ->
  registry d4 = {| _invariants := _invariants (registry d);
                   _results_history := _results_history (registry d) ++ results |} ->
  ledger d4 = ledger d -> running d4 = running d ->
  consecutive_failures d4
  = match get_failures results with
    | [] => 0%Z
    | _ :: _ => (consecutive_failures d + 1)%Z
    end ->
  failure_handler d4 = failure_handler d ->
  file w3 = file w -> (exists lg, log w3 = log w ++ lg) ->
  wrote d4 w3 d5 w5 es ->
  Forall2 holds_result (get_failures results) es ->
  failure_handler d5 = counted_all (get_failures results) (failure_handler d4) ->
  file wX = file w5 -> (exists lg, log wX = log w5 ++ lg) ->
  wrote d5 wX d' w' bs ->
  Forall2 holds_result results bs ->
  failure_handler d' = failure_handler d5 ->
  cycle_common d w results d' w' /\ cycle_recorded d w results d' w'.
Proof.
  intros Hc Hv Hlv Hg Hl Hr Hcf Hfh Hf3 Hlg3 Hw45 Hes Hfh5 HfX HlgX Hw' Hbs Hfh'.
  pose proof (wrote_trans _ _ _ _ _ _ _ _ Hw45
                (wrote_from _ _ w5 wX w' _ HfX HlgX Hw')) as Hall.
  destruct (cycle_common_intro d d4 d' w w3 w' results (es ++ bs))
    as (Hcom & Hlines & Hr' & Hcf'); try assumption.
  { by rewrite Hfh', Hfh5, Hfh. }
  split; [exact Hcom |].
  split; [by rewrite Hr' |]. split; [by rewrite Hcf' |].
  exists es, bs. by repeat split.
Qed.

Lemma validate_once_spec (ctx : context) (d : GovernanceDaemon) (w : world) :
  io w = [] ->
  exists results o d' w',
    validate_once ctx d w = (o, d', w')
    /\ Forall2 (validated ctx) (list_all (registry d)) results
    /\ cycle_common d w results d' w'
    /\ if halts d results
       then o = Raised SystemExit_1 /\ cycle_halted d w results d' w'
       else o = Returned results /\ cycle_recorded d w results d' w'.
Proof.
  intros Hio. unfold validate_once, validate_once_with.
  unfold dbind at 1, modify at 1.
  unfold dbind at 1, lift at 1, now.
  unfold dbind at 1, modify at 1.
  unfold dbind at 1, get_self at 1.
  unfold dbind at 1, lift at 1, logging at 1.
  unfold dbind at 1, dret at 1.
  unfold dbind at 1.
  cbn [file io clock ticks log].
  match goal with
  | |- context [registry_validate_all ctx ?d2' ?w2'] => set (w2 := w2'); set (d2 := d2')
  end.
  destruct (validate_all_spec (registry d2) ctx w2) as (results & w3 & Hva & Hall & Hf3 & Hi3 & Hl3).
  unfold registry_validate_all. rewrite Hva. cbv beta iota.
  match goal with
  | |- context [set_registry ?r' d2] => set (d3 := set_registry r' d2)
  end.
  exists results.
  assert (Hio3 : io w3 = []) by (rewrite Hi3; exact Hio).
  assert (Hlg3 : exists lg, log w3 = log w ++ lg) by (rewrite Hl3; by eexists).
  change (file w2) with (file w) in Hf3.
  unfold dbind at 1.
  destruct (get_failures results) as [|f fs] eqn:Hfail.
  - unfold dbind at 1, modify at 1.
    unfold dbind at 1, get_self at 1, lift at 1, logging at 1.
    cbv beta iota.
    match goal with
    | |- context [dbind (ledger_append_batch results) _ ?d4' ?w4'] =>
        set (w4 := w4'); set (d4 := d4')
    end.
    destruct (batch_then_return results d4 w4 Hio3) as (bs & d' & w' & Hrun & Hw & Hrs & Hfh).
    rewrite Hrun. exists (Returned results), d', w'. split; [reflexivity |].
    split; [exact Hall |].
    destruct (cycle_common_intro d d4 d' w w4 w' results bs) as (Hcom & Hlines & Hr & Hcf);
      try reflexivity; try assumption.
    { cbn [w4 log]. destruct Hlg3 as [lg ->]. eexists. by rewrite <- app_assoc. }
    { by rewrite Hfh, Hfail. }
    split; [exact Hcom |]. unfold halts. rewrite Hfail. split; [reflexivity |].
    split; [exact Hr |]. split; [by rewrite Hcf, Hfail |].
    exists [], bs. rewrite Hfail. split; [exact Hlines |]. split; [constructor | exact Hrs].
  - unfold dbind at 1, modify at 1.
    set (d4 := set_consecutive_failures (consecutive_failures d3 + 1) d3).
    destruct (for_each_handle_failure_wrote (f :: fs) d4 w3 Hio3)
      as (es & d5 & w5 & Hloop & Hw45 & Hes & Hfh5).
    unfold dbind at 1. rewrite Hloop.
    pose proof Hw45 as ((Hc5 & Hr5 & Hg5 & Hv5 & Hlv5 & Hcf5) & Hl5 & Hio5 & Hlg5 & Hk5).
    change (config d4) with (config d) in Hc5.
    change (consecutive_failures d4) with (consecutive_failures d + 1)%Z in Hcf5.
    unfold halts. rewrite Hfail.
    unfold dbind at 1.
    destruct (has_critical_failure results) eqn:Hcrit;
      [unfold dbind at 1, lift at 1, logging at 1; unfold dbind at 1, get_self at 1;
       cbv beta iota; rewrite Hc5; destruct (halt_on_critical (config d)) eqn:Hhc |].
    + match goal with
      | |- context [dbind (lift (logging ?l ?m)) _ d5 ?w6'] =>
          set (w6 := w6');
          destruct (halt_after_log l m (f :: fs) d5 w6 Hio5)
            as (d' & w' & ev & tail & Hrun & Hw' & Hfh' & Hev & Hpay & Htail & Hin)
      end.
      rewrite Hrun. exists (Raised SystemExit_1), d', w'. split; [reflexivity |].
      split; [exact Hall |]. cbn [andb orb].
      destruct (halted_intro d d4 d5 d' w w3 w5 w6 w' results es ev tail)
        as [Hcom Hhalt]; rewrite ?Hfail; try reflexivity; try assumption.
      { by eexists. }
      by split.
    + unfold dret at 1; cbv beta iota; cbn [andb orb].
      unfold dbind at 1, get_self at 1; cbv beta iota. rewrite Hc5, Hcf5.
      match goal with
      | |- context [(if _ then _ else _) d5 ?wX'] => set (wX := wX')
      end.
      assert (HioX : io wX = []) by exact Hio5.
      assert (HfX : file wX = file w5) by reflexivity.
      assert (HlgX : exists lg, log wX = log w5 ++ lg)
        by (first [by eexists | exists []; by rewrite app_nil_r]).
      destruct (max_failures_before_halt (config d) <=? consecutive_failures d + 1)%Z
        eqn:Hth.
      * destruct (halt_after_log "CRITICAL"
                    ("Consecutive failure threshold reached: "
                     +:+ PyStr.of_Z (consecutive_failures d + 1) +:+ "/"
                     +:+ PyStr.of_Z (max_failures_before_halt (config d)))
                    (f :: fs) d5 wX HioX)
          as (d' & w' & ev & tail & Hrun & Hw' & Hfh' & Hev & Hpay & Htail & Hin).
        rewrite Hrun. exists (Raised SystemExit_1), d', w'. split; [reflexivity |].
        split; [exact Hall |].
        destruct (halted_intro d d4 d5 d' w w3 w5 wX w' results es ev tail)
          as [Hcom Hhalt]; rewrite ?Hfail; try reflexivity; try assumption.
        by split.
      * unfold dret at 1.
        destruct (batch_then_return results d5 wX HioX)
          as (bs & d' & w' & Hrun & Hw' & Hbs & Hfh').
        rewrite Hrun. exists (Returned results), d', w'. split; [reflexivity |].
        split; [exact Hall |].
        destruct (recorded_intro d d4 d5 d' w w3 w5 wX w' results es bs)
          as [Hcom Hrec]; rewrite ?Hfail; try reflexivity; try assumption.
        by split.
    + unfold dret at 1; cbv beta iota; cbn [andb orb].
      unfold dbind at 1, get_self at 1; cbv beta iota. rewrite Hc5, Hcf5.
      match goal with
      | |- context [(if _ then _ else _) d5 ?wX'] => set (wX := wX')
      end.
      assert (HioX : io wX = []) by exact Hio5.
      assert (HfX : file wX = file w5) by reflexivity.
      assert (HlgX : exists lg, log wX = log w5 ++ lg)
        by (first [by eexists | exists []; by rewrite app_nil_r]).
      destruct (max_failures_before_halt (config d) <=? consecutive_failures d + 1)%Z
        eqn:Hth.
      * destruct (halt_after_log "CRITICAL"
                    ("Consecutive failure threshold reached: "
                     +:+ PyStr.of_Z (consecutive_failures d + 1) +:+ "/"
                     +:+ PyStr.of_Z (max_failures_before_halt (config d)))
                    (f :: fs) d5 wX HioX)
          as (d' & w' & ev & tail & Hrun & Hw' & Hfh' & Hev & Hpay & Htail & Hin).
        rewrite Hrun. exists (Raised SystemExit_1), d', w'. split; [reflexivity |].
        split; [exact Hall |].
        destruct (halted_intro d d4 d5 d' w w3 w5 wX w' results es ev tail)
          as [Hcom Hhalt]; rewrite ?Hfail; try reflexivity; try assumption.
        by split.
      * unfold dret at 1.
        destruct (batch_then_return results d5 wX HioX)
          as (bs & d' & w' & Hrun & Hw' & Hbs & Hfh').
        rewrite Hrun. exists (Returned results), d', w'. split; [reflexivity |].
        split; [exact Hall |].
        destruct (recorded_intro d d4 d5 d' w w3 w5 wX w' results es bs)
          as [Hcom Hrec]; rewrite ?Hfail; try reflexivity; try assumption.
        by split.
Qed.


Lemma critical_results (ctx : context) (invs : list Invariant)
    (results : list InvariantResult) :
  Forall2 (validated ctx) invs results ->
  Exists (critical_on ctx) invs ->
  has_critical_failure results = true.
Proof.
  intros Hall Hex. induction Hall as [|inv r invs rs Hv _ IH]; [inversion Hex |].
  cbn [has_critical_failure existsb]. apply orb_true_iff.
  apply Exists_cons in Hex as [[Hen Hc] | Hex]; [left | right; by apply IH].
  unfold validated in Hv. rewrite Hen in Hv.
  destruct (inv_validator inv ctx) as [r' | e].
  - subst r'. destruct Hc as [Hf Hs]. by rewrite Hf, Hs.
  - destruct Hv as (_ & _ & Hst & Hsev & _). unfold is_failure. by rewrite Hst, Hsev.
Qed.

Lemma critical_is_failure (results : list InvariantResult) :
  has_critical_failure results = true -> get_failures results <> [].
Proof.
  unfold has_critical_failure, get_failures. intros H.
  apply existsb_exists in H as (r & Hin & Hr). apply andb_true_iff in Hr as [Hf _].
  intros Hnil. assert (Hin' : In r (List.filter (fun r => is_failure r) results))
    by (apply filter_In; by split).
  rewrite Hnil in Hin'. destruct Hin'.
Qed.

Lemma not_critical_results (ctx : context) (invs : list Invariant)
    (results : list InvariantResult) :
  Forall2 (validated ctx) invs results ->
  Forall (fun inv => ~ critical_on ctx inv) invs ->
  has_critical_failure results = false.
Proof.
  intros Hall Hno. induction Hall as [|inv r invs rs Hv _ IH]; [reflexivity |].
  apply Forall_cons in Hno as [Hn Hno].
  cbn [has_critical_failure existsb]. apply orb_false_iff. split; [| by apply IH].
  unfold validated in Hv. unfold critical_on in Hn.
  destruct (inv_enabled inv).
  - destruct (inv_validator inv ctx) as [r' | e]; [subst r' | by destruct Hn].
    destruct (is_failure r) eqn:Hf; [| reflexivity].
    destruct (severity r) eqn:Hs; try reflexivity. by destruct Hn.
  - destruct Hv as (_ & _ & Hst & _). unfold is_failure. by rewrite Hst.
Qed.

Lemma passing_results (ctx : context) (invs : list Invariant)
    (results : list InvariantResult) :
  Forall2 (validated ctx) invs results ->
  Forall (passing_on ctx) invs ->
  get_failures results = [].
Proof.
  intros Hall Hp. induction Hall as [|inv r invs rs Hv _ IH]; [reflexivity |].
  apply Forall_cons in Hp as [Hp Hps].
  unfold get_failures. cbn [List.filter].
  assert (Hr : is_failure r = false).
  { unfold validated in Hv. destruct Hp as [Hd | (r' & Hr' & Hf)].
    - rewrite Hd in Hv. destruct Hv as (_ & _ & Hst & _). unfold is_failure. by rewrite Hst.
    - destruct (inv_enabled inv).
      + rewrite Hr' in Hv. by subst r'.
      + destruct Hv as (_ & _ & Hst & _). unfold is_failure. by rewrite Hst. }
  rewrite Hr. by apply IH.
Qed.

Lemma failing_results (ctx : context) (invs : list Invariant)
    (results : list InvariantResult) :
  Forall2 (validated ctx) invs results ->
  Exists (failing_on ctx) invs ->
  get_failures results <> [].
Proof.
  intros Hall Hex. induction Hall as [|inv r invs rs Hv _ IH]; [inversion Hex |].
  unfold get_failures. cbn [List.filter].
  apply Exists_cons in Hex as [[Hen Hc] | Hex].
  - unfold validated in Hv. rewrite Hen in Hv.
    assert (Hf : is_failure r = true).
    { destruct (inv_validator inv ctx) as [r' | e]; [by subst r' |].
      destruct Hv as (_ & _ & Hst & _). unfold is_failure. by rewrite Hst. }
    by rewrite Hf.
  - destruct (is_failure r); [done | by apply IH].
Qed.

Lemma validate_once_open_fails (ctx : context) (d : GovernanceDaemon) (w : world)
    (m : string) (rest : list (option string)) :
  io w = Some m :: rest ->
  Exists (failing_on ctx) (list_all (registry d)) ->
  exists results f fs d' w',
    validate_once ctx d w = (Raised (Exn OSError "OSError" m), d', w')
    /\ Forall2 (validated ctx) (list_all (registry d)) results
    /\ get_failures results = f :: fs
    /\ lines_of w' = lines_of w
    /\ log w'
       = log w ++ [ ("INFO", "Starting validation cycle #"
                             +:+ PyStr.of_Z (validation_count d + 1));
                    (failure_level f, failure_message f) ]
    /\ running d' = running d
    /\ consecutive_failures d' = (consecutive_failures d + 1)%Z
    /\ failure_handler d' = counted f (failure_handler d)
    /\ ledger d' = ledger d.
Proof.
  intros Hio Hex. unfold validate_once, validate_once_with.
  unfold dbind at 1, modify at 1.
  unfold dbind at 1, lift at 1, now.
  unfold dbind at 1, modify at 1.
  unfold dbind at 1, get_self at 1.
  unfold dbind at 1, lift at 1, logging at 1.
  unfold dbind at 1, dret at 1.
  unfold dbind at 1.
  cbn [file io clock ticks log].
  match goal with
  | |- context [registry_validate_all ctx ?d2' ?w2'] => set (w2 := w2'); set (d2 := d2')
  end.
  destruct (validate_all_spec (registry d2) ctx w2) as (results & w3 & Hva & Hall & Hf3 & Hi3 & Hl3).
  unfold registry_validate_all. rewrite Hva. cbv beta iota.
  match goal with
  | |- context [set_registry ?r' d2] => set (d3 := set_registry r' d2)
  end.
  exists results.
  assert (Hio3 : io w3 = Some m :: rest) by (rewrite Hi3; exact Hio).
  change (file w2) with (file w) in Hf3.
  pose proof (failing_results ctx _ _ Hall Hex) as Hne.
  unfold dbind at 1.
  destruct (get_failures results) as [|f fs] eqn:Hfail; [done |].
  exists f, fs.
  unfold dbind at 1, modify at 1.
  unfold dbind at 1. cbn [for_each]. unfold dbind at 1.
  rewrite handle_failure_eq. unfold ledger_append.
  match goal with
  | |- context [append (ledger ?d1') f ?w1'] => set (w1 := w1'); set (d1 := d1')
  end.
  destruct (append_open_fails (ledger d1) f w1 m rest Hio3) as (w' & Hrun & Hlines & _ & Hlog).
  rewrite Hrun. eexists _, _. split; [reflexivity |]. split; [exact Hall |].
  split; [reflexivity |].
  split; [rewrite Hlines; unfold lines_of; cbn [w1 add_logs file]; by rewrite Hf3 |].
  split; [rewrite Hlog; cbn [w1 add_logs log]; rewrite Hl3; cbn [w2 log];
          by rewrite <- app_assoc |].
  by repeat split.
Qed.

Lemma get_status_linked (d : GovernanceDaemon) (w : world) :
  io w = [] -> chained JNull (lines_of w) ->
  exists j,
    get_status d w = (Returned (JDict j), d, w)
    /\ Json.lookup "running" j = Some (JBool (running d))
    /\ Json.lookup "validation_count" j = Some (JInt (validation_count d))
    /\ Json.lookup "consecutive_failures" j = Some (JInt (consecutive_failures d))
    /\ Json.lookup "failure_stats" j = Some (get_stats (failure_handler d))
    /\ Json.lookup "ledger_chain_valid" j = Some (JBool true).
Proof.
  intros Hio Hc. unfold get_status, ledger_verify_chain, dbind, get_self, lift, dret.
  rewrite (verify_chain_linked (ledger d) w Hio Hc).
  eexists. split; [reflexivity |]. by repeat split.
Qed.

End DaemonProofs.

Section DaemonExtras.
Import Invariants Ledger InvariantsSpec LedgerSpec HugSpec LedgerProofs InvariantsProofs.
Import LedgerMoreSpec LedgerMoreProofs DaemonCode DaemonSpec DaemonProofs.

(** X18.  A failure is never silent, whatever the file system does.
    [handle_failure] first counts the failure (the critical counter too when
    its severity is CRITICAL) and writes the log record of the failure, at
    level CRITICAL, ERROR (for HIGH) or WARNING; only then it writes the
    ledger.  Either it returns, the ledger has one more line, holding the
    result, and the last log record is "Evidence recorded: <hash>"; or it
    raises the OSError of the ledger write, the ledger file and the ledger
    object are as before, and the failure stays counted and logged. *)
Theorem X18_handle_failure_is_loud (r : InvariantResult) (d : GovernanceDaemon)
    (w : world) :
  exists o d' w',
    handle_failure r d w = (o, d', w')
    /\ failure_handler d' = counted r (failure_handler d)
    /\ same_settings d d'
    /\ (exists rest, log w' = log w ++ (failure_level r, failure_message r) :: rest)
    /\ ((o = Returned tt
         /\ (exists e, lines_of w' = lines_of w ++ [e] /\ holds_result r e)
         /\ last (log w') = Some ("INFO", "Evidence recorded: " +:+ hash r))
        \/ (exists m,
              o = Raised (Exn OSError "OSError" m)
              /\ lines_of w' = lines_of w /\ ledger d' = ledger d
              /\ log w' = log w ++ [(failure_level r, failure_message r)])).
Proof.
  rewrite handle_failure_eq.
  set (d1 := set_failure_handler (counted r (failure_handler d)) d).
  set (w1 := add_logs w [(failure_level r, failure_message r)]).
  unfold ledger_append.
  destruct (append_cases (ledger d1) r w1)
    as [(h & e & w' & Hrun & Hlines & Hlog & _ & _ & _ & Hr)
       | (m & w' & Hrun & Hlines & Hlog & _)]; rewrite Hrun.
  - eexists _, _, _. split; [reflexivity |]. split; [reflexivity |].
    split; [by repeat split |].
    split; [exists (evidence_logs (config d) r); cbn [add_logs log]; rewrite Hlog;
            cbn [w1 add_logs log]; by rewrite <- app_assoc |].
    left. split; [reflexivity |]. split; [by exists e |].
    cbn [add_logs log]. unfold evidence_logs. rewrite !app_assoc. apply last_snoc.
  - eexists _, _, _. split; [reflexivity |]. split; [reflexivity |].
    split; [by repeat split |].
    split; [exists []; by rewrite Hlog |].
    right. exists m. by repeat split.
Qed.

(** X19.  When a validation cycle ends in the emergency halt.  Without I/O
    failure, [validate_once] validates every registered invariant and then
    either exits with SystemExit(1) or returns the results; it exits exactly
    when there is a failure and either a failure is critical and
    halt_on_critical is set, or the count of consecutive failing cycles,
    this one included, has reached max_failures_before_halt.  In both cases
    the cycle is counted, stamped, and kept in the history of the
    registry. *)
Theorem X19_validate_once_halts_iff (ctx : context) (d : GovernanceDaemon) (w : world) :
  io w = [] ->
  exists results o d' w',
    validate_once ctx d w = (o, d', w')
    /\ Forall2 (validated ctx) (list_all (registry d)) results
    /\ (o = Raised SystemExit_1 <-> halts d results = true)
    /\ (o = Returned results <-> halts d results = false)
    /\ validation_count d' = (validation_count d + 1)%Z
    /\ last_validation d' = Some (clock w (ticks w))
    /\ _results_history (registry d') = _results_history (registry d) ++ results.
Proof.
  intros Hio.
  destruct (validate_once_spec ctx d w Hio)
    as (results & o & d' & w' & Hrun & Hall & (_ & Hv & Hlv & Hg & _) & Hcase).
  exists results, o, d', w'. split; [exact Hrun |]. split; [exact Hall |].
  split; [| split; [| split; [exact Hv | split; [exact Hlv | by rewrite Hg]]]].
  - destruct (halts d results); destruct Hcase as [-> _]; split; done.
  - destruct (halts d results); destruct Hcase as [-> _]; split; done.
Qed.

Lemma X19_witness :
  io world0 = []
  /\ exists results o d' w',
       validate_once [] (daemon0 registry_ABC) world0 = (o, d', w')
       /\ Forall2 (validated []) (list_all (registry (daemon0 registry_ABC))) results
       /\ (o = Raised SystemExit_1 <-> halts (daemon0 registry_ABC) results = true)
       /\ (o = Returned results <-> halts (daemon0 registry_ABC) results = false)
       /\ validation_count d' = (validation_count (daemon0 registry_ABC) + 1)%Z
       /\ last_validation d' = Some (clock world0 (ticks world0))
       /\ _results_history (registry d')
          = _results_history (registry (daemon0 registry_ABC)) ++ results.
Proof.
  split; [reflexivity |].
  exact (X19_validate_once_halts_iff [] (daemon0 registry_ABC) world0 eq_refl).
Defined.

(** X20.  The emergency halt drops the batch.  When halt_on_critical is set
    and some enabled invariant raises or reports a CRITICAL failure, a cycle
    without I/O failure ends in SystemExit(1) with the daemon stopped, and
    what the ledger received is: one line per failure, the EMERGENCY_HALT
    event carrying the failures and the cycle count, and the DAEMON_STOP
    event when the daemon was running.  The batch of all results is not
    written: results of the halting cycle that are not failures never reach
    the ledger. *)
Theorem X20_emergency_halt_drops_the_batch (ctx : context) (d : GovernanceDaemon)
    (w : world) :
  io w = [] ->
  halt_on_critical (config d) = true ->
  Exists (critical_on ctx) (list_all (registry d)) ->
  exists results d' w' es ev tail,
    validate_once ctx d w = (Raised SystemExit_1, d', w')
    /\ Forall2 (validated ctx) (list_all (registry d)) results
    /\ running d' = false
    /\ lines_of w' = lines_of w ++ es ++ ev :: tail
    /\ Forall2 holds_result (get_failures results) es
    /\ is_event "EMERGENCY_HALT" ev
    /\ field "payload" ev
       = Some (JDict [ ("reason", JStr "Critical invariant failure");
                       ("failures", JList (map to_dict (get_failures results)));
                       ("validation_count", JInt (validation_count d + 1)) ])
    /\ (if running d then exists e, tail = [e] /\ is_event "DAEMON_STOP" e
        else tail = [])
    /\ In ("CRITICAL", "  EMERGENCY HALT INITIATED") (log w').
Proof.
  intros Hio Hhc Hex.
  destruct (validate_once_spec ctx d w Hio)
    as (results & o & d' & w' & Hrun & Hall & _ & Hcase).
  pose proof (critical_results ctx _ _ Hall Hex) as Hcrit.
  pose proof (critical_is_failure _ Hcrit) as Hne.
  assert (Hh : halts d results = true).
  { unfold halts. destruct (get_failures results); [done |]. by rewrite Hcrit, Hhc. }
  rewrite Hh in Hcase.
  destruct Hcase as (-> & Hr & _ & Hin & es & ev & tail & Hl & Hes & Hev & Hp & Ht).
  exists results, d', w', es, ev, tail. by repeat split.
Qed.

Lemma X20_witness :
  io world0 = []
  /\ halt_on_critical (config (daemon0 registry_ABC)) = true
  /\ exists results d' w' es ev tail,
       validate_once [] (daemon0 registry_ABC) world0 = (Raised SystemExit_1, d', w')
       /\ Forall2 (validated []) (list_all (registry (daemon0 registry_ABC))) results
       /\ running d' = false
       /\ lines_of w' = lines_of world0 ++ es ++ ev :: tail
       /\ Forall2 holds_result (get_failures results) es
       /\ is_event "EMERGENCY_HALT" ev
       /\ field "payload" ev
          = Some (JDict [ ("reason", JStr "Critical invariant failure");
                          ("failures", JList (map to_dict (get_failures results)));
                          ("validation_count",
                           JInt (validation_count (daemon0 registry_ABC) + 1)) ])
       /\ (if running (daemon0 registry_ABC)
           then exists e, tail = [e] /\ is_event "DAEMON_STOP" e
           else tail = [])
       /\ In ("CRITICAL", "  EMERGENCY HALT INITIATED") (log w').
Proof.
  split; [reflexivity |]. split; [reflexivity |].
  apply (X20_emergency_halt_drops_the_batch [] (daemon0 registry_ABC) world0 eq_refl eq_refl).
  apply Exists_cons_tl, Exists_cons_tl, Exists_cons_hd. split; [reflexivity | exact I].
Defined.

(** X21.  A failure that does not halt is recorded twice.  When no critical
    failure can halt the cycle (halt_on_critical is off, or no enabled
    invariant raises or reports a CRITICAL failure) and the threshold of
    consecutive failures is not reached, a cycle without I/O failure
    returns its results, and the ledger received one line per failure,
    written by the failure handler, followed by one line per result,
    failures included, written as the batch.  The failures are counted, and
    the ledger object still agrees with the file. *)
Theorem X21_failures_are_recorded_twice (ctx : context) (d : GovernanceDaemon)
    (w : world) :
  io w = [] ->
  halt_on_critical (config d) = false
  \/ Forall (fun inv => ~ critical_on ctx inv) (list_all (registry d)) ->
  (consecutive_failures d + 1 < max_failures_before_halt (config d))%Z ->
  exists results d' w' es bs,
    validate_once ctx d w = (Returned results, d', w')
    /\ Forall2 (validated ctx) (list_all (registry d)) results
    /\ lines_of w' = lines_of w ++ es ++ bs
    /\ Forall2 holds_result (get_failures results) es
    /\ Forall2 holds_result results bs
    /\ running d' = running d
    /\ consecutive_failures d'
       = match get_failures results with
         | [] => 0%Z
         | _ :: _ => (consecutive_failures d + 1)%Z
         end
    /\ failure_handler d' = counted_all (get_failures results) (failure_handler d)
    /\ (linked (ledger d) w -> linked (ledger d') w').
Proof.
  intros Hio Hno Hth.
  destruct (validate_once_spec ctx d w Hio)
    as (results & o & d' & w' & Hrun & Hall & (_ & _ & _ & _ & Hfh & _ & _ & Hk) & Hcase).
  assert (Hh : halts d results = false).
  { unfold halts. destruct (get_failures results); [done |].
    apply orb_false_iff. split; [| by apply Z.leb_gt].
    destruct Hno as [Hhc | Hnc]; [by rewrite Hhc, andb_false_r |].
    by rewrite (not_critical_results ctx _ _ Hall Hnc). }
  rewrite Hh in Hcase.
  destruct Hcase as (-> & Hr & Hcf & es & bs & Hl & Hes & Hbs).
  exists results, d', w', es, bs.
  split; [exact Hrun |]. split; [exact Hall |]. split; [exact Hl |].
  split; [exact Hes |]. split; [exact Hbs |]. split; [exact Hr |].
  split; [exact Hcf |]. split; [exact Hfh | exact Hk].
Qed.

Lemma X21_witness :
  io world0 = []
  /\ (consecutive_failures (daemon0 registry_AB) + 1
      < max_failures_before_halt (config (daemon0 registry_AB)))%Z
  /\ exists results d' w' es bs,
       validate_once [] (daemon0 registry_AB) world0 = (Returned results, d', w')
       /\ Forall2 (validated []) (list_all (registry (daemon0 registry_AB))) results
       /\ lines_of w' = lines_of world0 ++ es ++ bs
       /\ Forall2 holds_result (get_failures results) es
       /\ Forall2 holds_result results bs
       /\ running d' = running (daemon0 registry_AB)
       /\ consecutive_failures d'
          = match get_failures results with
            | [] => 0%Z
            | _ :: _ => (consecutive_failures (daemon0 registry_AB) + 1)%Z
            end
       /\ failure_handler d'
          = counted_all (get_failures results) (failure_handler (daemon0 registry_AB))
       /\ (linked (ledger (daemon0 registry_AB)) world0 -> linked (ledger d') w').
Proof.
  split; [reflexivity |]. split; [reflexivity |].
  apply (X21_failures_are_recorded_twice [] (daemon0 registry_AB) world0 eq_refl).
  - right. repeat constructor; intros [_ [_ H]]; discriminate H.
  - reflexivity.
Defined.

(** X22.  A clean cycle.  When every registered invariant is disabled or
    returns a result that is not a failure, a cycle without I/O failure
    returns its results whatever the thresholds, resets the count of
    consecutive failures to 0, leaves the counters of the failure handler
    alone, and appends to the ledger exactly one line per registered
    invariant, in registration order. *)
Theorem X22_clean_cycle (ctx : context) (d : GovernanceDaemon) (w : world) :
  io w = [] ->
  Forall (passing_on ctx) (list_all (registry d)) ->
  exists results d' w' bs,
    validate_once ctx d w = (Returned results, d', w')
    /\ Forall2 (validated ctx) (list_all (registry d)) results
    /\ get_failures results = []
    /\ lines_of w' = lines_of w ++ bs
    /\ Forall2 holds_result results bs
    /\ length bs = length (list_all (registry d))
    /\ consecutive_failures d' = 0%Z
    /\ failure_handler d' = failure_handler d
    /\ running d' = running d.
Proof.
  intros Hio Hpass.
  destruct (validate_once_spec ctx d w Hio)
    as (results & o & d' & w' & Hrun & Hall & (_ & _ & _ & _ & Hfh & _) & Hcase).
  pose proof (passing_results ctx _ _ Hall Hpass) as Hnil.
  unfold halts in Hcase. rewrite Hnil in Hcase, Hfh.
  destruct Hcase as (-> & Hr & Hcf & es & bs & Hl & Hes & Hbs).
  rewrite Hnil in Hcf, Hes. inversion Hes; subst es.
  exists results, d', w', bs. split; [exact Hrun |]. split; [exact Hall |].
  split; [exact Hnil |]. split; [exact Hl |]. split; [exact Hbs |].
  split; [by rewrite <- (Forall2_length _ _ _ Hbs), (Forall2_length _ _ _ Hall) |].
  split; [exact Hcf |]. split; [exact Hfh | exact Hr].
Qed.

Lemma X22_witness :
  io world0 = []
  /\ exists results d' w' bs,
       validate_once [] (daemon0 registry_A) world0 = (Returned results, d', w')
       /\ Forall2 (validated []) (list_all (registry (daemon0 registry_A))) results
       /\ get_failures results = []
       /\ lines_of w' = lines_of world0 ++ bs
       /\ Forall2 holds_result results bs
       /\ length bs = length (list_all (registry (daemon0 registry_A)))
       /\ consecutive_failures d' = 0%Z
       /\ failure_handler d' = failure_handler (daemon0 registry_A)
       /\ running d' = running (daemon0 registry_A).
Proof.
  split; [reflexivity |].
  apply (X22_clean_cycle [] (daemon0 registry_A) world0 eq_refl).
  constructor; [| constructor]. right. exists result_A. by split.
Defined.

(** X23.  An unwritable ledger pre-empts the emergency halt.  When some
    enabled invariant fails and the first ledger write of the cycle fails
    at opening the file, [validate_once] ends in that OSError, not in
    SystemExit, whatever the severity of the failures and the halt
    settings: the first failure is counted and logged, nothing is written to
    the ledger, no emergency halt is logged or recorded, and the daemon is
    left running as it was with its count of consecutive failures
    incremented. *)
Theorem X23_unwritable_ledger_preempts_halt (ctx : context) (d : GovernanceDaemon)
    (w : world) (m : string) (rest : list (option string)) :
  io w = Some m :: rest ->
  Exists (failing_on ctx) (list_all (registry d)) ->
  exists results f fs d' w',
    validate_once ctx d w = (Raised (Exn OSError "OSError" m), d', w')
    /\ Forall2 (validated ctx) (list_all (registry d)) results
    /\ get_failures results = f :: fs
    /\ lines_of w' = lines_of w
    /\ log w'
       = log w ++ [ ("INFO", "Starting validation cycle #"
                             +:+ PyStr.of_Z (validation_count d + 1));
                    (failure_level f, failure_message f) ]
    /\ running d' = running d
    /\ consecutive_failures d' = (consecutive_failures d + 1)%Z
    /\ failure_handler d' = counted f (failure_handler d)
    /\ ledger d' = ledger d.
Proof. exact (validate_once_open_fails ctx d w m rest). Qed.

Lemma X23_witness :
  io world_full = [Some "[Errno 28] No space left on device"]
  /\ exists results f fs d' w',
       validate_once [] (daemon0 registry_ABC) world_full
       = (Raised (Exn OSError "OSError" "[Errno 28] No space left on device"), d', w')
       /\ Forall2 (validated []) (list_all (registry (daemon0 registry_ABC))) results
       /\ get_failures results = f :: fs
       /\ lines_of w' = lines_of world_full
       /\ log w'
          = log world_full
            ++ [ ("INFO", "Starting validation cycle #"
                          +:+ PyStr.of_Z (validation_count (daemon0 registry_ABC) + 1));
                 (failure_level f, failure_message f) ]
       /\ running d' = running (daemon0 registry_ABC)
       /\ consecutive_failures d'
          = (consecutive_failures (daemon0 registry_ABC) + 1)%Z
       /\ failure_handler d' = counted f (failure_handler (daemon0 registry_ABC))
       /\ ledger d' = ledger (daemon0 registry_ABC).
Proof.
  split; [reflexivity |].
  apply (X23_unwritable_ledger_preempts_halt [] (daemon0 registry_ABC) world_full
           "[Errno 28] No space left on device" [] eq_refl).
  apply Exists_cons_tl, Exists_cons_hd. split; reflexivity.
Defined.

(** X29.  The status after a cycle.  After a cycle that does not halt, run
    without I/O failure on a ledger object that agrees with its chained
    file, [get_status] changes neither the daemon nor the files and reports
    the ledger chain as valid, the cycle as counted, and as failure
    statistics the counters of the failure handler with the failures of the
    cycle added. *)
Theorem X29_status_after_cycle (ctx : context) (d : GovernanceDaemon) (w : world) :
  io w = [] -> linked (ledger d) w ->
  halt_on_critical (config d) = false
  \/ Forall (fun inv => ~ critical_on ctx inv) (list_all (registry d)) ->
  (consecutive_failures d + 1 < max_failures_before_halt (config d))%Z ->
  exists results d' w' j,
    validate_once ctx d w = (Returned results, d', w')
    /\ get_status d' w' = (Returned (JDict j), d', w')
    /\ Json.lookup "ledger_chain_valid" j = Some (JBool true)
    /\ Json.lookup "validation_count" j = Some (JInt (validation_count d + 1))
    /\ Json.lookup "failure_stats" j
       = Some (get_stats (counted_all (get_failures results) (failure_handler d)))
    /\ Json.lookup "running" j = Some (JBool (running d)).
Proof.
  intros Hio Hlinked Hno Hth.
  destruct (validate_once_spec ctx d w Hio)
    as (results & o & d' & w' & Hrun & Hall
        & (_ & Hv & _ & _ & Hfh & Hio' & _ & Hk) & Hcase).
  assert (Hh : halts d results = false).
  { unfold halts. destruct (get_failures results); [done |].
    apply orb_false_iff. split; [| by apply Z.leb_gt].
    destruct Hno as [Hhc | Hnc]; [by rewrite Hhc, andb_false_r |].
    by rewrite (not_critical_results ctx _ _ Hall Hnc). }
  rewrite Hh in Hcase. destruct Hcase as (-> & Hr & _).
  destruct (Hk Hlinked) as [Hc' _].
  destruct (get_status_linked d' w' Hio' Hc') as (j & Hst & Hjr & Hjv & _ & Hjf & Hjc).
  exists results, d', w', j. split; [exact Hrun |]. split; [exact Hst |].
  split; [exact Hjc |]. split; [by rewrite Hjv, Hv |].
  split; [by rewrite Hjf, Hfh | by rewrite Hjr, Hr].
Qed.

Lemma X29_witness :
  io world0 = [] /\ linked (ledger (daemon0 registry_AB)) world0
  /\ (consecutive_failures (daemon0 registry_AB) + 1
      < max_failures_before_halt (config (daemon0 registry_AB)))%Z
  /\ exists results d' w' j,
       validate_once [] (daemon0 registry_AB) world0 = (Returned results, d', w')
       /\ get_status d' w' = (Returned (JDict j), d', w')
       /\ Json.lookup "ledger_chain_valid" j = Some (JBool true)
       /\ Json.lookup "validation_count" j
          = Some (JInt (validation_count (daemon0 registry_AB) + 1))
       /\ Json.lookup "failure_stats" j
          = Some (get_stats (counted_all (get_failures results)
                              (failure_handler (daemon0 registry_AB))))
       /\ Json.lookup "running" j = Some (JBool (running (daemon0 registry_AB))).
Proof.
  assert (Hl : linked (ledger (daemon0 registry_AB)) world0)
    by (split; [exact I | reflexivity]).
  split; [reflexivity |]. split; [exact Hl |]. split; [reflexivity |].
  apply (X29_status_after_cycle [] (daemon0 registry_AB) world0 eq_refl Hl).
  - right. repeat constructor; intros [_ [_ H]]; discriminate H.
  - reflexivity.
Defined.

End DaemonExtras.

(** ** The format of the hashes *)

Module FormatProofs.
Import Invariants FormatSpec.
Local Open Scope Z_scope.

Lemma hex_digits_are_hex :
  forallb (fun k => is_hex_char (Sha256.hex_digit (Z.of_nat k))) (seq 0 16) = true.
Proof. reflexivity. Qed.

Lemma hex_digit_is_hex (n : Z) : 0 <= n < 16 -> is_hex_char (Sha256.hex_digit n) = true.
Proof.
  intros Hn. pose proof hex_digits_are_hex as Hall.
  rewrite forallb_forall in Hall. rewrite <- (Z2Nat.id n) by lia.
  apply Hall, in_seq. lia.
Qed.

Lemma nibble_range (x : Z) : 0 <= Z.land x 0xF < 16.
Proof.
  change 0xF with (Z.ones 4). rewrite Z.land_ones by lia.
  change (2 ^ 4) with 16. apply Z.mod_pos_bound. lia.
Qed.

Lemma hex_length (digits : nat) (x : Z) : String.length (Sha256.hex digits x) = digits.
Proof. induction digits as [|d IH]; simpl; [reflexivity | by rewrite IH]. Qed.

Lemma hex_all_hex (digits : nat) (x : Z) : all_hex (Sha256.hex digits x) = true.
Proof.
  induction digits as [|d IH]; [reflexivity |].
  cbn [Sha256.hex all_hex]. rewrite IH, andb_true_r.
  apply hex_digit_is_hex, nibble_range.
Qed.

Lemma length_append (a b : string) :
  String.length (a +:+ b) = (String.length a + String.length b)%nat.
Proof. induction a as [|c a IH]; simpl; [reflexivity | by rewrite IH]. Qed.

Lemma all_hex_append (a b : string) :
  all_hex (a +:+ b) = all_hex a && all_hex b.
Proof.
  induction a as [|c a IH]; simpl; [reflexivity |]. by rewrite IH, andb_assoc.
Qed.

Lemma digest_length (msg : list Z) : length (Sha256.digest msg) = 8%nat.
Proof.
  unfold Sha256.digest.
  destruct (Sha256.blocks _ _ _) as [[[[[[[a b] c] d] e] f] g] h]. reflexivity.
Qed.

Lemma hexdigest_format (s : string) :
  String.length (Sha256.hexdigest s) = 64%nat /\ all_hex (Sha256.hexdigest s) = true.
Proof.
  unfold Sha256.hexdigest. pose proof (digest_length (Sha256.encode s)) as Hlen.
  destruct (Sha256.digest (Sha256.encode s)) as [|a [|b [|c [|d [|e [|f [|g [|h [|]]]]]]]]];
    try discriminate Hlen.
  cbn [fold_right]. rewrite !length_append, !all_hex_append, !hex_length, !hex_all_hex.
  by split.
Qed.

Lemma take_length (n : nat) (s : string) :
  (n <= String.length s)%nat -> String.length (PyStr.take n s) = n.
Proof.
  revert s. induction n as [|n IH]; intros s Hn; [reflexivity |].
  destruct s as [|c s]; simpl in *; [lia |]. rewrite IH; [reflexivity | lia].
Qed.

Lemma take_all_hex (n : nat) (s : string) :
  all_hex s = true -> all_hex (PyStr.take n s) = true.
Proof.
  revert s. induction n as [|n IH]; intros s Hs; [reflexivity |].
  destruct s as [|c s]; [reflexivity |]. simpl in *.
  apply andb_true_iff in Hs as [Hc Hs]. by rewrite Hc, IH.
Qed.

Lemma _compute_hash_format (r : InvariantResult) :
  String.length (_compute_hash r) = 16%nat /\ all_hex (_compute_hash r) = true.
Proof.
  unfold _compute_hash.
  match goal with
  | |- context [Sha256.hexdigest ?c] => destruct (hexdigest_format c) as [Hl Hh]
  end.
  split; [apply take_length; rewrite Hl; lia | by apply take_all_hex].
Qed.

End FormatProofs.

Section FormatExtras.
Import Invariants Ledger FormatSpec FormatProofs.

(** X24.  The hash of a result.  A result built without a hash gets one of
    exactly 16 lower-case hexadecimal characters; a result built with a
    non-empty hash keeps it; so the hash of a constructed result is never
    empty, and running [__post_init__] again changes nothing.  The
    entry_hash the ledger computes for an entry is 64 lower-case hexadecimal
    characters. *)
Theorem X24_hash_format (r : InvariantResult) :
  (is_empty (hash r) = true ->
   String.length (hash (__post_init__ r)) = 16%nat
   /\ all_hex (hash (__post_init__ r)) = true)
  /\ (is_empty (hash r) = false -> __post_init__ r = r)
  /\ is_empty (hash (__post_init__ r)) = false
  /\ __post_init__ (__post_init__ r) = __post_init__ r
  /\ (forall self entry,
        String.length (_compute_entry_hash self entry) = 64%nat
        /\ all_hex (_compute_entry_hash self entry) = true).
Proof.
  destruct (_compute_hash_format r) as [Hl Hh].
  assert (Hne : is_empty (hash (__post_init__ r)) = false).
  { unfold __post_init__. destruct (is_empty (hash r)) eqn:He; [| exact He].
    cbn [hash]. destruct (_compute_hash r); [discriminate Hl | reflexivity]. }
  split; [| split; [| split; [exact Hne | split]]].
  - intros He. unfold __post_init__. rewrite He. cbn [hash]. by split.
  - intros He. unfold __post_init__. by rewrite He.
  - unfold __post_init__ at 1. by rewrite Hne.
  - intros self entry. unfold _compute_entry_hash. apply hexdigest_format.
Qed.

Lemma X24_witness :
  is_empty (hash {| invariant_id := "A"; name := "a"; status := PASS; severity := LOW;
                    reason := "fine"; timestamp := "2026-01-01T00:00:00+00:00";
                    evidence := []; hash := EmptyString |}) = true
  /\ String.length
       (hash (__post_init__
                {| invariant_id := "A"; name := "a"; status := PASS; severity := LOW;
                   reason := "fine"; timestamp := "2026-01-01T00:00:00+00:00";
                   evidence := []; hash := EmptyString |})) = 16%nat.
Proof.
  split; [reflexivity |].
  exact (proj1 (proj1 (X24_hash_format
                         {| invariant_id := "A"; name := "a"; status := PASS;
                            severity := LOW; reason := "fine";
                            timestamp := "2026-01-01T00:00:00+00:00";
                            evidence := []; hash := EmptyString |}) eq_refl)).
Defined.

End FormatExtras.

(** ** The two H gates *)

Module HGateProofs.
Import Invariants Ledger InvariantsSpec LedgerSpec LedgerProofs HugProofs HGateSpec.

#[local] Opaque Sha256.hexdigest dumps_canonical PyStr.of_Z.

Lemma starts_with_app (p s : string) :
  PyStr.starts_with p s = true <-> exists post, s = p +:+ post.
Proof.
  revert s. induction p as [|a p IH]; intros s; simpl.
  - split; [intros _; by exists s | done].
  - destruct s as [|b s]; [split; [done | intros [post H]; discriminate H] |].
    destruct (Ascii.eqb a b) eqn:E.
    + apply Ascii.eqb_eq in E. subst b. rewrite IH. split.
      * intros [post ->]. by exists post.
      * intros [post H]. injection H as ->. by exists post.
    + split; [done |]. intros [post H]. injection H as -> _.
      by rewrite Ascii.eqb_refl in E.
Qed.

Lemma contains_app (n s : string) :
  PyStr.contains n s = true <-> exists pre post, s = pre +:+ n +:+ post.
Proof.
  induction s as [|c s IH].
  - simpl. destruct (PyStr.starts_with n EmptyString) eqn:E.
    + split; [intros _ | done]. apply starts_with_app in E as [post E].
      by exists EmptyString, post.
    + split; [done |]. intros (pre & post & H).
      destruct pre as [|a pre]; [| discriminate H]. simpl in H.
      assert (PyStr.starts_with n EmptyString = true)
        by (apply starts_with_app; by exists post).
      congruence.
  - cbn [PyStr.contains]. destruct (PyStr.starts_with n (String c s)) eqn:E.
    + split; [intros _ | done]. apply starts_with_app in E as [post E].
      by exists EmptyString, post.
    + rewrite IH. split.
      * intros (pre & post & ->). by exists (String c pre), post.
      * intros (pre & post & H). destruct pre as [|a pre].
        -- simpl in H. assert (PyStr.starts_with n (String c s) = true)
             by (apply starts_with_app; by exists post).
           congruence.
        -- simpl in H. injection H as -> ->. by exists pre, post.
Qed.

Lemma append_assoc (a b c : string) : (a +:+ b) +:+ c = a +:+ b +:+ c.
Proof.
  induction a as [|x a IH]; [reflexivity |].
  change (String x ((a +:+ b) +:+ c) = String x (a +:+ b +:+ c)). by f_equal.
Qed.

(** A string that contains a text contains every part of it. *)
Lemma contains_part (a b c s : string) :
  PyStr.contains (a +:+ b +:+ c) s = true -> PyStr.contains b s = true.
Proof.
  rewrite !contains_app. intros (pre & post & ->).
  exists (pre +:+ a), (c +:+ post). by rewrite !append_assoc.
Qed.

Lemma run_audit_H_passed (self : Hug.HUGProtocol) (changed_files : list string)
    (commit_msg : string) (batch : list InvariantResult) (w : world) :
  io w = [] ->
  exists h u g self' w',
    Hug.run_audit self changed_files commit_msg batch w = (Returned ([h; u; g], self'), w')
    /\ Hug.step h = "H"
    /\ Hug.passed h
       = (PyStr.contains "approved" (PyStr.lower commit_msg)
          || PyStr.contains "[human-approved]" (PyStr.lower commit_msg)
          || negb (daemon_needs_human changed_files)).
Proof.
  intros Hio. unfold Hug.run_audit. unfold bind, now. cbv beta iota zeta.
  cbn [app].
  match goal with
  | |- context [Hug.log_results ?l [?h; ?u; ?g] ?w0] =>
      destruct (log_results_three l h u g w0 Hio)
        as (l' & w' & e1 & e2 & e3 & Hlog & _)
  end.
  rewrite Hlog. eexists _, _, _, _, _. split; [reflexivity |]. by split.
Qed.

End HGateProofs.

Section HGateExtras.
Import Invariants Ledger InvariantsSpec LedgerSpec HugSpec HGateSpec HGateProofs HugProofs.
Import HugAudit.

(** X25.  The two H gates compared.  The H step of the daemon
    ([HUGProtocol.run_audit]) passes exactly when the lower-cased commit
    message contains "approved" or no changed file matches "invariant",
    "governance" or "constitution": its second test, for "[human-approved]",
    never decides.  The patterns of the daemon are among those of
    hug_protocol.py, so a change the daemon sends to review is sent to
    review there too.  Hence, whenever [run_hug_audit] returns, its first
    result is that of the H step, and if it passed there the H step of the
    daemon passes too, unless the message contains "acked-by:", the one
    approval marker that does not contain "approved". *)
Theorem X25_H_gates_compared (self : Hug.HUGProtocol) (changed_files : list string)
    (commit_msg : string) (batch : list InvariantResult) (w : world)
    (env : environment) (ledger_path : option string) (m : machine) :
  io w = [] ->
  exists h u g self' w',
    Hug.run_audit self changed_files commit_msg batch w = (Returned ([h; u; g], self'), w')
    /\ Hug.step h = "H"
    /\ Hug.passed h
       = (PyStr.contains "approved" (PyStr.lower commit_msg)
          || negb (daemon_needs_human changed_files))
    /\ (daemon_needs_human changed_files = true ->
        HugProtocol.needs_human_review changed_files = true)
    /\ (forall rs m',
          run_hug_audit env changed_files commit_msg ledger_path m = (Returned rs, m') ->
          exists h2 u2 g2,
            rs = [h2; u2; g2]
            /\ HugProtocol.step h2 = "H"
            /\ HugProtocol.passed h2
               = (negb (HugProtocol.needs_human_review changed_files)
                  || HugProtocol.is_human_approved commit_msg)
            /\ (HugProtocol.passed h2 = true ->
                PyStr.contains "acked-by:" (PyStr.lower commit_msg) = false ->
                Hug.passed h = true)).
Proof.
  intros Hio.
  destruct (run_audit_H_passed self changed_files commit_msg batch w Hio)
    as (h & u & g & self' & w' & Hrun & Hstep & Hpassed).
  exists h, u, g, self', w'.
  split; [exact Hrun |]. split; [exact Hstep |].
  set (msg := PyStr.lower commit_msg) in *.
  assert (Hsub : PyStr.contains "[human-approved]" msg = true ->
                 PyStr.contains "approved" msg = true)
    by apply (contains_part "[human-" "approved" "]").
  assert (Hformula : Hug.passed h
                     = (PyStr.contains "approved" msg
                        || negb (daemon_needs_human changed_files))).
  { rewrite Hpassed. destruct (PyStr.contains "approved" msg) eqn:Ha; [reflexivity |].
    destruct (PyStr.contains "[human-approved]" msg) eqn:Hb; [| reflexivity].
    by specialize (Hsub eq_refl). }
  assert (Hneeds : daemon_needs_human changed_files = true ->
                   HugProtocol.needs_human_review changed_files = true).
  { unfold daemon_needs_human, HugProtocol.needs_human_review.
    rewrite !existsb_exists. intros (f & Hin & Hf). exists f. split; [exact Hin |].
    unfold HugProtocol.matches_critical, HugProtocol.CRITICAL_PATTERNS.
    cbn [existsb]. apply orb_true_iff in Hf as [Hf | Hf];
      [apply orb_true_iff in Hf as [Hf | Hf] |]; rewrite Hf; by rewrite ?orb_true_r. }
  split; [exact Hformula |]. split; [exact Hneeds |].
  intros rs m' Hrun2.
  destruct (run_hug_audit_returned env changed_files commit_msg ledger_path m rs m' Hrun2)
    as (h2 & u2 & g2 & -> & Hstep2 & _ & _ & Hpassed2 & _).
  exists h2, u2, g2. split; [reflexivity |]. split; [exact Hstep2 |].
  split; [exact Hpassed2 |].
  intros Hp2 Hack. rewrite Hformula. rewrite Hpassed2 in Hp2.
  destruct (daemon_needs_human changed_files) eqn:Hn; [| by rewrite orb_true_r].
  rewrite (Hneeds eq_refl) in Hp2. cbn [negb orb] in Hp2.
  unfold HugProtocol.is_human_approved in Hp2. fold msg in Hp2. rewrite Hack in Hp2.
  rewrite orb_false_r in Hp2.
  apply orb_true_iff in Hp2 as [Hp2 | Hp2]; [apply orb_true_iff in Hp2 as [Hp2 | Hp2] |].
  - by rewrite (Hsub Hp2).
  - by rewrite (contains_part "[" "approved" "]" msg Hp2).
  - by rewrite (contains_part EmptyString "approved" "-by:" msg Hp2).
Qed.

Lemma X25_witness :
  io world0 = []
  /\ exists h u g self' w' h2 u2 g2 m',
       Hug.run_audit protocol0 ["src/invariants.py"] "fix [approved]" [] world0
       = (Returned ([h; u; g], self'), w')
       /\ run_hug_audit env_constitution ["src/invariants.py"] "fix [approved]" None
            (machine_ready [])
          = (Returned [h2; u2; g2], m')
       /\ Hug.step h = "H" /\ HugProtocol.step h2 = "H"
       /\ HugProtocol.passed h2 = true
       /\ Hug.passed h = true.
Proof.
  split; [reflexivity |].
  destruct (X25_H_gates_compared protocol0 ["src/invariants.py"] "fix [approved]" []
              world0 env_constitution None (machine_ready []) eq_refl)
    as (h & u & g & self' & w' & Hrun & Hstep & _ & _ & Hcmp).
  assert (Hrun2 : exists rs m',
             run_hug_audit env_constitution ["src/invariants.py"] "fix [approved]" None
               (machine_ready [])
             = (Returned rs, m')).
  { eexists _, _. vm_compute. reflexivity. }
  destruct Hrun2 as (rs & m' & Hrun2).
  destruct (Hcmp rs m' Hrun2) as (h2 & u2 & g2 & -> & Hstep2 & Hp2 & Himp).
  exists h, u, g, self', w', h2, u2, g2, m'.
  split; [exact Hrun |]. split; [exact Hrun2 |]. split; [exact Hstep |].
  split; [exact Hstep2 |].
  assert (Hh2 : HugProtocol.passed h2 = true) by (rewrite Hp2; reflexivity).
  split; [exact Hh2 |]. exact (Himp Hh2 eq_refl).
Defined.

(** Neither gate implies the other: "not approved yet" passes the H step of
    the daemon and not that of hug_protocol.py; "Acked-by: bob" passes that
    of hug_protocol.py and not that of the daemon. *)
Example H_gates_differ :
  (PyStr.contains "approved" (PyStr.lower "Not approved yet")
   || negb (daemon_needs_human ["src/invariants.py"])) = true
  /\ (negb (HugProtocol.needs_human_review ["src/invariants.py"])
      || HugProtocol.is_human_approved "Not approved yet") = false
  /\ (PyStr.contains "approved" (PyStr.lower "Acked-by: bob")
      || negb (daemon_needs_human ["src/invariants.py"])) = false
  /\ (negb (HugProtocol.needs_human_review ["src/invariants.py"])
      || HugProtocol.is_human_approved "Acked-by: bob") = true.
Proof. vm_compute. by repeat split. Qed.

End HGateExtras.

(** ** The validators on the context of the daemon *)

Module ValidatorsProofs.
Import Invariants Validators ValidatorsSpec LedgerProofs DaemonCode.

#[local] Opaque Sha256.hexdigest dumps_canonical PyStr.of_Z.

Lemma ctx_get_set_ne (ctx : context) (k k' : string) (v default : json) :
  k' <> k -> ctx_get (Json.set k v ctx) k' default = ctx_get ctx k' default.
Proof. intros Hne. unfold ctx_get. by rewrite lookup_set_ne. Qed.

Lemma ctx_get_lacks (ctx : context) (k : string) (default : json) :
  Json.lookup k ctx = None -> ctx_get ctx k default = default.
Proof. intros H. unfold ctx_get. by rewrite H. Qed.

End ValidatorsProofs.

Section ValidatorsExtras.
Import Invariants Validators ValidatorsSpec ValidatorsProofs DaemonCode DaemonSpec.
Import InvariantsSpec LedgerProofs.

(** X26.  What the validators can find in the context the daemon builds.
    The context holds constants for human oversight, the kill switch, the
    phase, refusal and data retention, and the expected constitution hash is
    a second reading of the current one.  So, whenever the two readings of
    the constitution agree, the validators of INV-002, INV-004, INV-008,
    INV-009 and INV-014 pass whatever the state of the system; that of
    INV-005 passes exactly when alerting is enabled in the configuration;
    and that of INV-003 never reports a modified constitution: it passes
    when the constitution file exists and fails with "hash not available"
    when it does not. *)
Theorem X26_daemon_context_fixes_the_checks (self : GovernanceDaemon) (ts : string)
    (h ch ch' : json) :
  h = JNull \/ (exists s, h = JStr s /\ s <> EmptyString) ->
  let ctx := _build_validation_context self h h ch ch' in
  status_of (validate_human_oversight ts ctx) = Some PASS
  /\ status_of (validate_deterministic_behavior ts ctx) = Some PASS
  /\ status_of (validate_refusal_capability ts ctx) = Some PASS
  /\ status_of (validate_data_minimization ts ctx) = Some PASS
  /\ status_of (validate_override_preserved ts ctx) = Some PASS
  /\ status_of (validate_graceful_degradation ts ctx)
     = Some (if alerting_enabled (config self) then PASS else FAIL)
  /\ status_of (validate_constitutional_supremacy ts ctx)
     = Some (match h with JNull => FAIL | _ => PASS end)
  /\ reason_of (validate_constitutional_supremacy ts ctx)
     <> Some "Constitution has been modified without authorization".
Proof.
  intros Hh ctx. do 5 (split; [reflexivity |]).
  split.
  { unfold validate_graceful_degradation, ctx, ctx_get, _build_validation_context.
    cbn [Json.lookup String.eqb Ascii.eqb Bool.eqb truthy].
    by destruct (alerting_enabled (config self)). }
  destruct Hh as [-> | (s & -> & Hs)]; [split; [reflexivity | discriminate] |].
  destruct s as [|c s]; [done |].
  unfold validate_constitutional_supremacy, ctx, ctx_get, _build_validation_context.
  cbn [Json.lookup String.eqb Ascii.eqb Bool.eqb truthy is_empty negb orb py_eqb].
  rewrite String.eqb_refl, Ascii.eqb_refl. cbn [negb]. split; [reflexivity | discriminate].
Qed.

Lemma X26_witness :
  (JStr "ab" = JNull \/ (exists s, JStr "ab" = JStr s /\ s <> EmptyString))
  /\ status_of (validate_human_oversight "t"
                  (_build_validation_context (daemon0 registry_A) (JStr "ab") (JStr "ab")
                     (JDict []) (JDict []))) = Some PASS
  /\ status_of (validate_constitutional_supremacy "t"
                  (_build_validation_context (daemon0 registry_A) (JStr "ab") (JStr "ab")
                     (JDict []) (JDict []))) = Some PASS.
Proof.
  assert (H : JStr "ab" = JNull \/ (exists s, JStr "ab" = JStr s /\ s <> EmptyString))
    by (right; exists "ab"; split; [reflexivity | discriminate]).
  split; [exact H |].
  destruct (X26_daemon_context_fixes_the_checks (daemon0 registry_A) "t" (JStr "ab")
              (JDict []) (JDict []) H) as (H2 & _ & _ & _ & _ & _ & H3 & _).
  split; [exact H2 | exact H3].
Defined.

(** X27.  Missing information.  On a context that has none of the keys
    they read, the validators of INV-002 (human oversight), INV-003
    (constitution hash) and INV-009 (retention policy) fail, the first two
    with severity CRITICAL, while those of INV-004, INV-005, INV-008 and
    INV-014 pass: determinism, logging and alerting, the refusal capability
    and the kill switch are taken to be in order when nothing is known about
    them. *)
Theorem X27_missing_keys (ts : string) (ctx : context) :
  lacks ctx [ "human_oversight_enabled"; "kill_switch_active"; "constitution_hash";
              "expected_constitution_hash"; "current_phase"; "deterministic_mode";
              "silent_failures_detected"; "logging_enabled"; "alerting_enabled";
              "refusal_enabled"; "refusal_overridden"; "data_retention_policy";
              "excessive_retention_detected"; "kill_switch_accessible";
              "kill_switch_disabled"; "override_delayed" ] ->
  verdict_of (validate_human_oversight ts ctx)
  = Some (FAIL, CRITICAL, "Human oversight is disabled")
  /\ verdict_of (validate_constitutional_supremacy ts ctx)
     = Some (FAIL, CRITICAL, "Constitution hash not available for verification")
  /\ verdict_of (validate_data_minimization ts ctx)
     = Some (FAIL, MEDIUM, "No data retention policy configured")
  /\ status_of (validate_deterministic_behavior ts ctx) = Some PASS
  /\ status_of (validate_graceful_degradation ts ctx) = Some PASS
  /\ status_of (validate_refusal_capability ts ctx) = Some PASS
  /\ status_of (validate_override_preserved ts ctx) = Some PASS.
Proof.
  unfold lacks. rewrite !Forall_cons. intros H.
  unfold validate_human_oversight, validate_constitutional_supremacy,
    validate_data_minimization, validate_deterministic_behavior,
    validate_graceful_degradation, validate_refusal_capability,
    validate_override_preserved.
  repeat (let Hk := fresh "Hk" in destruct H as [Hk H]; rewrite !(ctx_get_lacks _ _ _ Hk)).
  by repeat split.
Qed.

Lemma X27_witness :
  lacks [] [ "human_oversight_enabled"; "kill_switch_active"; "constitution_hash";
             "expected_constitution_hash"; "current_phase"; "deterministic_mode";
             "silent_failures_detected"; "logging_enabled"; "alerting_enabled";
             "refusal_enabled"; "refusal_overridden"; "data_retention_policy";
             "excessive_retention_detected"; "kill_switch_accessible";
             "kill_switch_disabled"; "override_delayed" ]
  /\ verdict_of (validate_human_oversight "t" [])
     = Some (FAIL, CRITICAL, "Human oversight is disabled")
  /\ status_of (validate_override_preserved "t" []) = Some PASS.
Proof.
  assert (H : lacks [] [ "human_oversight_enabled"; "kill_switch_active";
                         "constitution_hash"; "expected_constitution_hash";
                         "current_phase"; "deterministic_mode";
                         "silent_failures_detected"; "logging_enabled";
                         "alerting_enabled"; "refusal_enabled"; "refusal_overridden";
                         "data_retention_policy"; "excessive_retention_detected";
                         "kill_switch_accessible"; "kill_switch_disabled";
                         "override_delayed" ])
    by (repeat constructor).
  split; [exact H |].
  destruct (X27_missing_keys "t" [] H) as (H2 & _ & _ & _ & _ & _ & H14).
  split; [exact H2 | exact H14].
Defined.

(** X28.  Whether the kill switch is active is recorded, never checked.
    For each of the validators of INV-002, INV-003, INV-004, INV-005,
    INV-008, INV-009 and INV-014, on every context, status, severity and
    reason are the same whatever value the context gives to
    "kill_switch_active", the one key about the state of the kill switch
    that the validator of INV-002 reads.  That validator only copies it into
    the evidence: its result holds, under "kill_switch_active", the value of
    the context, and False when the context has none. *)
Theorem X28_kill_switch_active_is_not_checked (ts : string) (ctx : context) (v : json) :
  Forall (fun iv => verdict_of (snd iv ts (Json.set "kill_switch_active" v ctx))
                    = verdict_of (snd iv ts ctx))
         modelled_validators
  /\ (exists r, validate_human_oversight ts (Json.set "kill_switch_active" v ctx)
                = Returned r
                /\ Json.lookup "kill_switch_active" (evidence r) = Some v)
  /\ (exists r, validate_human_oversight ts ctx = Returned r
                /\ Json.lookup "kill_switch_active" (evidence r)
                   = Some (match Json.lookup "kill_switch_active" ctx with
                           | Some v0 => v0
                           | None => JBool false
                           end)).
Proof.
  split; [| split].
  - unfold modelled_validators. repeat constructor; cbn [snd].
    + unfold validate_human_oversight.
      rewrite (ctx_get_set_ne ctx "kill_switch_active" "human_oversight_enabled") by done.
      by destruct (truthy _).
    + unfold validate_constitutional_supremacy. by rewrite !ctx_get_set_ne by done.
    + unfold validate_deterministic_behavior. by rewrite !ctx_get_set_ne by done.
    + unfold validate_graceful_degradation. by rewrite !ctx_get_set_ne by done.
    + unfold validate_refusal_capability. by rewrite !ctx_get_set_ne by done.
    + unfold validate_data_minimization. by rewrite !ctx_get_set_ne by done.
    + unfold validate_override_preserved. by rewrite !ctx_get_set_ne by done.
  - unfold validate_human_oversight.
    assert (Hv : ctx_get (Json.set "kill_switch_active" v ctx) "kill_switch_active"
                   (JBool false) = v)
      by (unfold ctx_get; by rewrite lookup_set_eq).
    rewrite Hv.
    destruct (negb (truthy _)); eexists; (split; [reflexivity |]); reflexivity.
  - unfold validate_human_oversight.
    destruct (negb (truthy _)); eexists; (split; [reflexivity |]); reflexivity.
Qed.

End ValidatorsExtras.
